(** * ZenML step runner: a shallow embedding and its verified properties

    The development follows [src/zenml/orchestrators/step_runner.py]
    (class [StepRunner]) and [src/zenml/models/user_management_models.py]
    (the secrets and the access tokens of [UserModel], and [JWTToken]).

    Python code that raises is embedded in a state-and-exception monad
    [M]; dictionaries that are only looked up are [gmap]s, dictionaries
    whose iteration order matters are association lists. *)

From Stdlib Require Import ZArith Ascii String.
From stdpp Require Import base option list strings gmap.

Local Open Scope string_scope.
Local Open Scope list_scope.

(** ** Python classes and values *)

Inductive builtin : Type :=
  | B_object | B_NoneType | B_bool | B_int | B_str
  | B_list | B_tuple | B_dict.

(** A class is a builtin, or derives (single inheritance) from a class. *)
Inductive pyclass : Type :=
  | Builtin (b : builtin)
  | Derived (name : string) (parent : pyclass).

#[global] Instance builtin_eq_dec : EqDecision builtin.
Proof. solve_decision. Defined.
#[global] Instance pyclass_eq_dec : EqDecision pyclass.
Proof. solve_decision. Defined.

(** [cls.__mro__] *)
Fixpoint mro (c : pyclass) : list pyclass :=
  match c with
  | Builtin B_object => [c]
  | Builtin B_bool => [c; Builtin B_int; Builtin B_object]
  | Builtin _ => [c; Builtin B_object]
  | Derived _ p => c :: mro p
  end.

Definition issubclass (c d : pyclass) : bool := bool_decide (d ∈ mro c).

Definition StepContext_class : pyclass :=
  Derived "StepContext" (Builtin B_object).
Definition UnmaterializedArtifact_class : pyclass :=
  Derived "UnmaterializedArtifact" (Builtin B_object).

#[warnings="-register-all"]
Inductive value : Type :=
  | VNone
  | VBool (b : bool)
  | VInt (n : Z)
  | VStr (s : string)
  | VList (items : list value)
  | VTuple (items : list value)
  | VInstance (cls : string) (parent : pyclass) (items : list value)
  | VStepContext
  | VUnmaterialized (artifact_id : N).

(** [type(v)] *)
Definition type_of (v : value) : pyclass :=
  match v with
  | VNone => Builtin B_NoneType
  | VBool _ => Builtin B_bool
  | VInt _ => Builtin B_int
  | VStr _ => Builtin B_str
  | VList _ => Builtin B_list
  | VTuple _ => Builtin B_tuple
  | VInstance c p _ => Derived c p
  | VStepContext => StepContext_class
  | VUnmaterialized _ => UnmaterializedArtifact_class
  end.

(** The elements of a list, of a tuple, or of an instance of a class
    derived from one of them; [len] is their number. *)
Definition sequence_items (v : value) : list value :=
  match v with
  | VList l | VTuple l | VInstance _ _ l => l
  | _ => []
  end.

(** [isinstance(v, (list, tuple))] *)
Definition is_list_or_tuple (v : value) : bool :=
  issubclass (type_of v) (Builtin B_list)
  || issubclass (type_of v) (Builtin B_tuple).

(** Resolved type annotations: [Any], a class, or a [Union] whose
    arguments [get_args] has resolved to classes. *)
Inductive annotation : Type :=
  | TAny
  | TClass (c : pyclass)
  | TUnion (args : list pyclass).

#[global] Instance annotation_eq_dec : EqDecision annotation.
Proof. solve_decision. Defined.

(** [isinstance(v, output_type)], where a union has been replaced by the
    tuple of its arguments. *)
Definition isinstance (v : value) (t : annotation) : bool :=
  match t with
  | TAny => true
  | TClass c => issubclass (type_of v) c
  | TUnion cs => existsb (issubclass (type_of v)) cs
  end.

(** ** Exceptions *)

Inductive exn_class : Type :=
  | StepInterfaceError
  | StepContextError
  | RuntimeError
  | TypeError
  | KeyError
  | OtherException (name : string)
  | OtherBaseException (name : string).

(** [issubclass(cls, Exception)]: [KeyboardInterrupt], [SystemExit] and
    the like derive from [BaseException] only. *)
Definition is_Exception (c : exn_class) : bool :=
  match c with
  | OtherBaseException _ => false
  | _ => true
  end.

(** The messages the runner formats, by format string and arguments. *)
Inductive message : Type :=
  | MsgText (s : string)
  | MsgExpectedNoOutputs (step_name : string) (return_values : value)
  | MsgNotListOrTuple (step_name : string) (outputs : list string)
      (return_values : value)
  | MsgWrongAmount (step_name : string) (expected actual : nat)
      (return_values : value)
  | MsgWrongType (output_name step_name : string) (expected : annotation)
      (actual : pyclass)
  | MsgMissingArgument (arg : string)
  | MsgBadHookArgument
  | MsgNoStepContext
  | MsgKey (key : string).

Record exn : Type := Exn { exn_type : exn_class; exn_message : message }.

Inductive outcome (A : Type) : Type :=
  | Returned (a : A)
  | Raised (e : exn).
Arguments Returned {A} a.
Arguments Raised {A} e.

Definition is_raised {A} (o : outcome A) : bool :=
  match o with Raised _ => true | Returned _ => false end.

(** ** Ordered dictionaries

    A Python [dict] whose iteration order is observed is an association
    list in insertion order. *)

Definition odict (V : Type) : Type := list (string * V).

Fixpoint dict_get {V} (d : odict V) (k : string) : option V :=
  match d with
  | [] => None
  | (k', v) :: d' => if decide (k' = k) then Some v else dict_get d' k
  end.

(** [d[k] = v]: an existing key keeps its position. *)
Fixpoint dict_set {V} (d : odict V) (k : string) (v : V) : odict V :=
  match d with
  | [] => [(k, v)]
  | (k', v') :: d' =>
      if decide (k' = k) then (k, v) :: d' else (k', v') :: dict_set d' k v
  end.

Definition dict_keys {V} (d : odict V) : list string := d.*1.
Definition dict_values {V} (d : odict V) : list V := d.*2.

(** ** Data model *)

Definition UUID : Type := N.
Definition Source : Type := string.

(** A declarative model reference ([zenml.model.Model]). *)
Record Model : Type := {
  model_name : string;
  model_version : option string;
}.

Record ArtifactConfig : Type := {
  ac_name : option string;
  ac_version : option string;
  (** the value of the property [artifact_config._model] *)
  ac_model : option Model;
}.

Record OutputSignature : Type := {
  resolved_annotation : annotation;
  artifact_config : option ArtifactConfig;
}.

(** A materializer class, by its source and its class method
    [can_handle_type]: the types it can save and load. *)
Record Materializer : Type := {
  mat_source : Source;
  can_handle_type : pyclass → bool;
}.

Record ArtifactVersionResponse : Type := {
  av_id : UUID;
  av_uri : string;
  av_materializer : Source;
  av_data_type : Source;
}.

(** [external_artifact.model], already resolved: its [model_id], [id]. *)
Record ExternalArtifactConfiguration : Type := {
  ea_model : option (UUID * UUID);
}.

Record ArtifactOutputConfiguration : Type := {
  materializer_source : list Source;
  default_materializer_source : option Source;
}.

Record StepConfiguration : Type := {
  name : string;
  parameters : gmap string value;
  outputs : odict ArtifactOutputConfiguration;
  failure_hook_source : option Source;
  success_hook_source : option Source;
  enable_step_logs : option bool;
  enable_cache : option bool;
  enable_artifact_metadata : option bool;
  enable_artifact_visualization : option bool;
  model : option Model;
  external_input_artifacts : odict ExternalArtifactConfiguration;
}.

Record PipelineConfiguration : Type := {
  p_enable_step_logs : option bool;
  p_enable_cache : option bool;
  p_enable_artifact_metadata : option bool;
  p_enable_artifact_visualization : option bool;
  p_model : option Model;
}.

Record StepSpec : Type := {
  source : Source;
  pipeline_parameter_name : string;
}.

(** [self._step] *)
Record Step : Type := {
  spec : StepSpec;
  config : StepConfiguration;
}.

Record PipelineRunResponse : Type := {
  pr_id : UUID;
  pr_config : PipelineConfiguration;
  (** [pipeline_run.pipeline.name], when the run belongs to a pipeline *)
  pr_pipeline : option string;
}.

Record StepRunResponse : Type := {
  sr_name : string;
  sr_config : StepConfiguration;
  (** [step_run.logs.uri] *)
  sr_logs : option string;
}.

Record StepRunInfo : Type := {
  step_run_id : UUID;
  sri_config : StepConfiguration;
  sri_pipeline : PipelineConfiguration;
}.

Definition Metadata : Type := list (string * string).

(** The arguments of one call of [save_artifact]. *)
Record SaveRequest : Type := {
  sa_name : string;
  sa_data : value;
  sa_materializer : Materializer;
  sa_uri : string;
  sa_extract_metadata : bool;
  sa_include_visualizations : bool;
  sa_has_custom_name : bool;
  sa_version : option string;
  sa_tags : list string;
  sa_user_metadata : Metadata;
  sa_manual_save : bool;
}.

(** Arguments a hook can receive: step parameters as parsed by the class
    of the argument, the step context singleton itself (the object, not
    a copy: what the hook does to it is seen by the runner), or the
    exception of the step. *)
Inductive hook_value : Type :=
  | HParameters (v : value)
  | HStepContext
  | HException (e : option exn).

(** The resolved annotation of a hook argument, as [_parse_hook_inputs]
    tells them apart. A subclass of [BaseParameters] comes with its
    [parse_obj], which fails with pydantic's [ValidationError] on an
    object that does not fit the class. *)
Inductive hook_annotation : Type :=
  | HA_missing
  | HA_BaseParameters (parse_obj : value → option value)
  | HA_StepContext
  | HA_BaseException
  | HA_other.

(** The loaded step instance: what [inspect.getfullargspec] and
    [parse_return_type_annotations] read off its entrypoint, and the
    entrypoint itself, given by how it ends on its arguments. *)
Record BaseStep : Type := {
  entrypoint_args : list string;
  entrypoint_annotations : gmap string annotation;
  output_annotations : odict OutputSignature;
  call_entrypoint : odict value → outcome value;
}.

(** ** The process state *)

Record StepContextOutput : Type := {
  materializer_classes : list Materializer;
  artifact_uri : string;
  sco_artifact_config : option ArtifactConfig;
  run_metadata : Metadata;
  tags : list string;
}.

Record StepContext : Type := {
  ctx_pipeline_run : PipelineRunResponse;
  ctx_step_run : StepRunResponse;
  ctx_outputs : odict StepContextOutput;
  ctx_cache_enabled : bool;
  ctx_model : option Model;
}.

(** The process-wide materializer registry. *)
Record MaterializerRegistry : Type := {
  materializer_types : list (pyclass * Materializer);
  default_materializer : Materializer;
}.

(** How the call of a hook ends. A hook runs in the process of the
    runner: it is handed the live step context (or reaches it through
    [get_step_context()]), and can change it, clear it, or change the
    materializer registry. *)
Record HookResult : Type := {
  hook_outcome : outcome unit;
  hook_context : option StepContext;
  hook_registry : MaterializerRegistry;
}.

Record Hook : Type := {
  hook_args : list string;
  hook_annotations : gmap string hook_annotation;
  hook_call : odict hook_value → option StepContext → MaterializerRegistry
              → HookResult;
}.

(** Calls the runner makes to its collaborators, in order. *)
Inductive event : Type :=
  | EvPrepareStepRun
  | EvGetOrCreateModelVersion (m : Model)
  | EvCreateRunLink (run model version : UUID)
  | EvHookCall (src : Source) (args : odict hook_value)
  | EvLogError (src : Source) (e : exn)
  | EvGetStepRunMetadata
  | EvPublishStepRunMetadata (id : UUID)
  | EvCleanupStepRun (step_failed : bool)
  | EvSaveArtifact (req : SaveRequest)
  | EvLinkStepArtifacts (ids : odict UUID)
  | EvPublishSuccessfulStepRun (id : UUID) (ids : odict UUID).

Record world : Type := World {
  (** the [StepContext] singleton, when one is live *)
  step_context : option StepContext;
  materializer_registry : MaterializerRegistry;
  events : list event;
}.

(** The save requests issued so far: the writes to the artifact store. *)
Definition saved (w : world) : list SaveRequest :=
  omap (λ ev, match ev with EvSaveArtifact r => Some r | _ => None end)
       (events w).

(** The (run, model, model version) links requested so far. *)
Definition run_links (w : world) : list (UUID * UUID * UUID) :=
  omap (λ ev, match ev with
              | EvCreateRunLink r m v => Some (r, m, v)
              | _ => None
              end) (events w).

(** ** The monad of Python statements *)

Definition M (A : Type) : Type := world → outcome A * world.

#[global] Instance M_ret : MRet M := λ A a w, (Returned a, w).
#[global] Instance M_bind : MBind M := λ A B f m w,
  match m w with
  | (Returned a, w') => f a w'
  | (Raised e, w') => (Raised e, w')
  end.

Definition raise {A} (t : exn_class) (msg : message) : M A :=
  λ w, (Raised (Exn t msg), w).
Definition lift {A} (o : outcome A) : M A := λ w, (o, w).
Definition get_world : M world := λ w, (Returned w, w).
Definition emit (ev : event) : M unit :=
  λ w, (Returned tt, World (step_context w) (materializer_registry w)
                           (events w ++ [ev])).
(** A call to a collaborator: recorded, then its outcome. *)
Definition call {A} (ev : event) (o : outcome A) : M A := emit ev;; lift o.

(** The call of a hook on its arguments, in the process. *)
Definition run_hook (hook : Hook) (args : odict hook_value) : M unit :=
  λ w, let r := hook_call hook args (step_context w)
                  (materializer_registry w) in
       (hook_outcome r,
        World (hook_context r) (hook_registry r) (events w)).

Definition set_step_context (c : option StepContext) : M unit :=
  λ w, (Returned tt, World c (materializer_registry w) (events w)).
Definition set_default_materializer (m : Materializer) : M unit :=
  λ w, (Returned tt,
        World (step_context w)
              {| materializer_types :=
                   materializer_types (materializer_registry w);
                 default_materializer := m |}
              (events w)).

(** [d[k]] on a dictionary: [KeyError] when the key is missing. *)
Definition subscript {V} (o : option V) (k : string) : M V :=
  match o with
  | Some v => mret v
  | None => raise KeyError (MsgKey k)
  end.

(** [try: body / except BaseException: handler; raise]: the handler runs
    on any exception, which is then raised again, unless the handler
    itself raises. *)
Definition try_except_reraise {A} (body : M A) (handler : exn → M unit)
  : M A :=
  λ w, match body w with
       | (Returned a, w1) => (Returned a, w1)
       | (Raised e, w1) =>
           match handler e w1 with
           | (Returned _, w2) => (Raised e, w2)
           | (Raised e', w2) => (Raised e', w2)
           end
       end.

(** [try: body / finally: fin]: [fin] sees how [body] ended; when [fin]
    raises, its exception replaces the one in flight; otherwise the
    exception of [body], if any, goes on. *)
Definition try_finally {A B} (body : M A) (fin : outcome A → M B) : M B :=
  λ w, match body w with
       | (o, w1) =>
           match fin o w1 with
           | (Raised e', w2) => (Raised e', w2)
           | (Returned b, w2) =>
               match o with
               | Returned _ => (Returned b, w2)
               | Raised e => (Raised e, w2)
               end
           end
       end.

(** [try: body / except Exception as e: handler e] *)
Definition try_except_Exception (body : M unit) (handler : exn → M unit)
  : M unit :=
  λ w, match body w with
       | (Returned a, w1) => (Returned a, w1)
       | (Raised e, w1) =>
           if is_Exception (exn_type e) then handler e w1
           else (Raised e, w1)
       end.

(** [try: body / except StepContextError: return default] *)
Definition try_except_StepContextError {A} (body : M A) (default : A)
  : M A :=
  λ w, match body w with
       | (Returned a, w1) => (Returned a, w1)
       | (Raised e, w1) =>
           match exn_type e with
           | StepContextError => (Returned default, w1)
           | _ => (Raised e, w1)
           end
       end.

(** A [for] loop over a list that threads an accumulator. *)
Fixpoint for_each {A B} (l : list A) (acc : B) (body : B → A → M B) : M B :=
  match l with
  | [] => mret acc
  | x :: l' => acc' ← body acc x; for_each l' acc' body
  end.

(** What one iteration of a loop asks for next. *)
Inductive loop_step (B : Type) : Type :=
  | Continue (acc : B)
  | Break (acc : B).
Arguments Continue {B} acc.
Arguments Break {B} acc.

(** A [for] loop whose body may [break]. *)
Fixpoint for_each_break {A B} (l : list A) (acc : B)
    (body : B → A → M (loop_step B)) : M B :=
  match l with
  | [] => mret acc
  | x :: l' =>
      r ← body acc x;
      match r with
      | Continue acc' => for_each_break l' acc' body
      | Break acc' => mret acc'
      end
  end.

(** ** Collaborators

    Code the runner calls and that lives outside the modelled sources:
    the stack, the store client, the source loader and the materializers.
    Each is given by the outcome of its call; context managers of
    collaborators ([StepEnvironment], the logs context) are transparent. *)

Record Env : Type := {
  (** [handle_bool_env_var(ENV_ZENML_DISABLE_STEP_LOGS_STORAGE, False)] *)
  disable_step_logs_storage : bool;
  (** [redirected.get()] *)
  redirected : bool;
  (** [BaseStep.load_from_source] *)
  load_from_source : Source → outcome BaseStep;
  (** [source_utils.load_and_validate_class(_, BaseMaterializer)] *)
  load_and_validate_class : Source → outcome Materializer;
  (** [source_utils.load] on the source of a data type, of a hook *)
  load_data_type : Source → outcome pyclass;
  load_hook : Source → outcome Hook;
  prepare_step_run : StepRunInfo → outcome unit;
  get_step_run_metadata : StepRunInfo → outcome Metadata;
  publish_step_run_metadata : UUID → Metadata → outcome unit;
  cleanup_step_run : StepRunInfo → bool → outcome unit;
  (** [model._get_or_create_model_version()]: the ids of the model and of
      the model version *)
  get_or_create_model_version : Model → outcome (UUID * UUID);
  create_model_version_pipeline_run_link : UUID → UUID → UUID → outcome unit;
  save_artifact : SaveRequest → outcome UUID;
  link_step_artifacts_to_model : odict UUID → outcome unit;
  (** [materializer_class(uri).load(data_type)] *)
  materializer_load : Materializer → string → pyclass → outcome value;
  publish_successful_step_run : UUID → odict UUID → outcome unit;
}.

(** Modelled from the spec: [zenml.orchestrators.utils.is_setting_enabled]
    is imported by the runner and is not among the sources; the spec gives
    it as "per-step setting, else per-pipeline setting, else
    default-enabled". *)
Definition is_setting_enabled
    (is_enabled_on_step is_enabled_on_pipeline : option bool) : bool :=
  match is_enabled_on_step with
  | Some b => b
  | None =>
      match is_enabled_on_pipeline with
      | Some b => b
      | None => true
      end
  end.

(** Modelled from the spec: [materializer_utils.select_materializer] is
    not among the sources; the spec gives it as "first matching declared
    candidate wins; candidates are tried in declaration order". *)
Definition select_materializer (data_type : pyclass)
    (materializer_classes : list Materializer) : M Materializer :=
  match List.find (λ m, can_handle_type m data_type) materializer_classes with
  | Some m => mret m
  | None => raise RuntimeError (MsgText "No materializer found")
  end.

(** Modelled from the spec: [materializer_registry[data_type]] is not
    among the sources; the spec gives it as "a global registry keyed by
    exact runtime type, with an explicitly settable default entry used
    when no exact match exists". *)
Definition registry_getitem (r : MaterializerRegistry) (data_type : pyclass)
  : Materializer :=
  match List.find (λ e, bool_decide (e.1 = data_type)) (materializer_types r)
  with
  | Some e => e.2
  | None => default_materializer r
  end.

(** *** The step context singleton

    [zenml.new.steps.step_context] is not among the sources; the spec
    gives the context as one live instance per executing step, carrying
    the output materializers, URIs and artifact configurations, the cache
    flag and the model binding of the step, falling back to the one of
    the pipeline. *)

(** Modelled from the spec: [get_step_context()], which needs a live
    context. *)
Definition get_step_context : M StepContext :=
  w ← get_world;
  match step_context w with
  | Some c => mret c
  | None => raise RuntimeError MsgNoStepContext
  end.

(** Modelled from the spec: [StepContext._clear()], which removes the
    singleton. *)
Definition StepContext_clear : M unit := set_step_context None.

(** Modelled from the spec: [StepContext(...)], which binds the
    singleton. *)
Definition StepContext_init (pipeline_run : PipelineRunResponse)
    (step_run : StepRunResponse)
    (output_materializers : odict (list Materializer))
    (output_artifact_uris : gmap string string)
    (cache_enabled : bool)
    (output_artifact_configs : odict (option ArtifactConfig)) : M unit :=
  outs ← for_each output_materializers []
    (λ (outs : odict StepContextOutput) '(output_name, classes),
       uri ← subscript (output_artifact_uris !! output_name) output_name;
       cfg ← subscript (dict_get output_artifact_configs output_name)
                       output_name;
       mret (dict_set outs output_name
               {| materializer_classes := classes;
                  artifact_uri := uri;
                  sco_artifact_config := cfg;
                  run_metadata := [];
                  tags := [] |}));
  set_step_context
    (Some {| ctx_pipeline_run := pipeline_run;
             ctx_step_run := step_run;
             ctx_outputs := outs;
             ctx_cache_enabled := cache_enabled;
             ctx_model :=
               match model (sr_config step_run) with
               | Some m => Some m
               | None => p_model (pr_config pipeline_run)
               end |}).

(** Modelled from the spec: the property [step_context.model], which
    raises [StepContextError] when neither the step nor the pipeline
    declares a model. *)
Definition context_model (c : StepContext) : M Model :=
  match ctx_model c with
  | Some m => mret m
  | None => raise StepContextError (MsgText "No model configured")
  end.

(** Modelled from the spec: [step_context._get_output(name)]. *)
Definition context_get_output (c : StepContext) (output_name : string)
  : M StepContextOutput :=
  match dict_get (ctx_outputs c) output_name with
  | Some o => mret o
  | None => raise StepContextError (MsgKey output_name)
  end.

(** Modelled from the spec: [step_context.get_output_metadata(name)], the
    metadata accumulated on the context for an output. *)
Definition get_output_metadata (c : StepContext) (output_name : string)
  : M Metadata :=
  o ← context_get_output c output_name; mret (run_metadata o).

(** Modelled from the spec: [step_context.get_output_tags(name)], the
    tags accumulated on the context for an output. *)
Definition get_output_tags (c : StepContext) (output_name : string)
  : M (list string) :=
  o ← context_get_output c output_name; mret (tags o).

(** ** The step runner *)

Module StepRunner.
Section methods.

Context (env : Env).
(** [self._step] *)
Context (self : Step).

Definition configuration : StepConfiguration := config self.

(** [run], lines 122-131: the decision to capture the logs of the step. *)
Definition step_logging_enabled (step_run : StepRunResponse)
    (pipeline_run : PipelineRunResponse) : bool :=
  if disable_step_logs_storage env then false
  else
    let enabled_on_step := enable_step_logs (sr_config step_run) in
    let enabled_on_pipeline := p_enable_step_logs (pr_config pipeline_run) in
    is_setting_enabled enabled_on_step enabled_on_pipeline.

(** [run], lines 133-143: the URI the logs are stored at, if any. *)
Definition logs_context (step_run : StepRunResponse)
    (pipeline_run : PipelineRunResponse) : option string :=
  if step_logging_enabled step_run pipeline_run && negb (redirected env)
  then sr_logs step_run
  else None.

Definition _load_step : M BaseStep :=
  lift (load_from_source env (source (spec self))).

Definition _load_output_materializers : M (odict (list Materializer)) :=
  for_each (outputs configuration) []
    (λ materializers '(name, output),
       output_materializers ← for_each (materializer_source output) []
         (λ acc src,
            materializer_class ← lift (load_and_validate_class env src);
            mret (acc ++ [materializer_class]));
       mret (dict_set materializers name output_materializers)).

(** [inspect.isclass(arg_type) and issubclass(arg_type, StepContext)] *)
Definition is_step_context_type (arg_type : option annotation) : bool :=
  match arg_type with
  | Some (TClass c) => issubclass c StepContext_class
  | _ => false
  end.

Definition _load_input_artifact (artifact : ArtifactVersionResponse)
    (data_type : option annotation) : M value :=
  if decide (data_type = Some (TClass UnmaterializedArtifact_class))
  then mret (VUnmaterialized (av_id artifact))
  else
    data_type ←
      match data_type with
      | Some TAny | Some (TUnion _) =>
          c ← lift (load_data_type env (av_data_type artifact));
          mret (Some c)
      | Some (TClass c) => mret (Some c)
      | None => mret None
      end;
    materializer_class ←
      lift (load_and_validate_class env (av_materializer artifact));
    match data_type with
    | Some c =>
        (* [materializer.validate_type_compatibility(data_type)], which
           the spec gives as failing when the stored type is incompatible
           with the declared one *)
        if can_handle_type materializer_class c
        then lift (materializer_load env materializer_class
                     (av_uri artifact) c)
        else raise TypeError (MsgText "incompatible data type")
    | None => raise TypeError (MsgText "incompatible data type")
    end.

(** [if args and args[0] == "self": args.pop(0)] *)
Definition drop_self (args : list string) : list string :=
  match args with
  | a :: rest => if decide (a = "self") then rest else args
  | [] => []
  end.

(** The body of the loop of [_parse_inputs] for one argument. *)
Definition parse_input (annotations : gmap string annotation)
    (input_artifacts : gmap string ArtifactVersionResponse)
    (function_params : odict value) (arg : string) : M (odict value) :=
  let arg_type := annotations !! arg in
  if is_step_context_type arg_type then
    _ ← get_step_context;
    mret (dict_set function_params arg VStepContext)
  else
    match input_artifacts !! arg with
    | Some artifact =>
        v ← _load_input_artifact artifact arg_type;
        mret (dict_set function_params arg v)
    | None =>
        match parameters configuration !! arg with
        | Some v => mret (dict_set function_params arg v)
        | None => raise RuntimeError (MsgMissingArgument arg)
        end
    end.

Definition _parse_inputs (args : list string)
    (annotations : gmap string annotation)
    (input_artifacts : gmap string ArtifactVersionResponse)
  : M (odict value) :=
  for_each (drop_self args) [] (parse_input annotations input_artifacts).

Definition _parse_hook_inputs (args : list string)
    (annotations : gmap string hook_annotation)
    (step_exception : option exn) : M (odict hook_value) :=
  for_each (drop_self args) []
    (λ function_params arg,
       match default HA_missing (annotations !! arg) with
       | HA_missing =>
           raise TypeError (MsgText "issubclass() arg 1 must be a class")
       | HA_BaseParameters parse_obj =>
           v ← subscript (parameters configuration !! arg) arg;
           step_params ←
             match parse_obj v with
             | Some step_params => mret step_params
             | None =>
                 raise (OtherException "ValidationError")
                       (MsgText "validation error for the hook parameters")
             end;
           mret (dict_set function_params arg (HParameters step_params))
       | HA_StepContext =>
           _ ← get_step_context;
           mret (dict_set function_params arg HStepContext)
       | HA_BaseException =>
           mret (dict_set function_params arg (HException step_exception))
       | HA_other => raise TypeError MsgBadHookArgument
       end).

(** The body of the loop of [_validate_outputs]: one output. *)
Definition validate_output (step_name : string)
    (validated_outputs : odict value)
    (item : value * (string * OutputSignature)) : M (odict value) :=
  let '(return_value, (output_name, output_annotation)) := item in
  let output_type := resolved_annotation output_annotation in
  match output_type with
  | TAny => mret (dict_set validated_outputs output_name return_value)
  | _ =>
      if negb (isinstance return_value output_type) then
        raise StepInterfaceError
          (MsgWrongType output_name step_name output_type
             (type_of return_value))
      else mret (dict_set validated_outputs output_name return_value)
  end.

Definition _validate_outputs (return_values : value)
    (output_annotations : odict OutputSignature) : M (odict value) :=
  let step_name := pipeline_parameter_name (spec self) in
  if decide (length output_annotations = 0) then
    match return_values with
    | VNone => mret []
    | _ =>
        raise StepInterfaceError
          (MsgExpectedNoOutputs step_name return_values)
    end
  else
    let return_values :=
      if decide (length output_annotations = 1)
      then VList [return_values] else return_values in
    if negb (is_list_or_tuple return_values) then
      raise StepInterfaceError
        (MsgNotListOrTuple step_name (dict_keys output_annotations)
           return_values)
    else if decide (length output_annotations
                    ≠ length (sequence_items return_values)) then
      raise StepInterfaceError
        (MsgWrongAmount step_name (length output_annotations)
           (length (sequence_items return_values)) return_values)
    else
      for_each (zip (sequence_items return_values) output_annotations) []
        (validate_output step_name).

(** [bool(artifact_config.name)] *)
Definition has_name (c : ArtifactConfig) : bool :=
  match ac_name c with
  | Some n => negb (bool_decide (n = ""))
  | None => false
  end.

(** The name the artifact of an output is saved under
    ([_store_output_artifacts], lines 594-612). *)
Definition artifact_name_of (step_context : StepContext)
    (output_name : string) (has_custom_name : bool) : string :=
  if has_custom_name then output_name
  else
    let pipeline_name :=
      match pr_pipeline (ctx_pipeline_run step_context) with
      | Some n => n
      | None => "unlisted"
      end in
    let step_name := sr_name (ctx_step_run step_context) in
    pipeline_name +:+ "::" +:+ step_name +:+ "::" +:+ output_name.

(** The materializer of one output ([_store_output_artifacts], lines
    562-592). *)
Definition choose_materializer
    (output_materializers : odict (list Materializer))
    (output_name : string) (data_type : pyclass) : M Materializer :=
  materializer_classes ←
    subscript (dict_get output_materializers output_name) output_name;
  match materializer_classes with
  | _ :: _ => select_materializer data_type materializer_classes
  | [] =>
      output ← subscript (dict_get (outputs (config self)) output_name)
                         output_name;
      match default_materializer_source output with
      | Some src =>
          default_materializer_class ← lift (load_and_validate_class env src);
          set_default_materializer default_materializer_class
      | None => mret tt
      end;;
      w ← get_world;
      mret (registry_getitem (materializer_registry w) data_type)
  end.

(** The body of the loop of [_store_output_artifacts]: one output. *)
Definition store_output (step_context : StepContext)
    (output_materializers : odict (list Materializer))
    (output_artifact_uris : gmap string string)
    (output_annotations : odict OutputSignature)
    (artifact_metadata_enabled artifact_visualization_enabled : bool)
    (output_artifacts : odict UUID) (item : string * value)
  : M (odict UUID) :=
  let '(output_name, return_value) := item in
  let data_type := type_of return_value in
  materializer_class ←
    choose_materializer output_materializers output_name data_type;
  uri ← subscript (output_artifact_uris !! output_name) output_name;
  signature ←
    subscript (dict_get output_annotations output_name) output_name;
  let has_custom_name :=
    match artifact_config signature with
    | Some artifact_config => has_name artifact_config
    | None => false
    end in
  let version :=
    match artifact_config signature with
    | Some artifact_config => ac_version artifact_config
    | None => None
    end in
  let artifact_name :=
    artifact_name_of step_context output_name has_custom_name in
  user_metadata ← get_output_metadata step_context output_name;
  tags ← get_output_tags step_context output_name;
  let request :=
    {| sa_name := artifact_name;
       sa_data := return_value;
       sa_materializer := materializer_class;
       sa_uri := uri;
       sa_extract_metadata := artifact_metadata_enabled;
       sa_include_visualizations := artifact_visualization_enabled;
       sa_has_custom_name := has_custom_name;
       sa_version := version;
       sa_tags := tags;
       sa_user_metadata := user_metadata;
       sa_manual_save := false |} in
  artifact_id ← call (EvSaveArtifact request) (save_artifact env request);
  mret (dict_set output_artifacts output_name artifact_id).

Definition _store_output_artifacts (output_data : odict value)
    (output_materializers : odict (list Materializer))
    (output_artifact_uris : gmap string string)
    (output_annotations : odict OutputSignature)
    (artifact_metadata_enabled artifact_visualization_enabled : bool)
  : M (odict UUID) :=
  step_context ← get_step_context;
  for_each output_data []
    (store_output step_context output_materializers output_artifact_uris
       output_annotations artifact_metadata_enabled
       artifact_visualization_enabled).

Definition _prepare_model_context_for_step : M unit :=
  try_except_StepContextError
    (step_context ← get_step_context;
     model ← context_model step_context;
     _ ← call (EvGetOrCreateModelVersion model)
              (get_or_create_model_version env model);
     mret tt)
    tt.

(** The body of the loop of [_get_model_versions_from_artifacts]. *)
Definition model_version_of_artifact (models : gset (UUID * UUID))
    (artifact_name : string) : M (loop_step (gset (UUID * UUID))) :=
  step_context ← get_step_context;
  output ← context_get_output step_context artifact_name;
  match sco_artifact_config output with
  | Some artifact_config =>
      match ac_model artifact_config with
      | Some model =>
          model_version_response ←
            call (EvGetOrCreateModelVersion model)
                 (get_or_create_model_version env model);
          mret (Continue ({[ model_version_response ]} ∪ models))
      | None => mret (Break models)
      end
  | None => mret (Continue models)
  end.

Definition _get_model_versions_from_artifacts (artifact_names : list string)
  : M (gset (UUID * UUID)) :=
  for_each_break artifact_names ∅ model_version_of_artifact.

Definition _get_model_versions_from_config : M (gset (UUID * UUID)) :=
  try_except_StepContextError
    (step_context ← get_step_context;
     mc ← context_model step_context;
     model_version ←
       call (EvGetOrCreateModelVersion mc)
            (get_or_create_model_version env mc);
     mret ({[ model_version ]} : gset (UUID * UUID)))
    ∅.

(** [for model in models: create_model_version_pipeline_run_link(...)];
    the order in which Python iterates over the set is that of
    [elements]. *)
Definition create_links (pipeline_run : PipelineRunResponse)
    (models : gset (UUID * UUID)) : M unit :=
  for_each (elements models) tt
    (λ _ model,
       call (EvCreateRunLink (pr_id pipeline_run) model.1 model.2)
            (create_model_version_pipeline_run_link env
               (pr_id pipeline_run) model.1 model.2)).

Definition _link_pipeline_run_to_model_from_context
    (pipeline_run : PipelineRunResponse) : M unit :=
  models ← _get_model_versions_from_config;
  create_links pipeline_run models.

(** The models of the external artifacts, added to [models]. *)
Definition add_external_models
    (external_artifacts : list ExternalArtifactConfiguration)
    (models : gset (UUID * UUID)) : gset (UUID * UUID) :=
  foldl (λ models external_artifact,
           match ea_model external_artifact with
           | Some m => {[ m ]} ∪ models
           | None => models
           end) models external_artifacts.

Definition _link_pipeline_run_to_model_from_artifacts
    (pipeline_run : PipelineRunResponse) (artifact_names : list string)
    (external_artifacts : list ExternalArtifactConfiguration) : M unit :=
  models ← _get_model_versions_from_artifacts artifact_names;
  create_links pipeline_run (add_external_models external_artifacts models).

(** The [try] block of [load_and_run_hook]. *)
Definition hook_body (hook_source : Source) (step_exception : option exn)
  : M unit :=
  hook ← lift (load_hook env hook_source);
  function_params ←
    _parse_hook_inputs (hook_args hook) (hook_annotations hook)
      step_exception;
  emit (EvHookCall hook_source function_params);;
  run_hook hook function_params.

Definition load_and_run_hook (hook_source : Source)
    (step_exception : option exn) : M unit :=
  try_except_Exception (hook_body hook_source step_exception)
    (λ e, emit (EvLogError hook_source e)).

(** The [except BaseException as step_exception] clause of [run]. *)
Definition on_step_exception (step_exception : exn) : M unit :=
  match failure_hook_source configuration with
  | Some failure_hook_source =>
      load_and_run_hook failure_hook_source (Some step_exception)
  | None => mret tt
  end.

(** [run], lines 146-195: what happens before the entrypoint is invoked.
    The step context is bound here. *)
Definition before_entrypoint (pipeline_run : PipelineRunResponse)
    (step_run : StepRunResponse)
    (input_artifacts : gmap string ArtifactVersionResponse)
    (output_artifact_uris : gmap string string)
    (step_run_info : StepRunInfo)
  : M (BaseStep * odict (list Materializer) * odict value) :=
  step_instance ← _load_step;
  output_materializers ← _load_output_materializers;
  let cache_enabled :=
    is_setting_enabled (enable_cache (sri_config step_run_info))
      (p_enable_cache (sri_pipeline step_run_info)) in
  let output_annotations := output_annotations step_instance in
  call EvPrepareStepRun (prepare_step_run env step_run_info);;
  StepContext_clear;;
  StepContext_init pipeline_run step_run output_materializers
    output_artifact_uris cache_enabled
    (prod_map id artifact_config <$> output_annotations);;
  _prepare_model_context_for_step;;
  function_params ←
    _parse_inputs (entrypoint_args step_instance)
      (entrypoint_annotations step_instance) input_artifacts;
  _link_pipeline_run_to_model_from_context pipeline_run;;
  mret (step_instance, output_materializers, function_params).

(** [run], lines 215-224: the first statements of the [finally] clause. *)
Definition release_step_run (step_run_info : StepRunInfo)
    (step_failed : bool) : M unit :=
  step_run_metadata ←
    call EvGetStepRunMetadata (get_step_run_metadata env step_run_info);
  call (EvPublishStepRunMetadata (step_run_id step_run_info))
       (publish_step_run_metadata env (step_run_id step_run_info)
          step_run_metadata);;
  call (EvCleanupStepRun step_failed)
       (cleanup_step_run env step_run_info step_failed).

(** [run], lines 226-234 *)
Definition run_success_hook : M unit :=
  match success_hook_source configuration with
  | Some success_hook_source => load_and_run_hook success_hook_source None
  | None => mret tt
  end.

(** [run], lines 236-265: validate, store and link the outputs. *)
Definition store_and_link (pipeline_run : PipelineRunResponse)
    (step_run : StepRunResponse)
    (output_artifact_uris : gmap string string)
    (step_run_info : StepRunInfo)
    (output_materializers : odict (list Materializer))
    (output_annotations : odict OutputSignature)
    (return_values : value) : M (odict UUID) :=
  output_data ← _validate_outputs return_values output_annotations;
  let artifact_metadata_enabled :=
    is_setting_enabled (enable_artifact_metadata (sri_config step_run_info))
      (p_enable_artifact_metadata (sri_pipeline step_run_info)) in
  let artifact_visualization_enabled :=
    is_setting_enabled
      (enable_artifact_visualization (sri_config step_run_info))
      (p_enable_artifact_visualization (sri_pipeline step_run_info)) in
  output_artifact_ids ←
    _store_output_artifacts output_data output_materializers
      output_artifact_uris output_annotations artifact_metadata_enabled
      artifact_visualization_enabled;
  call (EvLinkStepArtifacts output_artifact_ids)
       (link_step_artifacts_to_model env output_artifact_ids);;
  _link_pipeline_run_to_model_from_artifacts pipeline_run
    (dict_keys output_artifact_ids)
    (dict_values (external_input_artifacts (sr_config step_run)));;
  mret output_artifact_ids.

(** The [finally] clause of [run], lines 214-266; [entrypoint_outcome] is
    how the [try] statement ended, so [step_failed] is whether it raised.
    The last statement clears the step context; it is reached when none
    of the statements before it raises. *)
Definition finally_clause (pipeline_run : PipelineRunResponse)
    (step_run : StepRunResponse)
    (output_artifact_uris : gmap string string)
    (step_run_info : StepRunInfo)
    (output_materializers : odict (list Materializer))
    (output_annotations : odict OutputSignature)
    (entrypoint_outcome : outcome value) : M (odict UUID) :=
  let step_failed := is_raised entrypoint_outcome in
  release_step_run step_run_info step_failed;;
  output_artifact_ids ←
    match entrypoint_outcome with
    | Returned return_values =>
        run_success_hook;;
        store_and_link pipeline_run step_run output_artifact_uris
          step_run_info output_materializers output_annotations
          return_values
    | Raised _ => mret []
    end;
  StepContext_clear;;
  mret output_artifact_ids.

(** [run], lines 197-266: the [try] statement around the entrypoint. *)
Definition invoke_entrypoint (pipeline_run : PipelineRunResponse)
    (step_run : StepRunResponse)
    (output_artifact_uris : gmap string string)
    (step_run_info : StepRunInfo)
    (step_instance : BaseStep)
    (output_materializers : odict (list Materializer))
    (function_params : odict value) : M (odict UUID) :=
  try_finally
    (try_except_reraise
       (lift (call_entrypoint step_instance function_params))
       on_step_exception)
    (finally_clause pipeline_run step_run output_artifact_uris
       step_run_info output_materializers
       (output_annotations step_instance)).

Definition run (pipeline_run : PipelineRunResponse)
    (step_run : StepRunResponse)
    (input_artifacts : gmap string ArtifactVersionResponse)
    (output_artifact_uris : gmap string string)
    (step_run_info : StepRunInfo) : M unit :=
  '(step_instance, output_materializers, function_params) ←
    before_entrypoint pipeline_run step_run input_artifacts
      output_artifact_uris step_run_info;
  output_artifact_ids ←
    invoke_entrypoint pipeline_run step_run output_artifact_uris
      step_run_info step_instance output_materializers function_params;
  call (EvPublishSuccessfulStepRun (step_run_id step_run_info)
          output_artifact_ids)
       (publish_successful_step_run env (step_run_id step_run_info)
          output_artifact_ids).

End methods.
End StepRunner.

(** ** User accounts: password verification *)

Module UserModel.

(** The calls made to the [passlib] context. *)
Inductive crypt_call : Type :=
  | CallHash (secret : string)
  | CallVerify (secret : string) (hash : option string).

(** [passlib.context.CryptContext(schemes=["bcrypt"])], a third-party
    library: its [hash] and [verify]. *)
Record CryptContext : Type := {
  crypt_hash : string → string;
  crypt_verify : string → option string → bool;
}.

Record t : Type := {
  active : bool;
  password : option string;
}.

Definition newline : ascii := Ascii.ascii_of_nat 10.

(** [re.match(r"^\$2[ayb]\$.{56}$", secret) is not None]: [.] does not
    match a newline, and [$] also matches before a final newline. *)
Definition _is_hashed_secret (secret : string) : bool :=
  match secret with
  | String "$" (String "2" (String c (String "$" rest))) =>
      bool_decide (c ∈ ["a"; "y"; "b"]%char)
      && bool_decide (newline ∉ list_ascii_of_string (substring 0 56 rest))
      && (bool_decide (String.length rest = 56)
          || bool_decide (String.length rest = 57
                          ∧ String.get 56 rest = Some newline))
  | _ => false
  end.

(** The users for which [verify_password] looks up no hash. *)
Definition no_usable_password (user : option t) : Prop :=
  match user with
  | None => True
  | Some u => password u = None ∨ active u = false
  end.

Section crypt.
Context (pwd_context : CryptContext).

Definition _get_hashed_secret (secret : option string)
  : option string * list crypt_call :=
  match secret with
  | None => (None, [])
  | Some s =>
      if _is_hashed_secret s then (Some s, [])
      else (Some (crypt_hash pwd_context s), [CallHash s])
  end.

Definition get_hashed_password (self : t) : option string * list crypt_call :=
  _get_hashed_secret (password self).

(** Returns the verdict and the calls made to the [passlib] context. *)
Definition verify_password (plain_password : string) (user : option t)
  : bool * list crypt_call :=
  let '(hash, calls) :=
    match user with
    | Some u =>
        match password u with
        | Some _ =>
            if active u then get_hashed_password u else (None, [])
        | None => (None, [])
        end
    | None => (None, [])
    end in
  (crypt_verify pwd_context plain_password hash,
   calls ++ [CallVerify plain_password hash]).

End crypt.
End UserModel.

(** ** User accounts: tokens *)

#[global] Instance exn_class_eq_dec : EqDecision exn_class.
Proof. solve_decision. Defined.

Module JWTToken.

Inductive JWTTokenType : Type := ACCESS_TOKEN.

Record t : Type := {
  token_type : JWTTokenType;
  user_id : UUID;
}.

(** The value of a claim of a token: a string or a time. *)
Inductive claim : Type :=
  | ClaimStr (s : string)
  | ClaimTime (minutes : Z).

#[global] Instance claim_eq_dec : EqDecision claim.
Proof. solve_decision. Defined.

(** What the token methods call outside the modelled sources: [jose.jwt],
    the secret key of the global configuration, the clock, and [str] and
    the constructor of [uuid.UUID], which fails with [ValueError] on a
    badly formed string. *)
Record Jose : Type := {
  jwt_secret_key : string;
  (** [jwt.encode(claims, key, algorithm=...)] *)
  jwt_encode : gmap string claim → string → string → outcome string;
  (** [jwt.decode(token, key, algorithms=[...])] *)
  jwt_decode : string → string → list string → outcome (gmap string claim);
  (** [datetime.utcnow()], in minutes *)
  utcnow : Z;
  str_of_uuid : UUID → string;
  uuid_of_str : string → option UUID;
}.

Definition JWT_ALGORITHM : string := "HS256".

Definition AuthorizationException : exn_class :=
  OtherException "AuthorizationException".

(** [issubclass(c, JWTError)], over the exception classes of [jose]. *)
Definition is_JWTError (c : exn_class) : bool :=
  bool_decide (c ∈ [OtherException "JWTError";
                    OtherException "JWTClaimsError";
                    OtherException "ExpiredSignatureError"]).

Section jose.
Context (jose : Jose).

(** The messages leave out the description of the cause. *)
Definition decode (token_type : JWTTokenType) (token : string) : outcome t :=
  match jwt_decode jose token (jwt_secret_key jose) [JWT_ALGORITHM] with
  | Raised e =>
      if is_JWTError (exn_type e)
      then Raised (Exn AuthorizationException (MsgText "Invalid JWT token"))
      else Raised e
  | Returned payload =>
      match payload !! "sub" with
      | None =>
          Raised (Exn AuthorizationException
                    (MsgText
                       "Invalid JWT token: the subject claim is missing"))
      | Some (ClaimStr subject) =>
          match uuid_of_str jose subject with
          | Some user_id =>
              Returned {| token_type := token_type; user_id := user_id |}
          | None =>
              Raised (Exn AuthorizationException
                        (MsgText
                           "Invalid JWT token: could not decode subject claim"))
          end
      | Some (ClaimTime _) =>
          (* [UUID(subject)] on a subject that is not a string *)
          Raised (Exn (OtherException "AttributeError")
                    (MsgText "object has no attribute 'replace'"))
      end
  end.

Definition encode (self : t) (expire_minutes : option Z) : outcome string :=
  let claims : gmap string claim :=
    {[ "sub" := ClaimStr (str_of_uuid jose (user_id self)) ]} in
  let claims :=
    match expire_minutes with
    | Some minutes =>
        if decide (minutes = 0%Z) then claims
        else <[ "exp" := ClaimTime (utcnow jose + minutes) ]> claims
    | None => claims
    end in
  jwt_encode jose claims (jwt_secret_key jose) JWT_ALGORITHM.

End jose.
End JWTToken.

(** The token methods of [UserModel]. A user is an account, as password
    verification sees it, with its id and its activation token. *)
Module UserModelTokens.

Record user : Type := {
  id : UUID;
  account : UserModel.t;
  activation_token : option string;
}.

Section tokens.
Context (pwd_context : UserModel.CryptContext).
Context (jose : JWTToken.Jose).
(** [GlobalConfiguration().zen_store.get_user(user_name_or_id=...)] *)
Context (get_user : UUID → outcome user).

Definition get_hashed_activation_token (self : user)
  : option string * list UserModel.crypt_call :=
  UserModel._get_hashed_secret pwd_context (activation_token self).

(** Returns the verdict and the calls made to the [passlib] context. *)
Definition verify_activation_token (token : string) (u : option user)
  : bool * list UserModel.crypt_call :=
  let looked_up :=
    match u with
    | Some u =>
        match activation_token u with
        | Some _ =>
            if negb (UserModel.active (account u))
            then get_hashed_activation_token u
            else (None, [])
        | None => (None, [])
        end
    | None => (None, [])
    end in
  (UserModel.crypt_verify pwd_context token looked_up.1,
   looked_up.2 ++ [UserModel.CallVerify token looked_up.1]).

Definition verify_access_token (token : string) : outcome (option user) :=
  match JWTToken.decode jose JWTToken.ACCESS_TOKEN token with
  | Raised e =>
      if decide (exn_type e = JWTToken.AuthorizationException)
      then Returned None
      else Raised e
  | Returned access_token =>
      match get_user (JWTToken.user_id access_token) with
      | Raised e =>
          if decide (exn_type e = KeyError) then Returned None else Raised e
      | Returned u =>
          if bool_decide (JWTToken.user_id access_token = id u)
             && UserModel.active (account u)
          then Returned (Some u)
          else Returned None
      end
  end.

Definition generate_access_token (self : user) : outcome string :=
  JWTToken.encode jose
    {| JWTToken.token_type := JWTToken.ACCESS_TOKEN;
       JWTToken.user_id := id self |} None.

End tokens.
End UserModelTokens.

(** ** Concrete steps and collaborators *)

Module Examples.

Definition builtin_materializer : Materializer :=
  {| mat_source := "zenml.materializers.BuiltInMaterializer";
     can_handle_type :=
       λ c, existsb (issubclass c)
              [Builtin B_int; Builtin B_str; Builtin B_bool] |}.

Definition pickle_materializer : Materializer :=
  {| mat_source := "zenml.materializers.CloudpickleMaterializer";
     can_handle_type := λ c, issubclass c (Builtin B_object) |}.

Definition small_registry : MaterializerRegistry :=
  {| materializer_types := [(Builtin B_int, builtin_materializer)];
     default_materializer := pickle_materializer |}.

(** A process with no live step context and nothing done yet. *)
Definition fresh_world : world :=
  {| step_context := None;
     materializer_registry := small_registry;
     events := [] |}.

Definition no_settings : PipelineConfiguration :=
  {| p_enable_step_logs := None;
     p_enable_cache := None;
     p_enable_artifact_metadata := None;
     p_enable_artifact_visualization := None;
     p_model := None |}.

Definition step_config (outs : odict ArtifactOutputConfiguration)
    (params : gmap string value) (failure_hook success_hook : option Source)
    (logs : option bool) : StepConfiguration :=
  {| name := "trainer";
     parameters := params;
     outputs := outs;
     failure_hook_source := failure_hook;
     success_hook_source := success_hook;
     enable_step_logs := logs;
     enable_cache := None;
     enable_artifact_metadata := None;
     enable_artifact_visualization := None;
     model := None;
     external_input_artifacts := [] |}.

Definition step_of (c : StepConfiguration) : Step :=
  {| spec := {| source := "steps.trainer";
                pipeline_parameter_name := "trainer" |};
     config := c |}.

Definition pipeline_run_1 : PipelineRunResponse :=
  {| pr_id := 1%N; pr_config := no_settings; pr_pipeline := Some "training" |}.

Definition step_run_of (c : StepConfiguration) : StepRunResponse :=
  {| sr_name := "trainer"; sr_config := c; sr_logs := None |}.

Definition step_run_info_of (c : StepConfiguration) : StepRunInfo :=
  {| step_run_id := 7%N; sri_config := c; sri_pipeline := no_settings |}.

(** Collaborators that all succeed, around a given step instance and a
    given hook loader. *)
Definition env_of (disabled : bool) (instance : BaseStep)
    (hooks : Source → outcome Hook) : Env :=
  {| disable_step_logs_storage := disabled;
     redirected := false;
     load_from_source := λ _, Returned instance;
     load_and_validate_class := λ _, Returned builtin_materializer;
     load_data_type := λ _, Returned (Builtin B_int);
     load_hook := hooks;
     prepare_step_run := λ _, Returned tt;
     get_step_run_metadata := λ _, Returned [];
     publish_step_run_metadata := λ _ _, Returned tt;
     cleanup_step_run := λ _ _, Returned tt;
     get_or_create_model_version :=
       λ m, Returned (N.of_nat (String.length (model_name m)), 100%N);
     create_model_version_pipeline_run_link := λ _ _ _, Returned tt;
     save_artifact := λ r, Returned (N.of_nat (String.length (sa_name r)));
     link_step_artifacts_to_model := λ _, Returned tt;
     materializer_load := λ _ _ _, Returned (VInt 42);
     publish_successful_step_run := λ _ _, Returned tt |}.

(** The same collaborators, on a stack whose [cleanup_step_run] fails. *)
Definition stack_error : exn :=
  Exn (OtherException "ConnectionError") (MsgText "stack unreachable").

Definition with_failing_cleanup (env : Env) : Env :=
  {| disable_step_logs_storage := disable_step_logs_storage env;
     redirected := redirected env;
     load_from_source := load_from_source env;
     load_and_validate_class := load_and_validate_class env;
     load_data_type := load_data_type env;
     load_hook := load_hook env;
     prepare_step_run := prepare_step_run env;
     get_step_run_metadata := get_step_run_metadata env;
     publish_step_run_metadata := publish_step_run_metadata env;
     cleanup_step_run := λ _ _, Raised stack_error;
     get_or_create_model_version := get_or_create_model_version env;
     create_model_version_pipeline_run_link :=
       create_model_version_pipeline_run_link env;
     save_artifact := save_artifact env;
     link_step_artifacts_to_model := link_step_artifacts_to_model env;
     materializer_load := materializer_load env;
     publish_successful_step_run := publish_successful_step_run env |}.

Definition no_hooks : Source → outcome Hook :=
  λ _, Raised (Exn (OtherException "ImportError") (MsgText "no such hook")).

(** [def trainer() -> None: return None] *)
Definition silent_step : BaseStep :=
  {| entrypoint_args := [];
     entrypoint_annotations := ∅;
     output_annotations := [];
     call_entrypoint := λ _, Returned VNone |}.

Definition trainer_parameters : gmap string value :=
  {[ "data" := VInt 0; "epochs" := VInt 5 ]}.

Definition trainer_config : StepConfiguration :=
  step_config [] trainer_parameters None None None.


(** A step with two outputs: the first declares the custom name
    "accuracy", the second declares none. *)
Definition two_outputs_annotations : odict OutputSignature :=
  [("accuracy",
    {| resolved_annotation := TClass (Builtin B_int);
       artifact_config :=
         Some {| ac_name := Some "accuracy"; ac_version := None;
                 ac_model := None |} |});
   ("output_1",
    {| resolved_annotation := TClass (Builtin B_str);
       artifact_config := None |})].

Definition two_outputs_config : StepConfiguration :=
  step_config
    [("accuracy", {| materializer_source := ["builtin"];
                     default_materializer_source := None |});
     ("output_1", {| materializer_source := [];
                     default_materializer_source := None |})]
    ∅ None None None.

Definition two_outputs_materializers : odict (list Materializer) :=
  [("accuracy", [pickle_materializer; builtin_materializer]);
   ("output_1", [])].

Definition two_outputs_uris : gmap string string :=
  {[ "accuracy" := "s3://bucket/accuracy";
     "output_1" := "s3://bucket/output_1" ]}.

Definition context_output (classes : list Materializer) (uri : string)
    (c : option ArtifactConfig) : StepContextOutput :=
  {| materializer_classes := classes;
     artifact_uri := uri;
     sco_artifact_config := c;
     run_metadata := [];
     tags := [] |}.

Definition two_outputs_context : StepContext :=
  {| ctx_pipeline_run := pipeline_run_1;
     ctx_step_run := step_run_of two_outputs_config;
     ctx_outputs :=
       [("accuracy",
         context_output [pickle_materializer; builtin_materializer]
           "s3://bucket/accuracy"
           (Some {| ac_name := Some "accuracy"; ac_version := None;
                    ac_model := None |}));
        ("output_1", context_output [] "s3://bucket/output_1" None)];
     ctx_cache_enabled := true;
     ctx_model := None |}.

Definition two_outputs_world : world :=
  {| step_context := Some two_outputs_context;
     materializer_registry := small_registry;
     events := [] |}.

Definition list_materializer : Materializer :=
  {| mat_source := "steps.ListMaterializer";
     can_handle_type :=
       λ c, existsb (issubclass c) [Builtin B_list; Builtin B_tuple] |}.

(** Candidates declared for the output "accuracy": the first cannot
    handle an [int], the second and the third can. *)
Definition declared_candidates : odict (list Materializer) :=
  [("accuracy",
    [list_materializer; builtin_materializer; pickle_materializer])].

(** A step declaring the two outputs above whose entrypoint returns
    three values. *)
Definition three_values_step : BaseStep :=
  {| entrypoint_args := [];
     entrypoint_annotations := ∅;
     output_annotations := two_outputs_annotations;
     call_entrypoint :=
       λ _, Returned (VTuple [VInt 1; VStr "report"; VInt 3]) |}.

(** [def trainer() -> int: return "five"] *)
Definition one_output_annotations : odict OutputSignature :=
  [("output", {| resolved_annotation := TClass (Builtin B_int);
                 artifact_config := None |})].

Definition one_output_config (failure_hook success_hook : option Source)
  : StepConfiguration :=
  step_config
    [("output", {| materializer_source := ["builtin"];
                   default_materializer_source := None |})]
    ∅ failure_hook success_hook None.

Definition one_output_uris : gmap string string :=
  {[ "output" := "s3://bucket/output" ]}.

Definition string_for_int_step : BaseStep :=
  {| entrypoint_args := [];
     entrypoint_annotations := ∅;
     output_annotations := one_output_annotations;
     call_entrypoint := λ _, Returned (VStr "five") |}.

(** [def trainer() -> int: raise ValueError("bad data")] *)
Definition bad_data : exn :=
  Exn (OtherException "ValueError") (MsgText "bad data").

Definition failing_step : BaseStep :=
  {| entrypoint_args := [];
     entrypoint_annotations := ∅;
     output_annotations := one_output_annotations;
     call_entrypoint := λ _, Raised bad_data |}.

(** [def on_failure(exception: BaseException): sys.exit(1)] *)
Definition system_exit : exn :=
  Exn (OtherBaseException "SystemExit") (MsgText "1").

Definition exiting_hook : Hook :=
  {| hook_args := ["exception"];
     hook_annotations := {[ "exception" := HA_BaseException ]};
     hook_call := λ _ ctx registry,
       {| hook_outcome := Raised system_exit;
          hook_context := ctx;
          hook_registry := registry |} |}.

(** [def on_failure(exception: BaseException): raise KeyError("alert")] *)
Definition broken_hook : Hook :=
  {| hook_args := ["exception"];
     hook_annotations := {[ "exception" := HA_BaseException ]};
     hook_call := λ _ ctx registry,
       {| hook_outcome := Raised (Exn KeyError (MsgKey "alert"));
          hook_context := ctx;
          hook_registry := registry |} |}.

(** [def on_success(): get_step_context().add_output_metadata(
    "accuracy", {"checked": "yes"})] *)
Definition annotating_hook : Hook :=
  {| hook_args := [];
     hook_annotations := ∅;
     hook_call := λ _ ctx registry,
       {| hook_outcome := Returned tt;
          hook_context :=
            (λ c,
               {| ctx_pipeline_run := ctx_pipeline_run c;
                  ctx_step_run := ctx_step_run c;
                  ctx_outputs :=
                    (λ named : string * StepContextOutput,
                       if decide (named.1 = "accuracy")
                       then (named.1,
                             {| materializer_classes :=
                                  materializer_classes named.2;
                                artifact_uri := artifact_uri named.2;
                                sco_artifact_config :=
                                  sco_artifact_config named.2;
                                run_metadata :=
                                  run_metadata named.2
                                  ++ [("checked", "yes")];
                                tags := tags named.2 |})
                       else named) <$> ctx_outputs c;
                  ctx_cache_enabled := ctx_cache_enabled c;
                  ctx_model := ctx_model c |}) <$> ctx;
          hook_registry := registry |} |}.

(** A step with three outputs: "report" and "plot" declare an artifact
    configuration without a model, "classifier" declares one bound to the
    model "churn". *)
Definition churn_model : Model :=
  {| model_name := "churn"; model_version := None |}.

Definition linked_outputs_context : StepContext :=
  {| ctx_pipeline_run := pipeline_run_1;
     ctx_step_run := step_run_of (one_output_config None None);
     ctx_outputs :=
       [("report",
         context_output [] "s3://bucket/report"
           (Some {| ac_name := Some "report"; ac_version := None;
                    ac_model := None |}));
        ("classifier",
         context_output [] "s3://bucket/classifier"
           (Some {| ac_name := Some "classifier"; ac_version := None;
                    ac_model := Some churn_model |}));
        ("plot", context_output [] "s3://bucket/plot" None)];
     ctx_cache_enabled := true;
     ctx_model := None |}.

Definition linked_outputs_world : world :=
  {| step_context := Some linked_outputs_context;
     materializer_registry := small_registry;
     events := [] |}.

(** [def trainer(data: int) -> None], run without its input. *)
Definition needs_data_step : BaseStep :=
  {| entrypoint_args := ["data"];
     entrypoint_annotations := {[ "data" := TClass (Builtin B_int) ]};
     output_annotations := [];
     call_entrypoint := λ _, Returned VNone |}.

(** A step declaring the two outputs above whose entrypoint returns an
    accuracy and a report. *)
Definition two_values_step : BaseStep :=
  {| entrypoint_args := [];
     entrypoint_annotations := ∅;
     output_annotations := two_outputs_annotations;
     call_entrypoint := λ _, Returned (VTuple [VInt 9; VStr "report"]) |}.

(** The configuration with two outputs, with a success hook. *)
Definition two_outputs_hooked_config : StepConfiguration :=
  step_config
    [("accuracy", {| materializer_source := ["builtin"];
                     default_materializer_source := None |});
     ("output_1", {| materializer_source := [];
                     default_materializer_source := None |})]
    ∅ None (Some "hooks.on_success") None.

(** A live context whose step declares the model "churn". *)
Definition model_context : StepContext :=
  {| ctx_pipeline_run := pipeline_run_1;
     ctx_step_run := step_run_of trainer_config;
     ctx_outputs := [];
     ctx_cache_enabled := true;
     ctx_model := Some churn_model |}.

Definition model_world : world :=
  {| step_context := Some model_context;
     materializer_registry := small_registry;
     events := [] |}.

(** A [passlib]-like context: an absent hash never verifies. *)
Definition toy_crypt_context : UserModel.CryptContext :=
  {| UserModel.crypt_hash := λ s, "$2b$" +:+ s;
     UserModel.crypt_verify := λ s h,
       match h with
       | Some h' => bool_decide (h' = "$2b$" +:+ s)
       | None => false
       end |}.

Definition inactive_user : UserModel.t :=
  {| UserModel.active := false; UserModel.password := Some "hunter2" |}.

(** The string of [n] letters. *)
Fixpoint letters (n : nat) : string :=
  match n with
  | O => EmptyString
  | S n' => String "x" (letters n')
  end.

(** A toy [jose]: a token is its subject claim after a marker, and no
    other claim is supported; an id is written as that many letters. *)
Definition toy_jose : JWTToken.Jose :=
  {| JWTToken.jwt_secret_key := "secret";
     JWTToken.jwt_encode := λ claims _ _,
       match claims !! "sub" with
       | Some (JWTToken.ClaimStr s) =>
           if decide (claims = {[ "sub" := JWTToken.ClaimStr s ]})
           then Returned ("jwt:" +:+ s)
           else Raised (Exn (OtherException "JWSError")
                          (MsgText "unsupported claims"))
       | _ => Raised (Exn (OtherException "JWSError") (MsgText "no subject"))
       end;
     JWTToken.jwt_decode := λ token _ _,
       match token with
       | String "j" (String "w" (String "t" (String ":" s))) =>
           Returned {[ "sub" := JWTToken.ClaimStr s ]}
       | _ => Raised (Exn (OtherException "JWTError") (MsgText "bad token"))
       end;
     JWTToken.utcnow := 0;
     JWTToken.str_of_uuid := λ u, letters (N.to_nat u);
     JWTToken.uuid_of_str := λ s, Some (N.of_nat (String.length s)) |}.

Definition active_user : UserModelTokens.user :=
  {| UserModelTokens.id := 3%N;
     UserModelTokens.account :=
       {| UserModel.active := true; UserModel.password := Some "hunter2" |};
     UserModelTokens.activation_token := Some "welcome" |}.

Definition invited_user : UserModelTokens.user :=
  {| UserModelTokens.id := 4%N;
     UserModelTokens.account := inactive_user;
     UserModelTokens.activation_token := Some "welcome" |}.

(** A store holding the two users. *)
Definition toy_get_user (user_id : UUID) : outcome UserModelTokens.user :=
  if decide (user_id = 3%N) then Returned active_user
  else if decide (user_id = 4%N) then Returned invited_user
  else Raised (Exn KeyError (MsgText "no such user")).

End Examples.

(** ** Vocabulary of the statements *)

(** A statement keeps a relation between the state it starts in and the
    state it ends in, however it ends. *)
Definition keeps {A} (R : relation world) (m : M A) : Prop :=
  ∀ w, R w (m w).2.

Definition is_save (ev : event) : bool :=
  match ev with EvSaveArtifact _ => true | _ => false end.

(** The state is left as it is. *)
Definition unchanged : relation world := λ w w', w' = w.

(** No save request is issued. *)
Definition same_saved : relation world := λ w w', saved w' = saved w.

(** The step context is left as it is. *)
Definition same_context : relation world :=
  λ w w', step_context w' = step_context w.

(** The calls recorded so far stay recorded. *)
Definition grows : relation world :=
  λ w w', events w `prefix_of` events w'.

(** The calls recorded between two states all satisfy [p]. *)
Definition only (p : event → bool) : relation world :=
  λ w w', ∃ evs, events w' = events w ++ evs ∧ Forall (λ ev, p ev = true) evs.

(** The calls [run] makes before it invokes the entrypoint. *)
Definition is_setup_event (ev : event) : bool :=
  match ev with
  | EvPrepareStepRun | EvGetOrCreateModelVersion _ | EvCreateRunLink _ _ _ =>
      true
  | _ => false
  end.

(** The calls of a hook: the hook itself, and the log of its failure. *)
Definition is_hook_event (ev : event) : bool :=
  match ev with
  | EvHookCall _ _ | EvLogError _ _ => true
  | _ => false
  end.

(** The calls [run] makes after an entrypoint that raised: the failure
    hook, and the release of a failed step run. *)
Definition is_failure_event (ev : event) : bool :=
  match ev with
  | EvHookCall _ _ | EvLogError _ _ | EvGetStepRunMetadata
  | EvPublishStepRunMetadata _ | EvCleanupStepRun true => true
  | _ => false
  end.

(** Two states that differ in the calls recorded only. *)
Definition alike : relation world :=
  λ w w', step_context w = step_context w'
          ∧ materializer_registry w = materializer_registry w'.

(** A statement that does not depend on the calls recorded so far: from
    two states alike, it ends the same way, in states alike, and records
    the same calls. *)
Definition oblivious {A} (m : M A) : Prop :=
  ∀ w w', alike w w' →
    ∃ evs, (m w).1 = (m w').1
           ∧ alike (m w).2 (m w').2
           ∧ events (m w).2 = events w ++ evs
           ∧ events (m w').2 = events w' ++ evs.

(** Nothing but the materializer registry changes. *)
Definition same_but_registry : relation world :=
  λ w w', step_context w' = step_context w ∧ events w' = events w.

Module Spec.
Section vocabulary.
Context (env : Env) (self : Step).

(** The value an entrypoint argument is bound to, by the precedence of
    its sources: the live step context, then the input artifacts, then
    the parameters. *)
Definition resolved_from (annotations : gmap string annotation)
    (input_artifacts : gmap string ArtifactVersionResponse) (w : world)
    (arg : string) (v : value) : Prop :=
  if StepRunner.is_step_context_type (annotations !! arg)
  then is_Some (step_context w) ∧ v = VStepContext
  else
    match input_artifacts !! arg with
    | Some artifact =>
        StepRunner._load_input_artifact env artifact (annotations !! arg) w
        = (Returned v, w)
    | None => parameters (config self) !! arg = Some v
    end.

(** An argument that no source provides. *)
Definition unsatisfiable (annotations : gmap string annotation)
    (input_artifacts : gmap string ArtifactVersionResponse)
    (arg : string) : Prop :=
  StepRunner.is_step_context_type (annotations !! arg) = false
  ∧ input_artifacts !! arg = None
  ∧ parameters (config self) !! arg = None.


(** The custom name an output declares, if any. *)
Definition custom_name (signature : OutputSignature) : option string :=
  match artifact_config signature with
  | Some c =>
      match ac_name c with
      | Some n => if decide (n = "") then None else Some n
      | None => None
      end
  | None => None
  end.

(** The name of the pipeline of a run; a run without a pipeline is
    "unlisted". *)
Definition pipeline_name_of (pipeline_run : PipelineRunResponse) : string :=
  match pr_pipeline pipeline_run with
  | Some n => n
  | None => "unlisted"
  end.

(** The logical name of the artifact of an output: its custom name when
    it declares one, else [pipeline::step::output]. *)
Definition logical_name (step_context : StepContext) (output_name : string)
    (signature : OutputSignature) : string :=
  match custom_name signature with
  | Some custom => custom
  | None =>
      pipeline_name_of (ctx_pipeline_run step_context) +:+ "::"
      +:+ sr_name (ctx_step_run step_context) +:+ "::" +:+ output_name
  end.

(** An output that declares a custom name is registered under that
    name. The keys are those of [parse_return_type_annotations], which is
    outside the modelled sources; the runner relies on them when it
    passes the key of such an output as its custom name. *)
Definition keyed_by_custom_name (output_annotations : odict OutputSignature)
  : Prop :=
  ∀ output_name signature custom,
    dict_get output_annotations output_name = Some signature →
    custom_name signature = Some custom →
    output_name = custom.

(** A save request that stores the output [item] under its logical
    name. *)
Definition stores_output (step_context : StepContext)
    (output_annotations : odict OutputSignature)
    (request : SaveRequest) (item : string * value) : Prop :=
  ∃ signature,
    dict_get output_annotations item.1 = Some signature
    ∧ sa_data request = item.2
    ∧ sa_name request = logical_name step_context item.1 signature.

(** The hook loader and the hooks it loads raise nothing but exceptions
    deriving from [Exception]. *)
Definition hooks_raise_Exception : Prop :=
  (∀ src e, load_hook env src = Raised e → is_Exception (exn_type e) = true)
  ∧ (∀ src hook args ctx registry e,
       load_hook env src = Returned hook →
       hook_outcome (hook_call hook args ctx registry) = Raised e →
       is_Exception (exn_type e) = true).

(** The hooks leave the step context and the materializer registry as
    they find them. *)
Definition hooks_keep_state : Prop :=
  ∀ src hook args ctx registry,
    load_hook env src = Returned hook →
    hook_context (hook_call hook args ctx registry) = ctx
    ∧ hook_registry (hook_call hook args ctx registry) = registry.

(** The arguments [_parse_inputs] and [_parse_hook_inputs] have to bind:
    those of the function, a leading [self] apart. *)
Definition to_bind (args : list string) : list string :=
  if bool_decide (head args = Some "self") then drop 1 args else args.

(** The return value fits the number of declared outputs. *)
Definition fits_arity (return_values : value) (k : nat) : Prop :=
  is_list_or_tuple return_values = true
  ∧ length (sequence_items return_values) = k.

(** The messages of the output-arity error and of the output-type
    error. *)
Definition arity_message (msg : message) : Prop :=
  match msg with
  | MsgNotListOrTuple _ _ _ | MsgWrongAmount _ _ _ _ => True
  | _ => False
  end.

Definition type_message (msg : message) : Prop :=
  match msg with
  | MsgWrongType _ _ _ _ => True
  | _ => False
  end.

(** The values that [_validate_outputs] pairs with the declared outputs:
    the return value itself for one output, its items otherwise. *)
Definition returned_items (return_values : value) (k : nat) : list value :=
  if decide (k = 1) then [return_values] else sequence_items return_values.

(** The return values that [_validate_outputs] accepts: [None] for a
    step without outputs; otherwise one value, or a list or tuple of as
    many values as there are outputs, each an instance of the annotation
    of its output ([Any] admits every value). *)
Definition accepted (return_values : value)
    (output_annotations : odict OutputSignature) : Prop :=
  match output_annotations with
  | [] => return_values = VNone
  | _ :: _ =>
      (length output_annotations = 1
       ∨ fits_arity return_values (length output_annotations))
      ∧ Forall2 (λ v named, isinstance v (resolved_annotation named.2) = true)
          (returned_items return_values (length output_annotations))
          output_annotations
  end.

(** The validated outputs: each value stored under the name of its
    output, in the order of the declarations. *)
Definition validated (return_values : value)
    (output_annotations : odict OutputSignature) : odict value :=
  foldl (λ d item, dict_set d item.2.1 item.1) []
    (zip (returned_items return_values (length output_annotations))
       output_annotations).

(** The output [name] of the live context declares a model, which
    resolves to the pair [p] of the ids of a model and of its version. *)
Definition bound_to (ctx : StepContext) (name : string) (p : UUID * UUID)
  : Prop :=
  ∃ o c m,
    dict_get (ctx_outputs ctx) name = Some o
    ∧ sco_artifact_config o = Some c
    ∧ ac_model c = Some m
    ∧ get_or_create_model_version env m = Returned p.

(** The output [name] exists in the live context and either has no
    artifact configuration or declares a model that resolves. *)
Definition well_bound (ctx : StepContext) (name : string) : Prop :=
  ∃ o, dict_get (ctx_outputs ctx) name = Some o
       ∧ (sco_artifact_config o = None ∨ ∃ p, bound_to ctx name p).

(** What [_parse_hook_inputs] passes for the argument [arg] of a hook,
    by the annotation of the argument. *)
Definition hook_argument (annotations : gmap string hook_annotation)
    (step_exception : option exn) (w : world) (arg : string)
    (v : hook_value) : Prop :=
  match annotations !! arg with
  | Some (HA_BaseParameters parse_obj) =>
      ∃ p step_params,
        parameters (StepRunner.configuration self) !! arg = Some p
        ∧ parse_obj p = Some step_params
        ∧ v = HParameters step_params
  | Some HA_StepContext => is_Some (step_context w) ∧ v = HStepContext
  | Some HA_BaseException => v = HException step_exception
  | _ => False
  end.

End vocabulary.
End Spec.

(** * Properties *)

(** ** The monad and the dictionaries *)

Lemma bind_run {A B} (m : M A) (f : A → M B) (w : world) :
  (m ≫= f) w
  = match m w with
    | (Returned a, w') => f a w'
    | (Raised e, w') => (Raised e, w')
    end.
Proof. reflexivity. Qed.

Lemma dict_get_set {V} (d : odict V) (k k' : string) (v : V) :
  dict_get (dict_set d k v) k'
  = if decide (k = k') then Some v else dict_get d k'.
Proof.
  induction d as [|[k0 v0] d IH]; simpl.
  - reflexivity.
  - destruct (decide (k0 = k)) as [->|Hne]; simpl.
    + destruct (decide (k = k')); reflexivity.
    + destruct (decide (k0 = k')) as [->|Hne'].
      * destruct (decide (k = k')); [congruence|reflexivity].
      * exact IH.
Qed.

Lemma bind_returned {A B} (m : M A) (f : A → M B) (w w' : world) (b : B) :
  (m ≫= f) w = (Returned b, w') →
  ∃ a w1, m w = (Returned a, w1) ∧ f a w1 = (Returned b, w').
Proof.
  rewrite bind_run. destruct (m w) as [[a|e] w1]; [|discriminate].
  intros Hf. exists a, w1. split; [reflexivity | exact Hf].
Qed.

Ltac run_monad :=
  repeat progress
    (cbv beta delta [mbind M_bind mret M_ret lift raise call emit get_world
                     get_step_context subscript set_step_context
                     StepContext_clear];
     simpl).

(** ** Frame rules *)

#[global] Instance same_saved_preorder : PreOrder same_saved.
Proof.
  split; [intros w; reflexivity|].
  intros w1 w2 w3 H12 H23. unfold same_saved in *. congruence.
Qed.

#[global] Instance unchanged_preorder : PreOrder unchanged.
Proof.
  split; [intros w; reflexivity|].
  intros w1 w2 w3 H12 H23. unfold unchanged in *. congruence.
Qed.

#[global] Instance same_context_preorder : PreOrder same_context.
Proof.
  split; [intros w; reflexivity|].
  intros w1 w2 w3 H12 H23. unfold same_context in *. congruence.
Qed.

#[global] Instance same_but_registry_preorder : PreOrder same_but_registry.
Proof.
  split; [intros w; split; reflexivity|].
  intros w1 w2 w3 [? ?] [? ?]. split; congruence.
Qed.

Section frames.
Context (R : relation world) `{!PreOrder R}.

Lemma keeps_ret {A} (a : A) : keeps R (mret a).
Proof. intros w. reflexivity. Qed.

Lemma keeps_lift {A} (o : outcome A) : keeps R (lift o).
Proof. intros w. reflexivity. Qed.

Lemma keeps_raise {A} t msg : keeps R (raise (A:=A) t msg).
Proof. intros w. reflexivity. Qed.

Lemma keeps_get_world : keeps R get_world.
Proof. intros w. reflexivity. Qed.

Lemma keeps_get_step_context : keeps R get_step_context.
Proof.
  intros w. unfold get_step_context. rewrite bind_run. simpl.
  destruct (step_context w); reflexivity.
Qed.

Lemma keeps_subscript {V} (o : option V) k : keeps R (subscript o k).
Proof. intros w. destruct o; reflexivity. Qed.

Lemma keeps_bind {A B} (m : M A) (f : A → M B) :
  keeps R m → (∀ a, keeps R (f a)) → keeps R (m ≫= f).
Proof.
  intros Hm Hf w. rewrite bind_run. specialize (Hm w).
  destruct (m w) as [[a|e] w1]; simpl in *; [|exact Hm].
  etrans; [exact Hm | apply Hf].
Qed.

Lemma keeps_for_each {A B} (l : list A) (body : B → A → M B) :
  (∀ acc x, keeps R (body acc x)) → ∀ acc, keeps R (for_each l acc body).
Proof.
  intros Hbody. induction l as [|x l IH]; intros acc; simpl.
  - apply keeps_ret.
  - apply keeps_bind; [apply Hbody | intros a; apply IH].
Qed.

Lemma keeps_for_each_break {A B} (l : list A)
    (body : B → A → M (loop_step B)) :
  (∀ acc x, keeps R (body acc x)) →
  ∀ acc, keeps R (for_each_break l acc body).
Proof.
  intros Hbody. induction l as [|x l IH]; intros acc; simpl.
  - apply keeps_ret.
  - apply keeps_bind; [apply Hbody|].
    intros [a|a]; [apply IH | apply keeps_ret].
Qed.

Lemma keeps_try_except_reraise {A} (body : M A) handler :
  keeps R body → (∀ e, keeps R (handler e)) →
  keeps R (try_except_reraise body handler).
Proof.
  intros Hb Hh w. unfold try_except_reraise. specialize (Hb w).
  destruct (body w) as [[a|e] w1]; simpl in *; [exact Hb|].
  specialize (Hh e w1). destruct (handler e w1) as [[u|e'] w2]; simpl in *;
    etrans; eassumption.
Qed.

Lemma keeps_try_except_Exception body handler :
  keeps R body → (∀ e, keeps R (handler e)) →
  keeps R (try_except_Exception body handler).
Proof.
  intros Hb Hh w. unfold try_except_Exception. specialize (Hb w).
  destruct (body w) as [[a|e] w1]; simpl in *; [exact Hb|].
  destruct (is_Exception (exn_type e)); [|exact Hb].
  etrans; [exact Hb | apply Hh].
Qed.

Lemma keeps_try_except_StepContextError {A} (body : M A) default :
  keeps R body → keeps R (try_except_StepContextError body default).
Proof.
  intros Hb w. unfold try_except_StepContextError. specialize (Hb w).
  destruct (body w) as [[a|e] w1]; simpl in *; [exact Hb|].
  destruct (exn_type e); exact Hb.
Qed.

Lemma keeps_try_finally {A B} (body : M A) (fin : outcome A → M B) :
  keeps R body → (∀ o, keeps R (fin o)) → keeps R (try_finally body fin).
Proof.
  intros Hb Hf w. unfold try_finally. specialize (Hb w).
  destruct (body w) as [o w1]; simpl in *. specialize (Hf o w1).
  destruct (fin o w1) as [[b|e'] w2]; simpl in *.
  - destruct o; simpl; etrans; eassumption.
  - etrans; eassumption.
Qed.

End frames.

(** Splits a statement along its structure, leaving the effects. *)
Ltac solve_keeps :=
  repeat first
    [ apply keeps_ret; solve [typeclasses eauto]
    | apply keeps_lift; solve [typeclasses eauto]
    | apply keeps_raise; solve [typeclasses eauto]
    | apply keeps_get_world; solve [typeclasses eauto]
    | apply keeps_get_step_context; solve [typeclasses eauto]
    | apply keeps_subscript; solve [typeclasses eauto]
    | apply keeps_bind; [typeclasses eauto | | intros ?]
    | apply keeps_for_each; [typeclasses eauto | intros ? ?]
    | apply keeps_for_each_break; [typeclasses eauto | intros ? ?]
    | apply keeps_try_except_reraise; [typeclasses eauto | | intros ?]
    | apply keeps_try_except_Exception; [typeclasses eauto | | intros ?]
    | apply keeps_try_except_StepContextError
    | apply keeps_try_finally; [typeclasses eauto | | intros ?]
    | match goal with
      | |- keeps _ (match ?x with _ => _ end) => destruct x
      | |- keeps _ (let '(_, _) := ?x in _) => destruct x
      end ].

(** ** Argument resolution *)

(** The arguments the runner binds are those of the function, a leading
    [self] apart. *)
Lemma drop_self_to_bind (args : list string) :
  StepRunner.drop_self args = Spec.to_bind args.
Proof.
  destruct args as [|a rest]; [reflexivity|].
  unfold StepRunner.drop_self, Spec.to_bind. simpl.
  destruct (decide (a = "self")) as [->|Hne].
  - rewrite bool_decide_eq_true_2 by reflexivity. reflexivity.
  - rewrite bool_decide_eq_false_2 by congruence. reflexivity.
Qed.

Section parse_inputs.
Context (env : Env) (self : Step).
Context (annotations : gmap string annotation).
Context (input_artifacts : gmap string ArtifactVersionResponse).

Lemma load_input_artifact_world artifact data_type w :
  (StepRunner._load_input_artifact env artifact data_type w).2 = w.
Proof.
  unfold StepRunner._load_input_artifact.
  destruct (decide _); [reflexivity|].
  rewrite bind_run.
  assert (∀ (c : option pyclass),
    ((lift (load_and_validate_class env (av_materializer artifact))
      ≫= λ materializer_class,
        match c with
        | Some c =>
            if can_handle_type materializer_class c
            then lift (materializer_load env materializer_class
                         (av_uri artifact) c)
            else raise TypeError (MsgText "incompatible data type")
        | None => raise TypeError (MsgText "incompatible data type")
        end) w).2 = w) as Hrest.
  { intros c. rewrite bind_run. unfold lift, raise.
    destruct (load_and_validate_class env _) as [m|e]; [|reflexivity].
    destruct c as [c|]; [|reflexivity].
    destruct (can_handle_type m c); reflexivity. }
  destruct data_type as [[| c | cs]|].
  - rewrite bind_run. unfold lift at 1.
    destruct (load_data_type env _) as [c|e];
      [exact (Hrest (Some c)) | reflexivity].
  - exact (Hrest (Some c)).
  - rewrite bind_run. unfold lift at 1.
    destruct (load_data_type env _) as [c|e];
      [exact (Hrest (Some c)) | reflexivity].
  - exact (Hrest None).
Qed.

(** How one argument is resolved, by cases on its sources. *)
Lemma parse_input_cases function_params arg w :
  let r := StepRunner.parse_input env self annotations input_artifacts
             function_params arg w in
  r.2 = w
  ∧ (∀ v, Spec.resolved_from env self annotations input_artifacts w arg v
          → r.1 = Returned (dict_set function_params arg v))
  ∧ (∀ params, r.1 = Returned params →
       ∃ v, Spec.resolved_from env self annotations input_artifacts w arg v
            ∧ params = dict_set function_params arg v)
  ∧ (Spec.unsatisfiable self annotations input_artifacts arg
     → r.1 = Raised (Exn RuntimeError (MsgMissingArgument arg))).
Proof.
  unfold Spec.resolved_from, Spec.unsatisfiable, StepRunner.parse_input,
    StepRunner.configuration.
  destruct (StepRunner.is_step_context_type (annotations !! arg)) eqn:Hctx.
  - run_monad. destruct (step_context w) as [c|] eqn:Hw; simpl.
    + repeat split.
      * intros v [_ ->]. reflexivity.
      * intros params [= <-]. eauto.
      * intros [? _]. discriminate.
    + repeat split.
      * intros v [[? ?] _]. discriminate.
      * intros params ?. discriminate.
      * intros [? _]. discriminate.
  - destruct (input_artifacts !! arg) as [artifact|] eqn:Hin.
    + rewrite bind_run.
      pose proof (load_input_artifact_world artifact (annotations !! arg) w)
        as Hw.
      destruct (StepRunner._load_input_artifact env artifact
                  (annotations !! arg) w) as [[v|e] w'] eqn:Hload;
        simpl in Hw; subst w'; simpl.
      * repeat split.
        -- intros v' [= <-]. reflexivity.
        -- intros params [= <-]. eauto.
        -- intros (_ & ? & _). discriminate.
      * repeat split.
        -- intros v' ?. discriminate.
        -- intros params ?. discriminate.
        -- intros (_ & ? & _). discriminate.
    + destruct (parameters (config self) !! arg) as [v|] eqn:Hp; simpl.
      * repeat split.
        -- intros v' [= <-]. reflexivity.
        -- intros params [= <-]. eauto.
        -- intros (_ & _ & ?). discriminate.
      * repeat split.
        -- intros v' ?. discriminate.
        -- intros params ?. discriminate.
Qed.







End parse_inputs.



(** ** Step-log capture *)

(** C7, as stated, fails: with the environment switch
    [ZENML_DISABLE_STEP_LOGS_STORAGE] on, a step whose own setting enables
    its logs is run without log capture. *)
Lemma step_logging_disabled_by_environment :
  let c := Examples.step_config [] ∅ None None (Some true) in
  enable_step_logs (sr_config (Examples.step_run_of c)) = Some true
  ∧ StepRunner.step_logging_enabled
      (Examples.env_of true Examples.silent_step Examples.no_hooks)
      (Examples.step_run_of c) Examples.pipeline_run_1 = false.
Proof. split; reflexivity. Qed.

(** C7, amended: the environment switch disables the capture of step
    logs; when it is off the decision is the setting of the step when it
    is set, else the setting of the pipeline when it is set, else
    enabled. *)
Theorem step_logging_two_level_override (env : Env)
    (step_run : StepRunResponse) (pipeline_run : PipelineRunResponse) :
  StepRunner.step_logging_enabled env step_run pipeline_run
  = if disable_step_logs_storage env then false
    else match enable_step_logs (sr_config step_run),
               p_enable_step_logs (pr_config pipeline_run) with
         | Some on_step, _ => on_step
         | None, Some on_pipeline => on_pipeline
         | None, None => true
         end.
Proof.
  unfold StepRunner.step_logging_enabled, is_setting_enabled.
  destruct (disable_step_logs_storage env); [reflexivity|].
  destruct (enable_step_logs _); [reflexivity|].
  destruct (p_enable_step_logs _); reflexivity.
Qed.

(** ** Storing the outputs *)

Lemma saved_app (w : world) (evs : list event) :
  saved (World (step_context w) (materializer_registry w) (events w ++ evs))
  = saved w
    ++ omap (λ ev, match ev with EvSaveArtifact r => Some r | _ => None end)
         evs.
Proof. unfold saved. simpl. apply omap_app. Qed.

Section store.
Context (env : Env) (self : Step).

(** Choosing a materializer touches the registry only. *)
Lemma choose_materializer_frame oms output_name data_type :
  keeps same_but_registry
    (StepRunner.choose_materializer env self oms output_name data_type).
Proof.
  unfold StepRunner.choose_materializer, select_materializer. solve_keeps.
  intros w. split; reflexivity.
Qed.

Lemma has_name_custom_name signature c :
  artifact_config signature = Some c →
  StepRunner.has_name c = bool_decide (is_Some (Spec.custom_name signature)).
Proof.
  intros Hc. unfold StepRunner.has_name, Spec.custom_name. rewrite Hc.
  destruct (ac_name c) as [n|]; [|reflexivity].
  destruct (decide (n = "")) as [->|Hn]; simpl.
  - reflexivity.
  - rewrite bool_decide_eq_false_2 by exact Hn. reflexivity.
Qed.

(** The name computed by the runner is the logical name, the output
    annotations being keyed by custom name. *)
Lemma artifact_name_logical ctx oas output_name signature :
  Spec.keyed_by_custom_name oas →
  dict_get oas output_name = Some signature →
  StepRunner.artifact_name_of ctx output_name
    match artifact_config signature with
    | Some c => StepRunner.has_name c
    | None => false
    end
  = Spec.logical_name ctx output_name signature.
Proof.
  intros Hkeys Hsig. unfold Spec.logical_name, StepRunner.artifact_name_of.
  destruct (artifact_config signature) as [c|] eqn:Hc.
  - rewrite (has_name_custom_name _ _ Hc).
    destruct (Spec.custom_name signature) as [custom|] eqn:Hcustom; simpl.
    + eapply Hkeys; eassumption.
    + reflexivity.
  - unfold Spec.custom_name. rewrite Hc. reflexivity.
Qed.

(** One iteration of the loop issues at most one save request, under the
    logical name of the output; it returns only after issuing it. *)
Lemma store_output_spec ctx oms uris oas md viz acc item w :
  Spec.keyed_by_custom_name oas →
  let r := StepRunner.store_output env self ctx oms uris oas md viz acc
             item w in
  step_context r.2 = step_context w
  ∧ ((saved r.2 = saved w ∧ is_raised r.1 = true)
     ∨ ∃ request, saved r.2 = saved w ++ [request]
                  ∧ Spec.stores_output ctx oas request item).
Proof.
  intros Hkeys. destruct item as [output_name return_value].
  unfold StepRunner.store_output. rewrite bind_run.
  pose proof (choose_materializer_frame oms output_name
                (type_of return_value) w) as [Hctx Hev]. simpl in Hctx, Hev.
  destruct (StepRunner.choose_materializer env self oms output_name
              (type_of return_value) w) as [[m|e] w1]; simpl in *.
  2: { split; [done|]. left. unfold saved. rewrite Hev. done. }
  assert (saved w1 = saved w) as Hsaved by (unfold saved; rewrite Hev; done).
  rewrite <- Hctx, <- Hsaved. clear Hctx Hev Hsaved.
  run_monad.
  destruct (uris !! output_name) as [uri|]; simpl; [|split; [done|left; done]].
  destruct (dict_get oas output_name) as [signature|] eqn:Hsig; simpl;
    [|split; [done|left; done]].
  pose proof (artifact_name_logical ctx oas output_name signature Hkeys Hsig)
    as Hname.
  unfold get_output_metadata, get_output_tags, context_get_output.
  run_monad.
  destruct (dict_get (ctx_outputs ctx) output_name) as [o|]; simpl;
    [|split; [done|left; done]].
  run_monad.
  match goal with
  | |- context [save_artifact env ?request] =>
      destruct (save_artifact env request) as [artifact_id|e]; simpl;
      (split; [done|]); right; exists request;
      (split; [apply (saved_app w1 [EvSaveArtifact request])|]);
      exists signature; simpl; rewrite Hname; done
  end.
Qed.

Lemma store_loop_spec ctx oms uris oas md viz output_data : ∀ acc w,
  Spec.keyed_by_custom_name oas →
  let r := for_each output_data acc
             (StepRunner.store_output env self ctx oms uris oas md viz) w in
  ∃ requests,
    saved r.2 = saved w ++ requests
    ∧ Forall2 (Spec.stores_output ctx oas) requests
        (take (length requests) output_data)
    ∧ (is_raised r.1 = false → length requests = length output_data).
Proof.
  induction output_data as [|item output_data IH]; intros acc w Hkeys; simpl.
  - exists []. rewrite app_nil_r. simpl. repeat split; constructor.
  - rewrite bind_run.
    destruct (store_output_spec ctx oms uris oas md viz acc item w Hkeys)
      as [_ Hitem]. simpl in Hitem.
    destruct (StepRunner.store_output env self ctx oms uris oas md viz acc
                item w) as [[acc'|e] w1]; simpl in *.
    + destruct Hitem as [[_ ?]|(request & Hsaved & Hstores)]; [discriminate|].
      destruct (IH acc' w1 Hkeys) as (requests & Hrs & Hall & Hlen).
      exists (request :: requests). simpl. split; [|split].
      * rewrite Hrs, Hsaved, <- app_assoc. reflexivity.
      * constructor; assumption.
      * intros Hok. rewrite (Hlen Hok). reflexivity.
    + destruct Hitem as [[Hsaved _]|(request & Hsaved & Hstores)].
      * exists []. rewrite app_nil_r. simpl.
        repeat split; [assumption|constructor|discriminate].
      * exists [request]. simpl. repeat split; [assumption| |discriminate].
        constructor; [assumption|]. rewrite take_0. constructor.
Qed.

End store.

(** C6: every output that [_store_output_artifacts] stores is saved under
    its custom name when its artifact configuration declares a non-empty
    one, and under [pipeline::step::output] otherwise, the pipeline name
    of a run without a pipeline being "unlisted". The save requests
    follow the outputs in order, one for each output when the call
    returns. The output annotations are keyed the way the parser of
    return annotations keys them: by custom name where one is declared
    (the runner passes the key as the name and flags it as custom). *)
Theorem stored_artifact_names (env : Env) (self : Step)
    (output_data : odict value)
    (output_materializers : odict (list Materializer))
    (output_artifact_uris : gmap string string)
    (output_annotations : odict OutputSignature)
    (artifact_metadata_enabled artifact_visualization_enabled : bool)
    (w : world) (ctx : StepContext) :
  step_context w = Some ctx →
  Spec.keyed_by_custom_name output_annotations →
  let r := StepRunner._store_output_artifacts env self output_data
             output_materializers output_artifact_uris output_annotations
             artifact_metadata_enabled artifact_visualization_enabled w in
  ∃ requests,
    saved r.2 = saved w ++ requests
    ∧ Forall2 (Spec.stores_output ctx output_annotations) requests
        (take (length requests) output_data)
    ∧ (is_raised r.1 = false → length requests = length output_data).
Proof.
  intros Hctx Hkeys. unfold StepRunner._store_output_artifacts.
  rewrite bind_run. unfold get_step_context. run_monad. rewrite Hctx. simpl.
  apply store_loop_spec, Hkeys.
Qed.

Lemma stored_artifact_names_witness :
  ∃ requests,
    saved (StepRunner._store_output_artifacts
             (Examples.env_of false Examples.silent_step Examples.no_hooks)
             (Examples.step_of Examples.two_outputs_config)
             [("accuracy", VInt 9); ("output_1", VStr "report")]
             Examples.two_outputs_materializers Examples.two_outputs_uris
             Examples.two_outputs_annotations true true
             Examples.two_outputs_world).2
    = [] ++ requests
    ∧ sa_name <$> requests
      = ["accuracy"; "training::trainer::output_1"].
Proof.
  destruct (stored_artifact_names
              (Examples.env_of false Examples.silent_step Examples.no_hooks)
              (Examples.step_of Examples.two_outputs_config)
              [("accuracy", VInt 9); ("output_1", VStr "report")]
              Examples.two_outputs_materializers Examples.two_outputs_uris
              Examples.two_outputs_annotations true true
              Examples.two_outputs_world Examples.two_outputs_context)
    as (requests & Hsaved & _).
  - reflexivity.
  - intros output_name signature custom Hget Hcustom.
    unfold Examples.two_outputs_annotations in Hget. simpl in Hget.
    repeat (destruct (decide _) in Hget;
            [injection Hget as <-; vm_compute in Hcustom; congruence|]).
    discriminate.
  - exists requests. split; [exact Hsaved|].
    vm_compute in Hsaved. simpl in Hsaved. subst requests. reflexivity.
Defined.

(** ** Materializer selection *)

Lemma find_first {A} (P : A → bool) (before : list A) (x : A)
    (after : list A) :
  Forall (λ y, P y = false) before → P x = true →
  List.find P (before ++ x :: after) = Some x.
Proof.
  induction 1 as [|y before Hy _ IH]; intros Hx; simpl.
  - rewrite Hx. reflexivity.
  - rewrite Hy. apply IH, Hx.
Qed.

Lemma find_none {A} (P : A → bool) (l : list A) :
  Forall (λ y, P y = false) l → List.find P l = None.
Proof.
  induction 1 as [|y l Hy _ IH]; simpl; [reflexivity|].
  rewrite Hy. exact IH.
Qed.

Lemma registry_getitem_exact r data_type before m after :
  materializer_types r = before ++ (data_type, m) :: after →
  Forall (λ e, e.1 ≠ data_type) before →
  registry_getitem r data_type = m.
Proof.
  intros Htypes Hbefore. unfold registry_getitem. rewrite Htypes.
  rewrite (find_first _ before (data_type, m) after); [reflexivity| |].
  - eapply Forall_impl; [exact Hbefore|]. intros e He.
    apply bool_decide_eq_false_2, He.
  - apply bool_decide_eq_true_2. reflexivity.
Qed.

Lemma registry_getitem_default r data_type :
  Forall (λ e, e.1 ≠ data_type) (materializer_types r) →
  registry_getitem r data_type = default_materializer r.
Proof.
  intros Hall. unfold registry_getitem. rewrite find_none; [reflexivity|].
  eapply Forall_impl; [exact Hall|]. intros e He.
  apply bool_decide_eq_false_2, He.
Qed.

(** C8: the materializer of an output is a function of the declared
    candidates, the runtime type and the registry. With declared
    candidates, the first one, in declaration order, that can handle the
    runtime type of the value is selected, and the selection raises when
    none can. With no declared candidate, the default materializer
    configured for the output, if any, is first set as the default entry
    of the registry; the selection is then the entry of the registry
    keyed by exactly the runtime type, and the default entry when there
    is no such key. *)
Theorem materializer_selection (env : Env) (self : Step)
    (output_materializers : odict (list Materializer))
    (output_name : string) (data_type : pyclass) (w : world)
    (candidates : list Materializer) :
  dict_get output_materializers output_name = Some candidates →
  let r := StepRunner.choose_materializer env self output_materializers
             output_name data_type w in
  match candidates with
  | _ :: _ =>
      (∀ before m after,
         candidates = before ++ m :: after →
         Forall (λ c, can_handle_type c data_type = false) before →
         can_handle_type m data_type = true →
         r = (Returned m, w))
      ∧ (Forall (λ c, can_handle_type c data_type = false) candidates →
         r.2 = w ∧ is_raised r.1 = true)
  | [] =>
      ∀ output default,
        dict_get (outputs (config self)) output_name = Some output →
        match default_materializer_source output with
        | Some src => load_and_validate_class env src = Returned default
        | None => default = default_materializer (materializer_registry w)
        end →
        ∃ m w',
          r = (Returned m, w')
          ∧ default_materializer (materializer_registry w') = default
          ∧ materializer_types (materializer_registry w')
            = materializer_types (materializer_registry w)
          ∧ same_but_registry w w'
          ∧ (∀ before exact after,
               materializer_types (materializer_registry w)
               = before ++ (data_type, exact) :: after →
               Forall (λ e, e.1 ≠ data_type) before →
               m = exact)
          ∧ (Forall (λ e, e.1 ≠ data_type)
               (materializer_types (materializer_registry w)) →
             m = default)
  end.
Proof.
  intros Hget. unfold StepRunner.choose_materializer, select_materializer.
  run_monad. rewrite Hget. simpl.
  destruct candidates as [|c cs].
  - intros output default Hout Hdefault. rewrite Hout. simpl.
    destruct (default_materializer_source output) as [src|].
    + rewrite Hdefault. simpl. unfold set_default_materializer.
      do 2 eexists. split; [reflexivity|]. simpl.
      split; [reflexivity|]. split; [reflexivity|].
      split; [split; reflexivity|]. split.
      * intros before exact after Htypes Hbefore.
        eapply registry_getitem_exact; [|exact Hbefore]. exact Htypes.
      * intros Hall. apply registry_getitem_default. exact Hall.
    + simpl. do 2 eexists. split; [reflexivity|].
      split; [symmetry; exact Hdefault|]. split; [reflexivity|].
      split; [split; reflexivity|]. split.
      * intros before exact after Htypes Hbefore.
        eapply registry_getitem_exact; eassumption.
      * intros Hall. rewrite Hdefault.
        apply registry_getitem_default. exact Hall.
  - split.
    + intros before m after Hsplit Hbefore Hm.
      rewrite Hsplit, (find_first _ before m after Hbefore Hm). reflexivity.
    + intros Hall. rewrite (find_none _ _ Hall). split; reflexivity.
Qed.

Lemma materializer_selection_witness :
  StepRunner.choose_materializer
    (Examples.env_of false Examples.silent_step Examples.no_hooks)
    (Examples.step_of Examples.two_outputs_config)
    Examples.declared_candidates "accuracy" (Builtin B_int)
    Examples.two_outputs_world
  = (Returned Examples.builtin_materializer, Examples.two_outputs_world).
Proof.
  pose proof (materializer_selection
           (Examples.env_of false Examples.silent_step Examples.no_hooks)
           (Examples.step_of Examples.two_outputs_config)
           Examples.declared_candidates "accuracy" (Builtin B_int)
           Examples.two_outputs_world
           [Examples.list_materializer; Examples.builtin_materializer;
            Examples.pickle_materializer]
           eq_refl) as [Hfirst _].
  apply (Hfirst [Examples.list_materializer] Examples.builtin_materializer
           [Examples.pickle_materializer]).
  - reflexivity.
  - repeat constructor.
  - reflexivity.
Defined.

(** ** Effects of the parts of [run] *)

Lemma keeps_emit_same_saved ev :
  is_save ev = false → keeps same_saved (emit ev).
Proof.
  intros Hev w. unfold same_saved, emit. simpl.
  rewrite (saved_app w [ev]). destruct ev; try discriminate;
    simpl; apply app_nil_r.
Qed.

Lemma keeps_call_same_saved {A} ev (o : outcome A) :
  is_save ev = false → keeps same_saved (call ev o).
Proof.
  intros Hev. unfold call. apply keeps_bind; [typeclasses eauto| |].
  - apply keeps_emit_same_saved, Hev.
  - intros _. apply keeps_lift. typeclasses eauto.
Qed.

Lemma keeps_call_same_context {A} ev (o : outcome A) :
  keeps same_context (call ev o).
Proof. intros w. reflexivity. Qed.

Lemma keeps_emit_same_context ev : keeps same_context (emit ev).
Proof. intros w. reflexivity. Qed.

Lemma keeps_set_step_context_same_saved c :
  keeps same_saved (set_step_context c).
Proof. intros w. reflexivity. Qed.

Lemma keeps_set_default_same_saved m :
  keeps same_saved (set_default_materializer m).
Proof. intros w. reflexivity. Qed.

Lemma keeps_set_default_same_context m :
  keeps same_context (set_default_materializer m).
Proof. intros w. reflexivity. Qed.

Lemma keeps_run_hook_same_saved hook args :
  keeps same_saved (run_hook hook args).
Proof. intros w. reflexivity. Qed.

(** Closes the effects left by [solve_keeps] that issue no save request
    and leave the step context alone. *)
Ltac solve_effects :=
  solve_keeps;
  try first
    [ apply keeps_call_same_saved; reflexivity
    | apply keeps_emit_same_saved; reflexivity
    | apply keeps_call_same_context
    | apply keeps_emit_same_context
    | apply keeps_set_step_context_same_saved
    | apply keeps_set_default_same_saved
    | apply keeps_set_default_same_context
    | apply keeps_run_hook_same_saved ].

Lemma unchanged_same_saved {A} (m : M A) :
  keeps unchanged m → keeps same_saved m.
Proof. intros H w. unfold same_saved. rewrite (H w). reflexivity. Qed.

Lemma unchanged_same_context {A} (m : M A) :
  keeps unchanged m → keeps same_context m.
Proof. intros H w. unfold same_context. rewrite (H w). reflexivity. Qed.

Section effects.
Context (env : Env) (self : Step).

Lemma parse_input_unchanged annotations input_artifacts acc arg :
  keeps unchanged
    (StepRunner.parse_input env self annotations input_artifacts acc arg).
Proof. intros w. apply parse_input_cases. Qed.

Lemma release_step_run_same_saved step_run_info step_failed :
  keeps same_saved (StepRunner.release_step_run env step_run_info step_failed).
Proof. unfold StepRunner.release_step_run. solve_effects. Qed.

Lemma release_step_run_same_context step_run_info step_failed :
  keeps same_context
    (StepRunner.release_step_run env step_run_info step_failed).
Proof. unfold StepRunner.release_step_run. solve_effects. Qed.

Lemma run_success_hook_same_saved :
  keeps same_saved (StepRunner.run_success_hook env self).
Proof.
  unfold StepRunner.run_success_hook. solve_effects.
Qed.

Lemma parse_hook_inputs_unchanged args annotations step_exception :
  keeps unchanged
    (StepRunner._parse_hook_inputs self args annotations step_exception).
Proof.
  unfold StepRunner._parse_hook_inputs. solve_keeps.
  all: intros w; reflexivity.
Qed.

(** A hook that leaves the process state alone leaves it alone when it
    cannot be loaded, when its arguments cannot be bound, and when it
    raises. *)
Lemma load_and_run_hook_alike src step_exception :
  Spec.hooks_keep_state env →
  keeps alike (StepRunner.load_and_run_hook env self src step_exception).
Proof.
  intros Hkeep w.
  unfold StepRunner.load_and_run_hook, try_except_Exception,
    StepRunner.hook_body.
  rewrite bind_run. unfold lift at 1.
  destruct (load_hook env src) as [hook|e] eqn:Hload.
  - rewrite bind_run.
    pose proof (parse_hook_inputs_unchanged (hook_args hook)
                  (hook_annotations hook) step_exception w) as Hw.
    unfold unchanged in Hw.
    destruct (StepRunner._parse_hook_inputs self (hook_args hook)
                (hook_annotations hook) step_exception w)
      as [[args|e] w1]; simpl in Hw; subst w1.
    + unfold run_hook. run_monad.
      destruct (Hkeep src hook args (step_context w)
                  (materializer_registry w) Hload) as [Hctx Hreg].
      destruct (hook_outcome _) as [[]|e]; simpl;
        [|destruct (is_Exception (exn_type e)); simpl];
        split; simpl; congruence.
    + destruct (is_Exception (exn_type e)); split; reflexivity.
  - destruct (is_Exception (exn_type e)); split; reflexivity.
Qed.

Lemma run_success_hook_same_context :
  Spec.hooks_keep_state env →
  keeps same_context (StepRunner.run_success_hook env self).
Proof.
  intros Hkeep w. unfold StepRunner.run_success_hook.
  destruct (success_hook_source (StepRunner.configuration self)) as [src|];
    [|reflexivity].
  destruct (load_and_run_hook_alike src None Hkeep w) as [Hctx _].
  unfold same_context. symmetry. exact Hctx.
Qed.


Lemma before_entrypoint_same_saved pipeline_run step_run input_artifacts
    output_artifact_uris step_run_info :
  keeps same_saved
    (StepRunner.before_entrypoint env self pipeline_run step_run
       input_artifacts output_artifact_uris step_run_info).
Proof.
  unfold StepRunner.before_entrypoint, StepRunner._load_step,
    StepRunner._load_output_materializers, StepContext_init,
    StepRunner._prepare_model_context_for_step, context_model,
    StepRunner._link_pipeline_run_to_model_from_context,
    StepRunner._get_model_versions_from_config, StepContext_clear.
  solve_effects.
  - apply unchanged_same_saved, parse_input_unchanged.
  - unfold context_model. solve_effects.
Qed.

End effects.

(** ** Output validation *)

Section validation.
Context (env : Env) (self : Step).

Lemma validate_arity_error return_values output_annotations :
  1 < length output_annotations →
  ¬ Spec.fits_arity return_values (length output_annotations) →
  ∃ msg,
    Spec.arity_message msg
    ∧ ∀ w,
        StepRunner._validate_outputs self return_values output_annotations w
        = (Raised (Exn StepInterfaceError msg), w).
Proof.
  intros Hk Hfit. unfold StepRunner._validate_outputs.
  destruct (decide (length output_annotations = 0)); [lia|].
  destruct (decide (length output_annotations = 1)); [lia|].
  destruct (is_list_or_tuple return_values) eqn:Hseq; simpl.
  - destruct (decide (length output_annotations
                      ≠ length (sequence_items return_values))) as [Hne|Heq].
    + eexists. split; [|intros w; reflexivity]. exact I.
    + exfalso. apply Hfit. split; [exact Hseq|].
      destruct (decide (length (sequence_items return_values)
                        = length output_annotations)); [assumption|].
      exfalso. apply Heq. congruence.
  - eexists. split; [|intros w; reflexivity]. exact I.
Qed.

Lemma validation_loop_error step_name items : ∀ oas i output_name signature
    v acc,
  oas !! i = Some (output_name, signature) →
  items !! i = Some v →
  resolved_annotation signature ≠ TAny →
  isinstance v (resolved_annotation signature) = false →
  ∃ msg,
    Spec.type_message msg
    ∧ ∀ w,
        for_each (zip items oas) acc (StepRunner.validate_output step_name) w
        = (Raised (Exn StepInterfaceError msg), w).
Proof.
  induction items as [|v0 items IH];
    intros oas i output_name signature v acc Hoa Hitem Hany Hinst.
  - rewrite lookup_nil in Hitem. discriminate.
  - destruct oas as [|[n0 s0] oas]; [rewrite lookup_nil in Hoa; discriminate|].
    destruct i as [|i]; simpl in Hoa, Hitem.
    + injection Hoa as -> ->. injection Hitem as ->.
      simpl. unfold StepRunner.validate_output at 1.
      destruct (resolved_annotation signature) eqn:Hann; [done| |];
        rewrite Hinst; simpl; eexists;
        (split; [|intros w; reflexivity]); exact I.
    + destruct (IH oas i output_name signature v
                  (dict_set acc n0 v0) Hoa Hitem Hany Hinst)
        as (msg & Htype & Hmsg).
      simpl. unfold StepRunner.validate_output at 1.
      destruct (resolved_annotation s0) eqn:Hann.
      * exists msg. split; [exact Htype|].
        intros w. rewrite bind_run. apply Hmsg.
      * destruct (isinstance v0 (TClass c)); simpl.
        -- exists msg. split; [exact Htype|].
           intros w. rewrite bind_run. apply Hmsg.
        -- eexists. split; [|intros w; reflexivity]. exact I.
      * destruct (isinstance v0 (TUnion args)); simpl.
        -- exists msg. split; [exact Htype|].
           intros w. rewrite bind_run. apply Hmsg.
        -- eexists. split; [|intros w; reflexivity]. exact I.
Qed.

Lemma validate_type_error return_values output_annotations i output_name
    signature v :
  output_annotations !! i = Some (output_name, signature) →
  Spec.returned_items return_values (length output_annotations) !! i
  = Some v →
  resolved_annotation signature ≠ TAny →
  isinstance v (resolved_annotation signature) = false →
  ∃ msg,
    (Spec.type_message msg ∨ Spec.arity_message msg)
    ∧ (length output_annotations = 1
       ∨ Spec.fits_arity return_values (length output_annotations) →
       Spec.type_message msg)
    ∧ ∀ w,
        StepRunner._validate_outputs self return_values output_annotations w
        = (Raised (Exn StepInterfaceError msg), w).
Proof.
  intros Hoa Hitem Hany Hinst. unfold StepRunner._validate_outputs.
  destruct (decide (length output_annotations = 0)) as [Hz|_].
  { apply lookup_lt_Some in Hoa. lia. }
  unfold Spec.returned_items in Hitem.
  destruct (decide (length output_annotations = 1)) as [Hone|Hmany].
  - assert (is_list_or_tuple (VList [return_values]) = true) as ->
      by reflexivity.
    cbn [negb]. destruct (decide _) as [Hne|_].
    { exfalso. apply Hne. rewrite Hone. reflexivity. }
    destruct (validation_loop_error (pipeline_parameter_name (spec self))
                (sequence_items (VList [return_values])) output_annotations
                i output_name signature v [] Hoa Hitem Hany Hinst)
      as (msg & Htype & Hmsg).
    exists msg. split; [left; exact Htype|]. split; [intros _; exact Htype|].
    exact Hmsg.
  - destruct (is_list_or_tuple return_values) eqn:Hseq; simpl.
    + destruct (decide _) as [Hne|_].
      * eexists (MsgWrongAmount _ _ _ _).
        split; [right; exact I|]. split; [|intros w; reflexivity].
        intros [?|[_ Hlen]]; [contradiction|]. exfalso. apply Hne.
        symmetry. exact Hlen.
      * destruct (validation_loop_error (pipeline_parameter_name (spec self))
                    (sequence_items return_values) output_annotations
                    i output_name signature v [] Hoa Hitem Hany Hinst)
          as (msg & Htype & Hmsg).
        exists msg. split; [left; exact Htype|].
        split; [intros _; exact Htype|]. exact Hmsg.
    + eexists (MsgNotListOrTuple _ _ _).
      split; [right; exact I|]. split; [|intros w; reflexivity].
      intros [?|[Hfit _]]; [contradiction|]. congruence.
Qed.

(** When validation raises, the [finally] clause raises, stores nothing,
    and stops right after validation when the statements before it
    return. *)
Lemma finally_clause_validation_error pipeline_run step_run uris
    step_run_info oms oas return_values e w1 :
  (∀ w, StepRunner._validate_outputs self return_values oas w
        = (Raised e, w)) →
  let r := StepRunner.finally_clause env self pipeline_run step_run uris
             step_run_info oms oas (Returned return_values) w1 in
  is_raised r.1 = true
  ∧ saved r.2 = saved w1
  ∧ ∀ w2,
      (StepRunner.release_step_run env step_run_info false;;
       StepRunner.run_success_hook env self) w1 = (Returned tt, w2) →
      r = (Raised e, w2).
Proof.
  intros Hval. unfold StepRunner.finally_clause. simpl. rewrite !bind_run.
  pose proof (release_step_run_same_saved env step_run_info false w1) as Hs1.
  destruct (StepRunner.release_step_run env step_run_info false w1)
    as [[[]|e1] wa]; simpl in *.
  2: { repeat split; [exact Hs1|]. intros w2 ?. discriminate. }
  rewrite !bind_run.
  pose proof (run_success_hook_same_saved env self wa) as Hs2.
  destruct (StepRunner.run_success_hook env self wa) as [[[]|e2] wb];
    simpl in *.
  2: { repeat split; [unfold same_saved in *; congruence|].
       intros w2 ?. discriminate. }
  unfold StepRunner.store_and_link. rewrite bind_run, Hval. simpl.
  repeat split; [unfold same_saved in *; congruence|].
  intros w2 [= <-]. reflexivity.
Qed.

(** The same, for the whole of [run]. *)
Lemma run_validation_error pipeline_run step_run input_artifacts uris
    step_run_info w step_instance oms function_params w1 return_values e :
  StepRunner.before_entrypoint env self pipeline_run step_run
    input_artifacts uris step_run_info w
  = (Returned (step_instance, oms, function_params), w1) →
  call_entrypoint step_instance function_params = Returned return_values →
  (∀ w, StepRunner._validate_outputs self return_values
          (output_annotations step_instance) w = (Raised e, w)) →
  let r := StepRunner.run env self pipeline_run step_run input_artifacts
             uris step_run_info w in
  is_raised r.1 = true
  ∧ saved r.2 = saved w
  ∧ ∀ w2,
      (StepRunner.release_step_run env step_run_info false;;
       StepRunner.run_success_hook env self) w1 = (Returned tt, w2) →
      r = (Raised e, w2).
Proof.
  intros Hbefore Hcall Hval.
  pose proof (before_entrypoint_same_saved env self pipeline_run step_run
                input_artifacts uris step_run_info w) as Hs0.
  unfold StepRunner.run. rewrite bind_run, Hbefore in *. simpl in *.
  rewrite bind_run. unfold StepRunner.invoke_entrypoint, try_finally,
    try_except_reraise, lift. rewrite Hcall.
  destruct (finally_clause_validation_error pipeline_run step_run uris
              step_run_info oms (output_annotations step_instance)
              return_values e w1 Hval) as (Hraised & Hsaved & Hstop).
  simpl in Hraised, Hsaved, Hstop.
  destruct (StepRunner.finally_clause env self pipeline_run step_run uris
              step_run_info oms (output_annotations step_instance)
              (Returned return_values) w1) as [[ids|e'] w']; simpl in *;
    [discriminate|].
  repeat split; [unfold same_saved in *; congruence|].
  intros w2 Hw2. specialize (Hstop w2 Hw2).
  injection Hstop as -> ->. reflexivity.
Qed.

(** A run that reaches the entrypoint has bound the step context. *)
Lemma before_entrypoint_binds_context pipeline_run step_run input_artifacts
    uris step_run_info w x w1 :
  StepRunner.before_entrypoint env self pipeline_run step_run
    input_artifacts uris step_run_info w = (Returned x, w1) →
  is_Some (step_context w1).
Proof.
  unfold StepRunner.before_entrypoint. intros H.
  apply bind_returned in H as (step_instance & wa & _ & H).
  apply bind_returned in H as (oms & wb & _ & H).
  apply bind_returned in H as ([] & wc & _ & H).
  apply bind_returned in H as ([] & wd & _ & H).
  apply bind_returned in H as ([] & we & Hinit & H).
  assert (is_Some (step_context we)) as Hbound.
  { unfold StepContext_init in Hinit.
    apply bind_returned in Hinit as (outs & wi & _ & Hset).
    injection Hset as <-. simpl. eexists. reflexivity. }
  assert (keeps same_context
            (StepRunner._prepare_model_context_for_step env;;
             function_params ←
               StepRunner._parse_inputs env self
                 (entrypoint_args step_instance)
                 (entrypoint_annotations step_instance) input_artifacts;
             StepRunner._link_pipeline_run_to_model_from_context env
               pipeline_run;;
             mret (step_instance, oms, function_params))) as Htail.
  { unfold StepRunner._prepare_model_context_for_step, context_model,
      StepRunner._link_pipeline_run_to_model_from_context,
      StepRunner._get_model_versions_from_config,
      StepRunner.create_links.
    solve_effects.
    - apply unchanged_same_context, parse_input_unchanged.
    - unfold context_model. solve_effects. }
  specialize (Htail we). rewrite H in Htail. unfold same_context in Htail.
  simpl in Htail. rewrite Htail. exact Hbound.
Qed.

(** When validation raises after the statements before it have
    returned, the last statement of the [finally] clause is not reached:
    the step context bound for the step is still live when [run] has
    raised, unless the success hook itself has cleared it. *)
Lemma validation_error_leaves_context pipeline_run step_run input_artifacts
    uris step_run_info w step_instance oms function_params w1 return_values
    e w2 :
  StepRunner.before_entrypoint env self pipeline_run step_run
    input_artifacts uris step_run_info w
  = (Returned (step_instance, oms, function_params), w1) →
  call_entrypoint step_instance function_params = Returned return_values →
  (∀ w, StepRunner._validate_outputs self return_values
          (output_annotations step_instance) w = (Raised e, w)) →
  (StepRunner.release_step_run env step_run_info false;;
   StepRunner.run_success_hook env self) w1 = (Returned tt, w2) →
  StepRunner.run env self pipeline_run step_run input_artifacts uris
    step_run_info w = (Raised e, w2)
  ∧ (Spec.hooks_keep_state env → is_Some (step_context w2)).
Proof.
  intros Hbefore Hcall Hval Hpre.
  destruct (run_validation_error pipeline_run step_run input_artifacts uris
              step_run_info w step_instance oms function_params w1
              return_values e Hbefore Hcall Hval) as (_ & _ & Hstop).
  split; [apply Hstop, Hpre|]. intros Hkeep.
  assert (keeps same_context
            (StepRunner.release_step_run env step_run_info false;;
             StepRunner.run_success_hook env self)) as Hkeeps.
  { apply keeps_bind; [typeclasses eauto| |intros _].
    - apply release_step_run_same_context.
    - apply run_success_hook_same_context, Hkeep. }
  specialize (Hkeeps w1). rewrite Hpre in Hkeeps. unfold same_context in Hkeeps.
  simpl in Hkeeps. rewrite Hkeeps.
  eapply before_entrypoint_binds_context, Hbefore.
Qed.

End validation.

(** ** The run of a step *)

(** C1, as stated, fails: the release of the step run comes before the
    validation of the outputs in the [finally] clause. On a stack whose
    [cleanup_step_run] fails, a step that declares two outputs and
    returns three values makes [run] raise the error of the stack, not
    the output-arity error; nothing is stored. *)
Lemma arity_error_replaced_by_stack_error :
  let c := Examples.two_outputs_config in
  let r := StepRunner.run
             (Examples.with_failing_cleanup
                (Examples.env_of false Examples.three_values_step
                   Examples.no_hooks))
             (Examples.step_of c) Examples.pipeline_run_1
             (Examples.step_run_of c) ∅ Examples.two_outputs_uris
             (Examples.step_run_info_of c) Examples.fresh_world in
  length (output_annotations Examples.three_values_step) = 2
  ∧ (∃ return_values,
       call_entrypoint Examples.three_values_step [] = Returned return_values
       ∧ ¬ Spec.fits_arity return_values 2)
  ∧ r.1 = Raised Examples.stack_error
  ∧ exn_type Examples.stack_error ≠ StepInterfaceError
  ∧ saved r.2 = [].
Proof.
  split; [reflexivity|]. split.
  - eexists. split; [reflexivity|].
    intros [_ Hlen]. vm_compute in Hlen. discriminate.
  - split; [vm_compute; reflexivity|].
    split; [discriminate | vm_compute; reflexivity].
Qed.

(** C1, amended: when a step declares [k > 1] outputs and its entrypoint
    returns a value that is not a list or tuple of length [k], [run]
    raises and issues no save request. The exception is the
    [StepInterfaceError] of the arity check of [_validate_outputs],
    raised in the state reached by the statements of the [finally]
    clause that come before validation (the release of the step run and
    the success hook), provided these return: nothing is stored after
    it. *)
Theorem run_output_arity (env : Env) (self : Step)
    (pipeline_run : PipelineRunResponse) (step_run : StepRunResponse)
    (input_artifacts : gmap string ArtifactVersionResponse)
    (output_artifact_uris : gmap string string)
    (step_run_info : StepRunInfo) (w : world)
    (step_instance : BaseStep) (output_materializers : odict (list Materializer))
    (function_params : odict value) (w1 : world) (return_values : value) :
  StepRunner.before_entrypoint env self pipeline_run step_run
    input_artifacts output_artifact_uris step_run_info w
  = (Returned (step_instance, output_materializers, function_params), w1) →
  call_entrypoint step_instance function_params = Returned return_values →
  1 < length (output_annotations step_instance) →
  ¬ Spec.fits_arity return_values
      (length (output_annotations step_instance)) →
  let r := StepRunner.run env self pipeline_run step_run input_artifacts
             output_artifact_uris step_run_info w in
  is_raised r.1 = true
  ∧ saved r.2 = saved w
  ∧ ∀ w2,
      (StepRunner.release_step_run env step_run_info false;;
       StepRunner.run_success_hook env self) w1 = (Returned tt, w2) →
      ∃ msg, Spec.arity_message msg
             ∧ r = (Raised (Exn StepInterfaceError msg), w2).
Proof.
  intros Hbefore Hcall Hk Hfit.
  destruct (validate_arity_error self return_values
              (output_annotations step_instance) Hk Hfit)
    as (msg & Hmsg & Hval).
  destruct (run_validation_error env self pipeline_run step_run
              input_artifacts output_artifact_uris step_run_info w
              step_instance output_materializers function_params w1
              return_values _ Hbefore Hcall Hval)
    as (Hraised & Hsaved & Hstop).
  repeat split; [exact Hraised | exact Hsaved |].
  intros w2 Hw2. exists msg. split; [exact Hmsg | apply Hstop, Hw2].
Qed.

Lemma run_output_arity_witness :
  let r := StepRunner.run
             (Examples.env_of false Examples.three_values_step
                Examples.no_hooks)
             (Examples.step_of Examples.two_outputs_config)
             Examples.pipeline_run_1
             (Examples.step_run_of Examples.two_outputs_config) ∅
             Examples.two_outputs_uris
             (Examples.step_run_info_of Examples.two_outputs_config)
             Examples.fresh_world in
  is_raised r.1 = true ∧ saved r.2 = [].
Proof.
  edestruct (run_output_arity
               (Examples.env_of false Examples.three_values_step
                  Examples.no_hooks)
               (Examples.step_of Examples.two_outputs_config)
               Examples.pipeline_run_1
               (Examples.step_run_of Examples.two_outputs_config) ∅
               Examples.two_outputs_uris
               (Examples.step_run_info_of Examples.two_outputs_config)
               Examples.fresh_world)
    as (Hraised & Hsaved & _).
  - vm_compute. reflexivity.
  - reflexivity.
  - simpl. lia.
  - intros [_ Hlen]. vm_compute in Hlen. discriminate.
  - split; [exact Hraised | exact Hsaved].
Defined.

(** C5, as stated, fails: the success hook runs before the validation
    of the outputs in the [finally] clause. When the success hook raises
    an exception not deriving from [Exception] (here [SystemExit]), a
    step that declares an [int] output and returns a string makes [run]
    raise the exception of the hook, not the output-type error; nothing
    is stored. *)
Lemma type_error_replaced_by_success_hook_exit :
  let c := Examples.one_output_config None (Some "hooks.on_success") in
  let r := StepRunner.run
             (Examples.env_of false Examples.string_for_int_step
                (λ _, Returned Examples.exiting_hook))
             (Examples.step_of c) Examples.pipeline_run_1
             (Examples.step_run_of c) ∅ Examples.one_output_uris
             (Examples.step_run_info_of c) Examples.fresh_world in
  (∃ signature,
     output_annotations Examples.string_for_int_step
     = [("output", signature)]
     ∧ resolved_annotation signature = TClass (Builtin B_int)
     ∧ call_entrypoint Examples.string_for_int_step []
       = Returned (VStr "five")
     ∧ isinstance (VStr "five") (resolved_annotation signature) = false)
  ∧ r.1 = Raised Examples.system_exit
  ∧ exn_type Examples.system_exit ≠ StepInterfaceError
  ∧ saved r.2 = [].
Proof.
  split.
  - eexists. split; [reflexivity|]. repeat split.
  - split; [vm_compute; reflexivity|].
    split; [discriminate | vm_compute; reflexivity].
Qed.

(** C5, amended: when some declared output has a resolved annotation
    other than [Any] and the corresponding return value is not an
    instance of it, [run] raises and issues no save request. The
    exception is a [StepInterfaceError] of [_validate_outputs], the
    output-type error when the return value fits the number of outputs,
    raised in the state reached by the statements of the [finally]
    clause that come before validation (the release of the step run and
    the success hook), provided these return: nothing is stored after
    it. *)
Theorem run_output_type (env : Env) (self : Step)
    (pipeline_run : PipelineRunResponse) (step_run : StepRunResponse)
    (input_artifacts : gmap string ArtifactVersionResponse)
    (output_artifact_uris : gmap string string)
    (step_run_info : StepRunInfo) (w : world)
    (step_instance : BaseStep) (output_materializers : odict (list Materializer))
    (function_params : odict value) (w1 : world) (return_values : value)
    (i : nat) (output_name : string) (signature : OutputSignature)
    (v : value) :
  StepRunner.before_entrypoint env self pipeline_run step_run
    input_artifacts output_artifact_uris step_run_info w
  = (Returned (step_instance, output_materializers, function_params), w1) →
  call_entrypoint step_instance function_params = Returned return_values →
  output_annotations step_instance !! i = Some (output_name, signature) →
  Spec.returned_items return_values
    (length (output_annotations step_instance)) !! i = Some v →
  resolved_annotation signature ≠ TAny →
  isinstance v (resolved_annotation signature) = false →
  let r := StepRunner.run env self pipeline_run step_run input_artifacts
             output_artifact_uris step_run_info w in
  is_raised r.1 = true
  ∧ saved r.2 = saved w
  ∧ ∀ w2,
      (StepRunner.release_step_run env step_run_info false;;
       StepRunner.run_success_hook env self) w1 = (Returned tt, w2) →
      ∃ msg,
        r = (Raised (Exn StepInterfaceError msg), w2)
        ∧ (length (output_annotations step_instance) = 1
           ∨ Spec.fits_arity return_values
               (length (output_annotations step_instance)) →
           Spec.type_message msg).
Proof.
  intros Hbefore Hcall Hoa Hitem Hany Hinst.
  destruct (validate_type_error self return_values
              (output_annotations step_instance) i output_name signature v
              Hoa Hitem Hany Hinst) as (msg & _ & Hmsg & Hval).
  destruct (run_validation_error env self pipeline_run step_run
              input_artifacts output_artifact_uris step_run_info w
              step_instance output_materializers function_params w1
              return_values _ Hbefore Hcall Hval)
    as (Hraised & Hsaved & Hstop).
  repeat split; [exact Hraised | exact Hsaved |].
  intros w2 Hw2. exists msg. split; [apply Hstop, Hw2 | exact Hmsg].
Qed.

Lemma run_output_type_witness :
  let r := StepRunner.run
             (Examples.env_of false Examples.string_for_int_step
                Examples.no_hooks)
             (Examples.step_of (Examples.one_output_config None None))
             Examples.pipeline_run_1
             (Examples.step_run_of (Examples.one_output_config None None)) ∅
             Examples.one_output_uris
             (Examples.step_run_info_of (Examples.one_output_config None None))
             Examples.fresh_world in
  is_raised r.1 = true ∧ saved r.2 = [].
Proof.
  edestruct (run_output_type
               (Examples.env_of false Examples.string_for_int_step
                  Examples.no_hooks)
               (Examples.step_of (Examples.one_output_config None None))
               Examples.pipeline_run_1
               (Examples.step_run_of (Examples.one_output_config None None))
               ∅ Examples.one_output_uris
               (Examples.step_run_info_of
                  (Examples.one_output_config None None))
               Examples.fresh_world)
    as (Hraised & Hsaved & _).
  - vm_compute. reflexivity.
  - reflexivity.
  - instantiate (3 := 0). reflexivity.
  - reflexivity.
  - simpl. discriminate.
  - reflexivity.
  - split; [exact Hraised | exact Hsaved].
Defined.

(** ** Failure of the entrypoint *)

#[global] Instance grows_preorder : PreOrder grows.
Proof.
  split; [intros w; unfold grows; reflexivity|].
  intros w1 w2 w3 H12 H23. unfold grows in *. etrans; eassumption.
Qed.

Section failure.
Context (env : Env) (self : Step).

Lemma parse_hook_inputs_raises args annotations step_exception w e w' :
  StepRunner._parse_hook_inputs self args annotations step_exception w
  = (Raised e, w') →
  is_Exception (exn_type e) = true.
Proof.
  unfold StepRunner._parse_hook_inputs.
  generalize (@nil (string * hook_value)) as acc.
  induction (StepRunner.drop_self args) as [|arg l IH]; intros acc; simpl.
  - discriminate.
  - rewrite bind_run.
    destruct (default HA_missing (annotations !! arg)); run_monad.
    + intros [= <- _]. reflexivity.
    + destruct (parameters (StepRunner.configuration self) !! arg) as [v|];
        simpl.
      * destruct (parse_obj v); simpl.
        -- apply IH.
        -- intros [= <- _]. reflexivity.
      * intros [= <- _]. reflexivity.
    + destruct (step_context w); simpl.
      * apply IH.
      * intros [= <- _]. reflexivity.
    + apply IH.
    + intros [= <- _]. reflexivity.
Qed.

Lemma hook_body_raises_Exception src step_exception w e w' :
  Spec.hooks_raise_Exception env →
  StepRunner.hook_body env self src step_exception w = (Raised e, w') →
  is_Exception (exn_type e) = true.
Proof.
  intros [Hload Hcall]. unfold StepRunner.hook_body. rewrite bind_run.
  unfold lift at 1.
  destruct (load_hook env src) as [hook|e0] eqn:Hhook.
  - rewrite bind_run.
    destruct (StepRunner._parse_hook_inputs self (hook_args hook)
                (hook_annotations hook) step_exception w)
      as [[args|e1] w1] eqn:Hparse.
    + pose proof (parse_hook_inputs_unchanged self (hook_args hook)
                    (hook_annotations hook) step_exception w) as Hw.
      rewrite Hparse in Hw. unfold unchanged in Hw. simpl in Hw. subst w1.
      unfold run_hook. run_monad.
      destruct (hook_outcome (hook_call hook args (step_context w)
                                (materializer_registry w)))
        as [[]|e2] eqn:Hc; [discriminate|].
      intros [= <- _]. eapply Hcall; eassumption.
    + intros [= <- _]. eapply parse_hook_inputs_raises, Hparse.
  - intros [= <- _]. eapply Hload, Hhook.
Qed.

(** A hook that raises nothing but [Exception]s never makes
    [load_and_run_hook] raise: the exception is logged. *)
Lemma load_and_run_hook_returns src step_exception w :
  Spec.hooks_raise_Exception env →
  ∃ w',
    StepRunner.load_and_run_hook env self src step_exception w
    = (Returned tt, w')
    ∧ ∀ e wh,
        StepRunner.hook_body env self src step_exception w = (Raised e, wh) →
        EvLogError src e ∈ events w'.
Proof.
  intros Hhooks. unfold StepRunner.load_and_run_hook, try_except_Exception.
  destruct (StepRunner.hook_body env self src step_exception w)
    as [[[]|e] wh] eqn:Hbody.
  - eexists. split; [reflexivity|]. intros e wh' ?. discriminate.
  - rewrite (hook_body_raises_Exception _ _ _ _ _ Hhooks Hbody).
    eexists. split; [reflexivity|]. intros e' wh' [= <- <-].
    simpl. apply elem_of_app. right. left.
Qed.



End failure.




(** ** Clearing the step context *)

(** C2 fails on the code: a step that declares an [int] output and
    returns a string makes [_validate_outputs] raise inside the [finally]
    clause, whose last statement, [StepContext._clear()], is then not
    reached; the step context is still live when [run] has raised. When
    the entrypoint itself raises, the context is cleared. *)
Lemma step_context_survives_validation_error :
  let c := Examples.one_output_config None None in
  let run_of instance :=
    StepRunner.run (Examples.env_of false instance Examples.no_hooks)
      (Examples.step_of c) Examples.pipeline_run_1 (Examples.step_run_of c)
      ∅ Examples.one_output_uris (Examples.step_run_info_of c)
      Examples.fresh_world in
  is_raised (run_of Examples.string_for_int_step).1 = true
  ∧ is_Some (step_context (run_of Examples.string_for_int_step).2)
  ∧ is_raised (run_of Examples.failing_step).1 = true
  ∧ step_context (run_of Examples.failing_step).2 = None.
Proof.
  split; [vm_compute; reflexivity|].
  split; [vm_compute; eexists; reflexivity|].
  split; vm_compute; reflexivity.
Qed.

(** ** Linking the run to the models of the outputs *)

(** The loop of [_get_model_versions_from_artifacts] ends at an output
    whose artifact configuration has no model: the outputs after it are
    not looked at. *)
Lemma model_versions_stop_at_unbound_output (env : Env) (w : world)
    (ctx : StepContext) (output_name : string) (o : StepContextOutput)
    (c : ArtifactConfig) (rest : list string) (models : gset (UUID * UUID)) :
  step_context w = Some ctx →
  dict_get (ctx_outputs ctx) output_name = Some o →
  sco_artifact_config o = Some c →
  ac_model c = None →
  for_each_break (output_name :: rest) models
    (StepRunner.model_version_of_artifact env) w
  = (Returned models, w).
Proof.
  intros Hctx Hout Hcfg Hmodel. simpl. rewrite bind_run.
  unfold StepRunner.model_version_of_artifact, context_get_output.
  run_monad. rewrite Hctx. simpl. rewrite Hout. simpl.
  rewrite Hcfg, Hmodel. reflexivity.
Qed.

(** C4 fails on the code: the loop of [_get_model_versions_from_artifacts]
    stops at the first output whose artifact configuration has no model,
    so the model binding of an output that comes after it is not
    collected and the run is not linked to it; with the outputs in the
    other order, or after an output with no artifact configuration at
    all, the binding is collected. *)
Lemma model_binding_skipped_after_unbound_output :
  let env := Examples.env_of false Examples.silent_step Examples.no_hooks in
  let w := Examples.linked_outputs_world in
  (StepRunner._get_model_versions_from_artifacts env
     ["report"; "classifier"] w).1 = Returned ∅
  ∧ (StepRunner._get_model_versions_from_artifacts env
       ["classifier"; "report"] w).1 = Returned {[ (5%N, 100%N) ]}
  ∧ (StepRunner._get_model_versions_from_artifacts env
       ["plot"; "classifier"] w).1 = Returned {[ (5%N, 100%N) ]}
  ∧ run_links (StepRunner._link_pipeline_run_to_model_from_artifacts env
                 Examples.pipeline_run_1 ["report"; "classifier"] [] w).2
    = []
  ∧ run_links (StepRunner._link_pipeline_run_to_model_from_artifacts env
                 Examples.pipeline_run_1 ["classifier"; "report"] [] w).2
    = [(1%N, 5%N, 100%N)].
Proof. repeat split; vm_compute; reflexivity. Qed.

(** ** Password verification *)

Section verify_password.
Import UserModel.
Context (pwd_context : CryptContext).

(** C10: when the user is [None], has no password or is inactive, the
    verdict is that of verifying against an absent hash, exactly one
    hash verification is executed, the outcome is the one obtained for
    no user at all, and, [passlib] rejecting an absent hash, the verdict
    is never [True]. *)
Theorem verify_password_without_hash (plain_password : string)
    (user : option t) :
  (∀ secret, crypt_verify pwd_context secret None = false) →
  no_usable_password user →
  verify_password pwd_context plain_password user
  = (crypt_verify pwd_context plain_password None,
     [CallVerify plain_password None])
  ∧ verify_password pwd_context plain_password user
    = verify_password pwd_context plain_password None
  ∧ (verify_password pwd_context plain_password user).1 = false.
Proof.
  intros Hnone Huser.
  assert (verify_password pwd_context plain_password user
          = (crypt_verify pwd_context plain_password None,
             [CallVerify plain_password None])) as Heq.
  { unfold verify_password. destruct user as [u|]; [|reflexivity].
    simpl in Huser. destruct (password u) as [p|]; [|reflexivity].
    destruct Huser as [Hp|Ha]; [discriminate|]. rewrite Ha. reflexivity. }
  rewrite Heq. repeat split. simpl. apply Hnone.
Qed.

End verify_password.

Lemma verify_password_without_hash_witness :
  UserModel.verify_password Examples.toy_crypt_context "hunter2"
    (Some Examples.inactive_user)
  = (false, [UserModel.CallVerify "hunter2" None])
  ∧ UserModel.verify_password Examples.toy_crypt_context "hunter2"
      (Some Examples.inactive_user)
    = UserModel.verify_password Examples.toy_crypt_context "hunter2" None
  ∧ (UserModel.verify_password Examples.toy_crypt_context "hunter2"
       (Some Examples.inactive_user)).1 = false.
Proof.
  apply (verify_password_without_hash Examples.toy_crypt_context "hunter2"
           (Some Examples.inactive_user)).
  - intros secret. reflexivity.
  - right. reflexivity.
Defined.

(** * Further properties of the runner *)

(** ** Which collaborators are called *)

#[global] Instance only_preorder p : PreOrder (only p).
Proof.
  split.
  - intros w. exists []. split; [symmetry; apply app_nil_r | constructor].
  - intros w1 w2 w3 (evs & H12 & Hevs) (evs' & H23 & Hevs').
    exists (evs ++ evs'). split.
    + rewrite H23, H12, app_assoc. reflexivity.
    + apply Forall_app. split; assumption.
Qed.

Lemma keeps_emit_only p ev : p ev = true → keeps (only p) (emit ev).
Proof.
  intros Hev w. exists [ev]. split; [reflexivity|].
  constructor; [exact Hev | constructor].
Qed.

Lemma keeps_call_only {A} p ev (o : outcome A) :
  p ev = true → keeps (only p) (call ev o).
Proof.
  intros Hev. unfold call. apply keeps_bind; [typeclasses eauto| |].
  - apply keeps_emit_only, Hev.
  - intros _. apply keeps_lift. typeclasses eauto.
Qed.

Lemma keeps_silent_only {A} p (m : M A) :
  (∀ w, events (m w).2 = events w) → keeps (only p) m.
Proof.
  intros Hm w. exists []. rewrite app_nil_r. split; [apply Hm | constructor].
Qed.

Lemma only_impl (p q : event → bool) w w' :
  (∀ ev, p ev = true → q ev = true) → only p w w' → only q w w'.
Proof.
  intros Hpq (evs & Hev & Hall). exists evs. split; [exact Hev|].
  eapply Forall_impl; [exact Hall|]. exact Hpq.
Qed.

(** Closes the effects left by [solve_keeps] against [only p]: calls
    that [p] admits and statements that record nothing. *)
Ltac solve_only :=
  solve_keeps;
  try first
    [ apply keeps_call_only; reflexivity
    | apply keeps_emit_only; reflexivity
    | apply keeps_silent_only; intros ?; reflexivity ].

Section calls.
Context (env : Env) (self : Step).

Lemma parse_input_only p annotations input_artifacts acc arg :
  keeps (only p)
    (StepRunner.parse_input env self annotations input_artifacts acc arg).
Proof.
  apply keeps_silent_only. intros w.
  rewrite (parse_input_unchanged env self annotations input_artifacts acc
             arg w).
  reflexivity.
Qed.

Lemma before_entrypoint_only pipeline_run step_run input_artifacts uris
    step_run_info :
  keeps (only is_setup_event)
    (StepRunner.before_entrypoint env self pipeline_run step_run
       input_artifacts uris step_run_info).
Proof.
  unfold StepRunner.before_entrypoint, StepRunner._load_step,
    StepRunner._load_output_materializers, StepContext_init,
    StepRunner._prepare_model_context_for_step,
    StepRunner._link_pipeline_run_to_model_from_context,
    StepRunner._get_model_versions_from_config, StepRunner.create_links,
    StepContext_clear.
  solve_only.
  all: try apply parse_input_only.
  all: unfold context_model; solve_only.
Qed.

Lemma load_and_run_hook_only src step_exception :
  keeps (only is_hook_event)
    (StepRunner.load_and_run_hook env self src step_exception).
Proof.
  unfold StepRunner.load_and_run_hook, StepRunner.hook_body,
    StepRunner._parse_hook_inputs.
  solve_only.
Qed.

Lemma on_step_exception_only e :
  keeps (only is_failure_event) (StepRunner.on_step_exception env self e).
Proof.
  intros w. eapply only_impl; [|unfold StepRunner.on_step_exception;
    destruct (failure_hook_source (StepRunner.configuration self));
    [apply load_and_run_hook_only | exists []; split;
       [symmetry; apply app_nil_r | constructor]]].
  intros [] ?; try discriminate; reflexivity.
Qed.

Lemma finally_clause_failed_only pipeline_run step_run uris step_run_info
    oms oas e :
  keeps (only is_failure_event)
    (StepRunner.finally_clause env self pipeline_run step_run uris
       step_run_info oms oas (Raised e)).
Proof.
  unfold StepRunner.finally_clause, StepRunner.release_step_run,
    StepContext_clear.
  simpl. solve_only.
Qed.

End calls.

(** X1: a step whose entrypoint raises is never stored, linked or
    published: whatever the failure hook and the stack do, [run] raises,
    and the only collaborators called after the entrypoint are the
    failure hook (and the log of its failure) and the release of the step
    run, whose cleanup is told that the step failed. *)
Theorem failed_step_only_released (env : Env) (self : Step)
    (pipeline_run : PipelineRunResponse) (step_run : StepRunResponse)
    (input_artifacts : gmap string ArtifactVersionResponse)
    (output_artifact_uris : gmap string string)
    (step_run_info : StepRunInfo) (w : world)
    (step_instance : BaseStep) (output_materializers : odict (list Materializer))
    (function_params : odict value) (w1 : world) (e : exn) :
  StepRunner.before_entrypoint env self pipeline_run step_run
    input_artifacts output_artifact_uris step_run_info w
  = (Returned (step_instance, output_materializers, function_params), w1) →
  call_entrypoint step_instance function_params = Raised e →
  let r := StepRunner.run env self pipeline_run step_run input_artifacts
             output_artifact_uris step_run_info w in
  is_raised r.1 = true ∧ only is_failure_event w1 r.2.
Proof.
  intros Hbefore Hcall. unfold StepRunner.run.
  rewrite bind_run, Hbefore. simpl. rewrite bind_run.
  unfold StepRunner.invoke_entrypoint, try_finally, try_except_reraise.
  unfold lift. rewrite Hcall.
  pose proof (on_step_exception_only env self e w1) as Hhook.
  destruct (StepRunner.on_step_exception env self e w1) as [[[]|e1] wh];
    simpl in Hhook.
  - pose proof (finally_clause_failed_only env self pipeline_run step_run
                  output_artifact_uris step_run_info output_materializers
                  (output_annotations step_instance) e wh) as Hfin.
    destruct (StepRunner.finally_clause env self pipeline_run step_run
                output_artifact_uris step_run_info output_materializers
                (output_annotations step_instance) (Raised e) wh)
      as [[ids|e2] wf]; simpl in *;
      (split; [reflexivity | etrans; eassumption]).
  - pose proof (finally_clause_failed_only env self pipeline_run step_run
                  output_artifact_uris step_run_info output_materializers
                  (output_annotations step_instance) e1 wh) as Hfin.
    destruct (StepRunner.finally_clause env self pipeline_run step_run
                output_artifact_uris step_run_info output_materializers
                (output_annotations step_instance) (Raised e1) wh)
      as [[ids|e2] wf]; simpl in *;
      (split; [reflexivity | etrans; eassumption]).
Qed.

Lemma failed_step_only_released_witness :
  let c := Examples.one_output_config (Some "hooks.on_failure") None in
  let r := StepRunner.run
             (Examples.env_of false Examples.failing_step
                (λ _, Returned Examples.exiting_hook))
             (Examples.step_of c) Examples.pipeline_run_1
             (Examples.step_run_of c) ∅ Examples.one_output_uris
             (Examples.step_run_info_of c) Examples.fresh_world in
  is_raised r.1 = true ∧ saved r.2 = [].
Proof.
  intros c r.
  edestruct (failed_step_only_released
               (Examples.env_of false Examples.failing_step
                  (λ _, Returned Examples.exiting_hook))
               (Examples.step_of c) Examples.pipeline_run_1
               (Examples.step_run_of c) ∅ Examples.one_output_uris
               (Examples.step_run_info_of c) Examples.fresh_world)
    as (Hraised & _).
  - vm_compute. reflexivity.
  - reflexivity.
  - split; [exact Hraised | vm_compute; reflexivity].
Defined.

(** X2: when [run] fails before the entrypoint is invoked (loading the
    step or its materializers, preparing the step run, binding the
    context, resolving the model or the inputs), the exception leaves
    [run] as it is, and nothing was called but [prepare_step_run], the
    resolution of the model version and the link of the run to it: no
    hook is run, and the step run is neither released nor cleaned up. *)
Theorem setup_failure_runs_no_hook (env : Env) (self : Step)
    (pipeline_run : PipelineRunResponse) (step_run : StepRunResponse)
    (input_artifacts : gmap string ArtifactVersionResponse)
    (output_artifact_uris : gmap string string)
    (step_run_info : StepRunInfo) (w w1 : world) (e : exn) :
  StepRunner.before_entrypoint env self pipeline_run step_run
    input_artifacts output_artifact_uris step_run_info w = (Raised e, w1) →
  StepRunner.run env self pipeline_run step_run input_artifacts
    output_artifact_uris step_run_info w = (Raised e, w1)
  ∧ only is_setup_event w w1.
Proof.
  intros Hbefore. split.
  - unfold StepRunner.run. rewrite bind_run, Hbefore. reflexivity.
  - pose proof (before_entrypoint_only env self pipeline_run step_run
                  input_artifacts output_artifact_uris step_run_info w)
      as Honly.
    rewrite Hbefore in Honly. exact Honly.
Qed.

Lemma setup_failure_runs_no_hook_witness :
  let c := Examples.step_config [] ∅ (Some "hooks.on_failure") None None in
  ∃ w1,
    StepRunner.run
      (Examples.env_of false Examples.needs_data_step
         (λ _, Returned Examples.broken_hook))
      (Examples.step_of c) Examples.pipeline_run_1 (Examples.step_run_of c)
      ∅ ∅ (Examples.step_run_info_of c) Examples.fresh_world
    = (Raised (Exn RuntimeError (MsgMissingArgument "data")), w1)
    ∧ events w1 = [EvPrepareStepRun]
    ∧ is_Some (step_context w1).
Proof.
  intros c. eexists.
  edestruct (setup_failure_runs_no_hook
               (Examples.env_of false Examples.needs_data_step
                  (λ _, Returned Examples.broken_hook))
               (Examples.step_of c) Examples.pipeline_run_1
               (Examples.step_run_of c) ∅ ∅ (Examples.step_run_info_of c)
               Examples.fresh_world) as (Hrun & _).
  - vm_compute. reflexivity.
  - split; [exact Hrun|]. split; [reflexivity | eexists; reflexivity].
Defined.

(** ** Validation of the outputs *)

Lemma dict_set_fresh {V} (d : odict V) (k : string) (v : V) :
  k ∉ d.*1 → dict_set d k v = d ++ [(k, v)].
Proof.
  induction d as [|[k0 v0] d IH]; simpl; intros Hk; [reflexivity|].
  apply not_elem_of_cons in Hk as [Hne Hk].
  destruct (decide (k0 = k)) as [->|_]; [contradiction|].
  rewrite IH by exact Hk. reflexivity.
Qed.

Lemma dict_get_is_Some {V} (d : odict V) (k : string) :
  is_Some (dict_get d k) ↔ k ∈ d.*1.
Proof.
  induction d as [|[k0 v0] d IH]; simpl.
  - split; [intros [? ?]; discriminate | intros H; inversion H].
  - destruct (decide (k0 = k)) as [->|Hne].
    + split; [intros _; left | intros _; eexists; reflexivity].
    + rewrite IH. split; [intros H; right; exact H|].
      intros H. apply elem_of_cons in H as [->|H]; [contradiction|exact H].
Qed.

Lemma foldl_dict_set_fresh {V B} (named : list (string * B)) :
  ∀ (values : list V) (acc : odict V),
  length values = length named →
  NoDup named.*1 →
  (∀ k, k ∈ named.*1 → k ∉ acc.*1) →
  foldl (λ d item, dict_set d item.2.1 item.1) acc (zip values named)
  = acc ++ zip named.*1 values.
Proof.
  induction named as [|[n b] named IH]; intros [|v values] acc Hlen Hnodup Hacc;
    simpl in *; try discriminate.
  - symmetry. apply app_nil_r.
  - apply NoDup_cons in Hnodup as [Hn Hnodup].
    rewrite dict_set_fresh by (apply Hacc; left).
    rewrite IH; [rewrite <- app_assoc; reflexivity | lia | exact Hnodup |].
    intros k Hk. rewrite fmap_app. simpl. intros Hin.
    apply elem_of_app in Hin as [Hin|Hin].
    + eapply Hacc; [right; exact Hk | exact Hin].
    + apply list_elem_of_singleton in Hin as ->. contradiction.
Qed.

Lemma Forall_zip_Forall2 {A B} (P : A → B → Prop) (l : list A) (k : list B) :
  length l = length k →
  Forall (λ item, P item.1 item.2) (zip l k) ↔ Forall2 P l k.
Proof.
  revert k. induction l as [|x l IH]; intros [|y k] Hlen; simpl in *;
    try discriminate.
  - split; constructor.
  - split.
    + intros H. inversion H; subst. constructor; [assumption|].
      apply IH; [lia | assumption].
    + intros H. inversion H; subst. constructor; [assumption|].
      apply IH; [lia | assumption].
Qed.

Section validate.
Context (self : Step).

Lemma validate_outputs_unchanged return_values output_annotations :
  keeps unchanged
    (StepRunner._validate_outputs self return_values output_annotations).
Proof.
  unfold StepRunner._validate_outputs. solve_keeps.
  unfold StepRunner.validate_output. solve_keeps.
Qed.

(** One iteration of the loop of [_validate_outputs]. *)
Lemma validate_output_cases step_name acc v n sig w :
  StepRunner.validate_output step_name acc (v, (n, sig)) w
  = if isinstance v (resolved_annotation sig)
    then (Returned (dict_set acc n v), w)
    else (Raised (Exn StepInterfaceError
                    (MsgWrongType n step_name (resolved_annotation sig)
                       (type_of v))), w).
Proof.
  unfold StepRunner.validate_output.
  destruct (resolved_annotation sig) as [|c|cs]; [reflexivity| |].
  - destruct (isinstance v (TClass c)); reflexivity.
  - destruct (isinstance v (TUnion cs)); reflexivity.
Qed.

(** The loop returns exactly when every value is an instance of its
    annotation, and then stores each value under its output name. *)
Lemma validation_loop_returned step_name items : ∀ acc w data w',
  for_each items acc (StepRunner.validate_output step_name) w
  = (Returned data, w') ↔
  w' = w
  ∧ Forall (λ item, isinstance item.1 (resolved_annotation item.2.2) = true)
      items
  ∧ data = foldl (λ d item, dict_set d item.2.1 item.1) acc items.
Proof.
  induction items as [|[v [n sig]] items IH]; intros acc w data w';
    cbn [for_each foldl].
  - split.
    + intros [= <- <-]. repeat split. constructor.
    + intros (-> & _ & ->). reflexivity.
  - rewrite bind_run, validate_output_cases.
    destruct (isinstance v (resolved_annotation sig)) eqn:Hinst.
    + rewrite IH. split.
      * intros (-> & Hall & ->). repeat split.
        constructor; [exact Hinst | exact Hall].
      * intros (-> & Hall & ->). inversion Hall; subst. repeat split.
        assumption.
    + split; [discriminate|]. intros (_ & Hall & _).
      inversion Hall as [|? ? Hhead _]; subst. simpl in Hhead. congruence.
Qed.

Lemma validation_loop_raises step_name items : ∀ acc w e w',
  for_each items acc (StepRunner.validate_output step_name) w
  = (Raised e, w') →
  exn_type e = StepInterfaceError.
Proof.
  induction items as [|[v [n sig]] items IH]; intros acc w e w';
    cbn [for_each].
  - discriminate.
  - rewrite bind_run, validate_output_cases.
    destruct (isinstance v (resolved_annotation sig)); [apply IH|].
    intros [= <- _]. reflexivity.
Qed.

(** With outputs declared, [_validate_outputs] runs its loop when the
    return value is one value for one output or fits the number of
    outputs, and raises otherwise. *)
Lemma validate_outputs_arity return_values named oas w :
  let all := named :: oas in
  let k := length all in
  (k = 1 ∨ Spec.fits_arity return_values k →
   StepRunner._validate_outputs self return_values all w
   = for_each (zip (Spec.returned_items return_values k) all) []
       (StepRunner.validate_output (pipeline_parameter_name (spec self))) w)
  ∧ (¬ (k = 1 ∨ Spec.fits_arity return_values k) →
     ∃ msg, StepRunner._validate_outputs self return_values all w
            = (Raised (Exn StepInterfaceError msg), w)).
Proof.
  intros all k. unfold StepRunner._validate_outputs, Spec.returned_items,
    Spec.fits_arity.
  destruct (decide (length all = 0)) as [Hz|_]; [discriminate|].
  fold k. destruct (decide (k = 1)) as [Hone|Hmany].
  - assert (is_list_or_tuple (VList [return_values]) = true) as ->
      by reflexivity.
    cbn [negb]. destruct (decide _) as [Hne|_].
    { exfalso. apply Hne. rewrite Hone. reflexivity. }
    split; [reflexivity|]. intros Hno. exfalso. apply Hno. left. exact Hone.
  - destruct (is_list_or_tuple return_values) eqn:Hseq; cbn [negb].
    + destruct (decide (k ≠ length (sequence_items return_values)))
        as [Hne|Heq].
      * split; [|intros _; eexists; reflexivity].
        intros [?|[_ Hlen]]; [contradiction|]. exfalso. apply Hne.
        symmetry. exact Hlen.
      * split; [reflexivity|]. intros Hno. exfalso. apply Hno. right.
        split; [reflexivity|].
        destruct (decide (length (sequence_items return_values) = k));
          [assumption|]. exfalso. apply Heq. congruence.
    + split; [|intros _; eexists; reflexivity].
      intros [?|[? _]]; [contradiction | discriminate].
Qed.

Lemma returned_items_length {A} return_values (oas : list A) :
  oas ≠ [] →
  length oas = 1 ∨ Spec.fits_arity return_values (length oas) →
  length (Spec.returned_items return_values (length oas)) = length oas.
Proof.
  intros _ Hfit. unfold Spec.returned_items.
  destruct (decide (length oas = 1)) as [->|Hne]; [reflexivity|].
  destruct Hfit as [?|[_ Hlen]]; [contradiction | exact Hlen].
Qed.

End validate.

(** The outcome of [_validate_outputs], case by case. *)
Lemma validate_outputs_outcome (self : Step) (return_values : value)
    (output_annotations : odict OutputSignature) (w : world) :
  let r := StepRunner._validate_outputs self return_values
             output_annotations w in
  r.2 = w
  ∧ (∀ data, r.1 = Returned data ↔
       Spec.accepted return_values output_annotations
       ∧ data = Spec.validated return_values output_annotations)
  ∧ (∀ e, r.1 = Raised e → exn_type e = StepInterfaceError)
  ∧ (NoDup output_annotations.*1 →
     Spec.accepted return_values output_annotations →
     Spec.validated return_values output_annotations
     = zip output_annotations.*1
         (Spec.returned_items return_values (length output_annotations))).
Proof.
  intros r. split; [apply validate_outputs_unchanged|].
  subst r. destruct output_annotations as [|named oas].
  { unfold StepRunner._validate_outputs, Spec.accepted, Spec.validated.
    simpl. split; [|split].
    - intros data. destruct return_values; simpl; split;
        first [ intros [= <-]; split; reflexivity
              | intros [_ Hdata]; rewrite Hdata; reflexivity
              | discriminate
              | intros [? _]; discriminate ].
    - intros e. destruct return_values; simpl; try discriminate;
        intros [= <-]; reflexivity.
    - intros _ ->. reflexivity. }
  destruct (validate_outputs_arity self return_values named oas w)
    as [Hfits Hnot]. cbv zeta in Hfits, Hnot.
  set (all := named :: oas) in *. set (k := length all) in *.
  set (items := Spec.returned_items return_values k) in *.
  assert (Spec.validated return_values all
          = foldl (λ d item, dict_set d item.2.1 item.1) [] (zip items all))
    as Hvalidated by reflexivity.
  assert (Spec.accepted return_values all ↔
          (k = 1 ∨ Spec.fits_arity return_values k)
          ∧ Forall2 (λ v named, isinstance v (resolved_annotation named.2)
                                = true) items all) as Haccepted
    by reflexivity.
  assert (Decision (k = 1 ∨ Spec.fits_arity return_values k)) as Hdec
    by (unfold Spec.fits_arity; apply _).
  destruct Hdec as [Hfit|Hnofit].
  - rewrite (Hfits Hfit).
    assert (length items = length all) as Hlen
      by (apply returned_items_length; [discriminate | exact Hfit]).
    pose proof (validation_loop_returned
                  (pipeline_parameter_name (spec self)) (zip items all) []
                  w) as Hret.
    pose proof (validation_loop_raises
                  (pipeline_parameter_name (spec self)) (zip items all) []
                  w) as Hraise.
    split; [|split].
    + intros data. rewrite Haccepted, Hvalidated.
      destruct (for_each _ _ _ w) as [[data'|e] w'] eqn:Hloop; simpl.
      * destruct (proj1 (Hret data' w') eq_refl) as (_ & Hall & ->).
        split.
        -- intros [= <-]. split; [|reflexivity]. split; [exact Hfit|].
           apply (Forall_zip_Forall2
                    (λ v named, isinstance v (resolved_annotation named.2)
                                = true)); assumption.
        -- intros [_ ->]. reflexivity.
      * split; [discriminate|]. intros [[_ Hall] _]. exfalso.
        apply (Forall_zip_Forall2
                 (λ v named, isinstance v (resolved_annotation named.2)
                             = true)) in Hall; [|exact Hlen].
        pose proof (proj2 (Hret _ w) (conj eq_refl (conj Hall eq_refl))).
        discriminate.
    + intros e. destruct (for_each _ _ _ w) as [[data'|e'] w'] eqn:Hloop;
        simpl; [discriminate|].
      intros [= <-]. eapply Hraise. reflexivity.
    + intros Hnodup _. rewrite Hvalidated.
      apply (foldl_dict_set_fresh all items []); [exact Hlen|exact Hnodup|].
      intros name _ Hin. inversion Hin.
  - destruct (Hnot Hnofit) as [msg Hmsg]. rewrite Hmsg. cbn [fst].
    split; [|split].
    + intros data. split; [discriminate|]. intros [Hacc _].
      apply Haccepted in Hacc as [? _]. contradiction.
    + intros e [= <-]. reflexivity.
    + intros _ Hacc. apply Haccepted in Hacc as [? _]. contradiction.
Qed.

(** X3: [_validate_outputs] returns exactly for the accepted return
    values: [None] when no output is declared; for one output, a value
    that is an instance of the annotation (a list is then one value, not
    a sequence of outputs); for several, a list or tuple of that many
    values, each an instance of the annotation of its output. It then
    returns each value under the name of its output, in the order of the
    declarations, and leaves the state alone; in every other case it
    raises [StepInterfaceError] and nothing else. *)
Theorem validate_outputs_accepts (self : Step) (return_values : value)
    (output_annotations : odict OutputSignature) (w : world) :
  let r := StepRunner._validate_outputs self return_values
             output_annotations w in
  r.2 = w
  ∧ (∀ data, r.1 = Returned data ↔
       Spec.accepted return_values output_annotations
       ∧ data = Spec.validated return_values output_annotations)
  ∧ (∀ e, r.1 = Raised e → exn_type e = StepInterfaceError)
  ∧ (NoDup output_annotations.*1 →
     Spec.accepted return_values output_annotations →
     Spec.validated return_values output_annotations
     = zip output_annotations.*1
         (Spec.returned_items return_values (length output_annotations))).
Proof.
  apply validate_outputs_outcome.
Qed.

Lemma validate_outputs_accepts_witness :
  (StepRunner._validate_outputs
     (Examples.step_of Examples.two_outputs_config)
     (VTuple [VInt 9; VStr "report"]) Examples.two_outputs_annotations
     Examples.fresh_world).1
  = Returned [("accuracy", VInt 9); ("output_1", VStr "report")].
Proof.
  destruct (validate_outputs_accepts
              (Examples.step_of Examples.two_outputs_config)
              (VTuple [VInt 9; VStr "report"])
              Examples.two_outputs_annotations Examples.fresh_world)
    as (_ & Hreturned & _ & _).
  apply Hreturned. split; [|reflexivity].
  split; [right; split; reflexivity|].
  repeat constructor.
Defined.

(** ** A run that returns *)

Lemma call_run {A} ev (o : outcome A) w :
  call ev o w
  = (o, World (step_context w) (materializer_registry w) (events w ++ [ev])).
Proof. reflexivity. Qed.

Lemma foldl_dict_set_keys {V B} (items : list (V * (string * B))) :
  ∀ (acc : odict V) k,
  is_Some (dict_get (foldl (λ d item, dict_set d item.2.1 item.1) acc items) k)
  ↔ is_Some (dict_get acc k) ∨ k ∈ items.*2.*1.
Proof.
  induction items as [|[v [n b]] items IH]; intros acc k; simpl.
  - split; [intros H; left; exact H|]. intros [H|H]; [exact H|inversion H].
  - rewrite IH, dict_get_set. destruct (decide (n = k)) as [->|Hne].
    + split; [intros _; right; left|]. intros _. left. eexists. reflexivity.
    + split.
      * intros [H|H]; [left; exact H | right; right; exact H].
      * intros [H|H]; [left; exact H|].
        apply elem_of_cons in H as [->|H]; [contradiction | right; exact H].
Qed.

Section returns.
Context (env : Env) (self : Step).

Lemma validated_keys return_values (oas : odict OutputSignature) k :
  Spec.accepted return_values oas →
  is_Some (dict_get (Spec.validated return_values oas) k) ↔ k ∈ oas.*1.
Proof.
  intros Hacc. unfold Spec.validated. rewrite foldl_dict_set_keys.
  destruct oas as [|named oas].
  - simpl. rewrite zip_with_nil_r. simpl.
    split; [intros [[? ?]|H]; [discriminate | exact H] | intros H; inversion H].
  - destruct Hacc as [Hfit _].
    rewrite snd_zip.
    + split; [intros [[? ?]|H]; [discriminate | exact H] | intros H; right;
        exact H].
    + rewrite returned_items_length; [reflexivity | discriminate | exact Hfit].
Qed.

Lemma store_output_returned ctx oms uris oas md viz acc item w acc' w' :
  StepRunner.store_output env self ctx oms uris oas md viz acc item w
  = (Returned acc', w') →
  ∃ artifact_id, acc' = dict_set acc item.1 artifact_id.
Proof.
  destruct item as [output_name return_value].
  unfold StepRunner.store_output. intros H.
  apply bind_returned in H as (m & w1 & _ & H).
  apply bind_returned in H as (uri & w2 & _ & H).
  apply bind_returned in H as (sig & w3 & _ & H).
  apply bind_returned in H as (umd & w4 & _ & H).
  apply bind_returned in H as (tags & w5 & _ & H).
  apply bind_returned in H as (artifact_id & w6 & _ & H).
  injection H as <- _. exists artifact_id. reflexivity.
Qed.

Lemma store_loop_keys ctx oms uris oas md viz output_data :
  ∀ acc w ids w',
  for_each output_data acc
    (StepRunner.store_output env self ctx oms uris oas md viz) w
  = (Returned ids, w') →
  ∀ k, is_Some (dict_get ids k) ↔ is_Some (dict_get acc k) ∨ k ∈ output_data.*1.
Proof.
  induction output_data as [|item output_data IH]; intros acc w ids w';
    cbn [for_each].
  - intros [= <- _] k. simpl.
    split; [intros H; left; exact H | intros [H|H]; [exact H | inversion H]].
  - intros H k. apply bind_returned in H as (acc' & w1 & Hitem & Hrest).
    apply store_output_returned in Hitem as [artifact_id ->].
    rewrite (IH _ _ _ _ Hrest k), dict_get_set. simpl.
    destruct (decide (item.1 = k)) as [->|Hne].
    + split; [intros _; right; left | intros _; left; eexists; reflexivity].
    + split.
      * intros [H|H]; [left; exact H | right; right; exact H].
      * intros [H|H]; [left; exact H|].
        apply elem_of_cons in H as [->|H]; [contradiction | right; exact H].
Qed.

(** When the validation, the storage and the linking of the outputs
    return, there is an artifact id for exactly the declared outputs. *)
Lemma store_and_link_returned pipeline_run step_run uris step_run_info oms
    oas return_values w ids w' :
  StepRunner.store_and_link env self pipeline_run step_run uris
    step_run_info oms oas return_values w = (Returned ids, w') →
  Spec.accepted return_values oas
  ∧ ∀ k, is_Some (dict_get ids k) ↔ k ∈ oas.*1.
Proof.
  unfold StepRunner.store_and_link. intros H.
  apply bind_returned in H as (data & w1 & Hval & H).
  apply bind_returned in H as (ids' & w2 & Hstore & H).
  apply bind_returned in H as ([] & w3 & _ & H).
  apply bind_returned in H as ([] & w4 & _ & H).
  injection H as <- _.
  destruct (validate_outputs_outcome self return_values oas w)
    as (_ & Hreturned & _).
  rewrite Hval in Hreturned. simpl in Hreturned.
  destruct (proj1 (Hreturned data) eq_refl) as [Hacc ->].
  split; [exact Hacc|]. intros k.
  unfold StepRunner._store_output_artifacts in Hstore.
  apply bind_returned in Hstore as (ctx & w5 & _ & Hloop).
  rewrite (store_loop_keys _ _ _ _ _ _ _ _ _ _ _ Hloop k).
  rewrite <- dict_get_is_Some, (validated_keys _ _ _ Hacc).
  rewrite <- dict_get_is_Some.
  split; [intros [[? ?]|H]; [discriminate | exact H] | intros H; right;
    exact H].
Qed.

Lemma invoke_entrypoint_returned pipeline_run step_run uris step_run_info
    step_instance oms function_params w ids w' :
  StepRunner.invoke_entrypoint env self pipeline_run step_run uris
    step_run_info step_instance oms function_params w = (Returned ids, w') →
  step_context w' = None
  ∧ ∃ return_values,
      call_entrypoint step_instance function_params = Returned return_values
      ∧ Spec.accepted return_values (output_annotations step_instance)
      ∧ ∀ k, is_Some (dict_get ids k)
             ↔ k ∈ (output_annotations step_instance).*1.
Proof.
  unfold StepRunner.invoke_entrypoint, try_finally, try_except_reraise, lift.
  destruct (call_entrypoint step_instance function_params)
    as [return_values|e].
  - destruct (StepRunner.finally_clause env self pipeline_run step_run uris
                step_run_info oms (output_annotations step_instance)
                (Returned return_values) w) as [[ids'|e'] wf] eqn:Hfin;
      [|discriminate].
    intros [= <- <-]. unfold StepRunner.finally_clause in Hfin.
    apply bind_returned in Hfin as ([] & w1 & _ & H).
    apply bind_returned in H as (ids & w2 & Hsuccess & H).
    apply bind_returned in H as ([] & w3 & Hclear & H).
    injection H as <- <-. injection Hclear as <-.
    split; [reflexivity|]. exists return_values. split; [reflexivity|].
    apply bind_returned in Hsuccess as ([] & w4 & _ & Hstore).
    eapply store_and_link_returned, Hstore.
  - destruct (StepRunner.on_step_exception env self e w) as [[[]|e1] wh];
      destruct (StepRunner.finally_clause _ _ _ _ _ _ _ _ _ _)
        as [[ids'|e'] wf]; discriminate.
Qed.

Lemma before_entrypoint_instance pipeline_run step_run input_artifacts uris
    step_run_info w step_instance oms function_params w1 :
  StepRunner.before_entrypoint env self pipeline_run step_run
    input_artifacts uris step_run_info w
  = (Returned (step_instance, oms, function_params), w1) →
  load_from_source env (source (spec self)) = Returned step_instance.
Proof.
  unfold StepRunner.before_entrypoint. intros H.
  apply bind_returned in H as (si & wa & Hload & H).
  apply bind_returned in H as (oms' & wb & _ & H).
  apply bind_returned in H as ([] & wc & _ & H).
  apply bind_returned in H as ([] & wd & _ & H).
  apply bind_returned in H as ([] & we & _ & H).
  apply bind_returned in H as ([] & wf & _ & H).
  apply bind_returned in H as (fp & wg & _ & H).
  apply bind_returned in H as ([] & wh & _ & H).
  injection H as <- _ _ _. unfold StepRunner._load_step, lift in Hload.
  injection Hload as Hload _. exact Hload.
Qed.

End returns.

(** X4: when [run] returns, the step context has been cleared, the last
    collaborator called is [publish_successful_step_run], with the id of
    the step run and one artifact id for each declared output and for
    nothing else, and the entrypoint had returned a value that
    [_validate_outputs] accepts. *)
Theorem run_returns_published (env : Env) (self : Step)
    (pipeline_run : PipelineRunResponse) (step_run : StepRunResponse)
    (input_artifacts : gmap string ArtifactVersionResponse)
    (output_artifact_uris : gmap string string)
    (step_run_info : StepRunInfo) (w w' : world) :
  StepRunner.run env self pipeline_run step_run input_artifacts
    output_artifact_uris step_run_info w = (Returned tt, w') →
  step_context w' = None
  ∧ ∃ step_instance ids evs,
      load_from_source env (source (spec self)) = Returned step_instance
      ∧ events w'
        = evs ++ [EvPublishSuccessfulStepRun (step_run_id step_run_info) ids]
      ∧ (∀ k, is_Some (dict_get ids k)
              ↔ k ∈ (output_annotations step_instance).*1)
      ∧ ∃ function_params return_values,
          call_entrypoint step_instance function_params
          = Returned return_values
          ∧ Spec.accepted return_values (output_annotations step_instance).
Proof.
  unfold StepRunner.run. intros H.
  apply bind_returned in H as ([[si oms] fp] & w1 & Hbefore & H).
  apply bind_returned in H as (ids & w2 & Hinvoke & Hpublish).
  rewrite call_run in Hpublish. injection Hpublish as _ <-.
  apply invoke_entrypoint_returned in Hinvoke
    as (Hctx & rv & Hcall & Haccepted & Hkeys).
  split; [exact Hctx|]. exists si, ids, (events w2).
  split; [eapply before_entrypoint_instance, Hbefore|].
  split; [reflexivity|]. split; [exact Hkeys|].
  exists fp, rv. split; assumption.
Qed.

Lemma run_returns_published_witness :
  ∃ w' evs,
    StepRunner.run
      (Examples.env_of false Examples.two_values_step Examples.no_hooks)
      (Examples.step_of Examples.two_outputs_config) Examples.pipeline_run_1
      (Examples.step_run_of Examples.two_outputs_config) ∅
      Examples.two_outputs_uris
      (Examples.step_run_info_of Examples.two_outputs_config)
      Examples.fresh_world = (Returned tt, w')
    ∧ step_context w' = None
    ∧ events w'
      = evs ++ [EvPublishSuccessfulStepRun 7%N
                  [("accuracy", 8%N); ("output_1", 27%N)]].
Proof.
  eexists. eexists. split; [vm_compute; reflexivity|].
  edestruct (run_returns_published
               (Examples.env_of false Examples.two_values_step
                  Examples.no_hooks)
               (Examples.step_of Examples.two_outputs_config)
               Examples.pipeline_run_1
               (Examples.step_run_of Examples.two_outputs_config) ∅
               Examples.two_outputs_uris
               (Examples.step_run_info_of Examples.two_outputs_config)
               Examples.fresh_world) as (Hctx & _).
  - vm_compute. reflexivity.
  - split; [exact Hctx|]. simpl. 
    instantiate (1 := [EvPrepareStepRun; EvGetStepRunMetadata;
                       EvPublishStepRunMetadata 7%N; EvCleanupStepRun false;
                       _; _; _]).
    reflexivity.
Defined.

(** ** The release of the step run *)

Section release.
Context (env : Env) (self : Step).

Lemma store_and_link_grows pipeline_run step_run uris step_run_info oms oas
    return_values :
  keeps (only (λ _, true))
    (StepRunner.store_and_link env self pipeline_run step_run uris
       step_run_info oms oas return_values).
Proof.
  unfold StepRunner.store_and_link, StepRunner._validate_outputs,
    StepRunner._store_output_artifacts,
    StepRunner._link_pipeline_run_to_model_from_artifacts,
    StepRunner._get_model_versions_from_artifacts, StepRunner.create_links.
  solve_only.
  - unfold StepRunner.validate_output. solve_only.
  - unfold StepRunner.store_output, StepRunner.choose_materializer,
      select_materializer, get_output_metadata, get_output_tags,
      context_get_output.
    solve_only.
  - unfold StepRunner.model_version_of_artifact, context_get_output.
    solve_only.
Qed.

Lemma on_step_exception_hook_only e :
  keeps (only is_hook_event) (StepRunner.on_step_exception env self e).
Proof.
  unfold StepRunner.on_step_exception.
  destruct (failure_hook_source (StepRunner.configuration self)).
  - apply load_and_run_hook_only.
  - apply keeps_ret. typeclasses eauto.
Qed.

(** The [finally] clause first asks the stack for the metadata of the
    step run; when that and the publication of the metadata return, it
    calls the cleanup with the failure flag. *)
Lemma finally_clause_releases pipeline_run step_run uris step_run_info oms
    oas (o : outcome value) w :
  ∃ rest,
    events (StepRunner.finally_clause env self pipeline_run step_run uris
              step_run_info oms oas o w).2
    = events w ++ EvGetStepRunMetadata :: rest
    ∧ ∀ md,
        get_step_run_metadata env step_run_info = Returned md →
        publish_step_run_metadata env (step_run_id step_run_info) md
        = Returned tt →
        ∃ rest',
          rest = EvPublishStepRunMetadata (step_run_id step_run_info)
                 :: EvCleanupStepRun (is_raised o) :: rest'.
Proof.
  unfold StepRunner.finally_clause, StepRunner.release_step_run.
  rewrite !bind_run, call_run.
  destruct (get_step_run_metadata env step_run_info) as [md|e1].
  2: { exists []. split; [reflexivity|]. intros md ?. discriminate. }
  rewrite bind_run, call_run.
  destruct (publish_step_run_metadata env (step_run_id step_run_info) md)
    as [[]|e2] eqn:Hpub.
  2: { eexists. simpl. rewrite <- app_assoc. split; [reflexivity|].
       intros md' [= <-] Hpub'. rewrite Hpub in Hpub'. discriminate. }
  rewrite call_run.
  destruct (cleanup_step_run env step_run_info (is_raised o)) as [[]|e3].
  2: { eexists. simpl. rewrite <- !app_assoc. split; [reflexivity|].
       intros md' _ _. eexists. reflexivity. }
  match goal with
  | |- context [(?tail ≫= ?k) ?w0] =>
      assert (keeps (only (λ _, true)) (tail ≫= k)) as Htail
  end.
  { destruct o as [return_values|e]; unfold StepRunner.run_success_hook,
      StepContext_clear.
    - apply keeps_bind; [typeclasses eauto| |intros ids; solve_only].
      apply keeps_bind; [typeclasses eauto| |intros _].
      + destruct (success_hook_source (StepRunner.configuration self)).
        * intros w0. eapply only_impl; [|apply load_and_run_hook_only].
          reflexivity.
        * apply keeps_ret. typeclasses eauto.
      + apply store_and_link_grows.
    - solve_only. }
  match goal with
  | |- context [(?tail ≫= ?k) ?w0] =>
      destruct (Htail w0) as (evs & Hevs & _)
  end.
  rewrite Hevs. simpl. rewrite <- !app_assoc. simpl.
  eexists. split; [reflexivity|]. intros md' _ _. eexists. reflexivity.
Qed.

End release.

(** X5: once the entrypoint has been invoked, the stack is asked for the
    metadata of the step run, whether the entrypoint returned or raised
    and whatever the failure hook did; between the two, only the failure
    hook is called, and only when the entrypoint raised. When the
    metadata are obtained and published, [cleanup_step_run] is called
    next, and is told whether the entrypoint raised. *)
Theorem step_run_released_after_entrypoint (env : Env) (self : Step)
    (pipeline_run : PipelineRunResponse) (step_run : StepRunResponse)
    (input_artifacts : gmap string ArtifactVersionResponse)
    (output_artifact_uris : gmap string string)
    (step_run_info : StepRunInfo) (w : world)
    (step_instance : BaseStep) (output_materializers : odict (list Materializer))
    (function_params : odict value) (w1 : world) :
  StepRunner.before_entrypoint env self pipeline_run step_run
    input_artifacts output_artifact_uris step_run_info w
  = (Returned (step_instance, output_materializers, function_params), w1) →
  let failed := is_raised (call_entrypoint step_instance function_params) in
  ∃ hooks rest,
    events (StepRunner.run env self pipeline_run step_run input_artifacts
              output_artifact_uris step_run_info w).2
    = events w1 ++ hooks ++ EvGetStepRunMetadata :: rest
    ∧ Forall (λ ev, is_hook_event ev = true) hooks
    ∧ (failed = false → hooks = [])
    ∧ ∀ md,
        get_step_run_metadata env step_run_info = Returned md →
        publish_step_run_metadata env (step_run_id step_run_info) md
        = Returned tt →
        ∃ rest',
          rest = EvPublishStepRunMetadata (step_run_id step_run_info)
                 :: EvCleanupStepRun failed :: rest'.
Proof.
  intros Hbefore failed. subst failed.
  assert (∃ o wh hooks,
            try_except_reraise
              (lift (call_entrypoint step_instance function_params))
              (StepRunner.on_step_exception env self) w1 = (o, wh)
            ∧ events wh = events w1 ++ hooks
            ∧ Forall (λ ev, is_hook_event ev = true) hooks
            ∧ is_raised o
              = is_raised (call_entrypoint step_instance function_params)
            ∧ (is_raised o = false → hooks = [])) as Htry.
  { unfold try_except_reraise, lift.
    destruct (call_entrypoint step_instance function_params) as [rv|e].
    - exists (Returned rv), w1, []. rewrite app_nil_r.
      repeat split. constructor.
    - destruct (on_step_exception_hook_only env self e w1)
        as (hooks & Hev & Hhooks).
      destruct (StepRunner.on_step_exception env self e w1) as [[[]|e1] wh];
        simpl in Hev; eexists; exists wh, hooks;
        (split; [reflexivity|]); repeat split; try assumption;
        discriminate. }
  destruct Htry as (o & wh & hooks & Htry & Hwh & Hhooks & Hfailed & Hnone).
  destruct (finally_clause_releases env self pipeline_run step_run
              output_artifact_uris step_run_info output_materializers
              (output_annotations step_instance) o wh)
    as (rest & Hrest & Hflag).
  unfold StepRunner.run. rewrite bind_run, Hbefore. simpl. rewrite bind_run.
  unfold StepRunner.invoke_entrypoint, try_finally. rewrite Htry.
  destruct (StepRunner.finally_clause env self pipeline_run step_run
              output_artifact_uris step_run_info output_materializers
              (output_annotations step_instance) o wh) as [[ids|e2] wf];
    simpl in Hrest.
  - destruct o as [rv|e]; simpl.
    + simpl. rewrite Hrest, Hwh, <- !app_assoc. simpl.
      exists hooks, (rest ++ [EvPublishSuccessfulStepRun
                                (step_run_id step_run_info) ids]).
      split; [reflexivity|]. split; [exact Hhooks|].
      rewrite <- Hfailed. split; [exact Hnone|].
      intros md Hmd Hpub. destruct (Hflag md Hmd Hpub) as [rest' ->].
      eexists. reflexivity.
    + rewrite Hrest, Hwh, <- !app_assoc. exists hooks, rest.
      split; [reflexivity|]. split; [exact Hhooks|].
      rewrite <- Hfailed. split; [exact Hnone | exact Hflag].
  - simpl. rewrite Hrest, Hwh, <- !app_assoc. exists hooks, rest.
    split; [reflexivity|]. split; [exact Hhooks|].
    rewrite <- Hfailed. split; [exact Hnone | exact Hflag].
Qed.

Lemma step_run_released_after_entrypoint_witness :
  let c := Examples.one_output_config (Some "hooks.on_failure") None in
  ∃ hooks rest,
    events (StepRunner.run
              (Examples.env_of false Examples.failing_step
                 (λ _, Returned Examples.exiting_hook))
              (Examples.step_of c) Examples.pipeline_run_1
              (Examples.step_run_of c) ∅ Examples.one_output_uris
              (Examples.step_run_info_of c) Examples.fresh_world).2
    = [EvPrepareStepRun] ++ hooks
      ++ EvGetStepRunMetadata :: EvPublishStepRunMetadata 7%N
         :: EvCleanupStepRun true :: rest.
Proof.
  intros c.
  edestruct (step_run_released_after_entrypoint
               (Examples.env_of false Examples.failing_step
                  (λ _, Returned Examples.exiting_hook))
               (Examples.step_of c) Examples.pipeline_run_1
               (Examples.step_run_of c) ∅ Examples.one_output_uris
               (Examples.step_run_info_of c) Examples.fresh_world)
    as (hooks & rest & Hev & _ & _ & Hflag).
  - vm_compute. reflexivity.
  - destruct (Hflag [] eq_refl eq_refl) as [rest' ->].
    exists hooks, rest'. exact Hev.
Defined.

(** ** Isolation of the success hook *)

#[global] Instance alike_preorder : PreOrder alike.
Proof.
  split; [intros w; split; reflexivity|].
  intros w1 w2 w3 [? ?] [? ?]. split; congruence.
Qed.

Lemma oblivious_silent {A} (f : option StepContext → MaterializerRegistry →
                                outcome A * option StepContext
                                * MaterializerRegistry) (m : M A) :
  (∀ w, m w = ((f (step_context w) (materializer_registry w)).1.1,
               World (f (step_context w) (materializer_registry w)).1.2
                     (f (step_context w) (materializer_registry w)).2
                     (events w))) →
  oblivious m.
Proof.
  intros Hm w w' [Hctx Hreg]. exists []. rewrite !Hm, !app_nil_r, Hctx, Hreg.
  repeat split.
Qed.

Lemma oblivious_ret {A} (a : A) : oblivious (mret a).
Proof.
  apply (oblivious_silent (λ c r, (Returned a, c, r))). intros []; reflexivity.
Qed.

Lemma oblivious_lift {A} (o : outcome A) : oblivious (lift o).
Proof.
  apply (oblivious_silent (λ c r, (o, c, r))). intros []; reflexivity.
Qed.

Lemma oblivious_raise {A} t msg : oblivious (raise (A:=A) t msg).
Proof.
  apply (oblivious_silent (λ c r, (Raised (Exn t msg), c, r))).
  intros []; reflexivity.
Qed.

Lemma oblivious_subscript {V} (o : option V) k : oblivious (subscript o k).
Proof. destruct o; [apply oblivious_ret | apply oblivious_raise]. Qed.

Lemma oblivious_get_step_context : oblivious get_step_context.
Proof.
  apply (oblivious_silent
           (λ c r, (match c with
                    | Some x => Returned x
                    | None => Raised (Exn RuntimeError MsgNoStepContext)
                    end, c, r))).
  intros [[c|] r evs]; reflexivity.
Qed.

Lemma oblivious_set_default m : oblivious (set_default_materializer m).
Proof.
  apply (oblivious_silent
           (λ c r, (Returned tt, c,
                    {| materializer_types := materializer_types r;
                       default_materializer := m |}))).
  intros []; reflexivity.
Qed.

Lemma oblivious_registry_read {A} (f : MaterializerRegistry → A) :
  oblivious (w ← get_world; mret (f (materializer_registry w))).
Proof.
  apply (oblivious_silent (λ c r, (Returned (f r), c, r))).
  intros []; reflexivity.
Qed.

Lemma oblivious_registry_getitem data_type :
  oblivious
    (w ← get_world; mret (registry_getitem (materializer_registry w) data_type)).
Proof. apply (oblivious_registry_read (λ r, registry_getitem r data_type)). Qed.

Lemma oblivious_call {A} ev (o : outcome A) : oblivious (call ev o).
Proof.
  intros w w' [Hctx Hreg]. exists [ev]. rewrite !call_run. simpl.
  repeat split; assumption.
Qed.

Lemma oblivious_bind {A B} (m : M A) (f : A → M B) :
  oblivious m → (∀ a, oblivious (f a)) → oblivious (m ≫= f).
Proof.
  intros Hm Hf w w' Hw. rewrite !bind_run.
  destruct (Hm w w' Hw) as (evs & Ho & Halike & Hev & Hev').
  destruct (m w) as [[a|e] w1], (m w') as [[a'|e'] w1']; simpl in *;
    try discriminate.
  - injection Ho as <-.
    destruct (Hf a w1 w1' Halike) as (evs' & Ho' & Halike' & Hev1 & Hev1').
    exists (evs ++ evs'). rewrite Hev1, Hev1', Hev, Hev', <- !app_assoc.
    split; [exact Ho'|]. split; [exact Halike'|]. split; reflexivity.
  - exists evs. split; [congruence|]. split; [exact Halike|].
    split; assumption.
Qed.

Lemma oblivious_for_each {A B} (l : list A) (body : B → A → M B) :
  (∀ acc x, oblivious (body acc x)) → ∀ acc, oblivious (for_each l acc body).
Proof.
  intros Hbody. induction l as [|x l IH]; intros acc; simpl.
  - apply oblivious_ret.
  - apply oblivious_bind; [apply Hbody | intros a; apply IH].
Qed.

Lemma oblivious_for_each_break {A B} (l : list A)
    (body : B → A → M (loop_step B)) :
  (∀ acc x, oblivious (body acc x)) →
  ∀ acc, oblivious (for_each_break l acc body).
Proof.
  intros Hbody. induction l as [|x l IH]; intros acc; simpl.
  - apply oblivious_ret.
  - apply oblivious_bind; [apply Hbody|].
    intros [a|a]; [apply IH | apply oblivious_ret].
Qed.

Ltac solve_oblivious :=
  repeat first
    [ apply oblivious_ret
    | apply oblivious_lift
    | apply oblivious_raise
    | apply oblivious_subscript
    | apply oblivious_get_step_context
    | apply oblivious_set_default
    | apply oblivious_registry_getitem
    | apply oblivious_call
    | apply oblivious_bind; [| intros ?]
    | apply oblivious_for_each; intros ? ?
    | apply oblivious_for_each_break; intros ? ?
    | match goal with
      | |- oblivious (match ?x with _ => _ end) => destruct x
      | |- oblivious (let '(_, _) := ?x in _) => destruct x
      end ].

Section isolation.
Context (env : Env) (self : Step).

Lemma store_and_link_oblivious pipeline_run step_run uris step_run_info oms
    oas return_values :
  oblivious
    (StepRunner.store_and_link env self pipeline_run step_run uris
       step_run_info oms oas return_values).
Proof.
  unfold StepRunner.store_and_link, StepRunner._validate_outputs,
    StepRunner._store_output_artifacts,
    StepRunner._link_pipeline_run_to_model_from_artifacts,
    StepRunner._get_model_versions_from_artifacts, StepRunner.create_links.
  solve_oblivious.
  - unfold StepRunner.validate_output. solve_oblivious.
  - unfold StepRunner.store_output, StepRunner.choose_materializer,
      select_materializer, get_output_metadata, get_output_tags,
      context_get_output.
    solve_oblivious.
  - unfold StepRunner.model_version_of_artifact, context_get_output.
    solve_oblivious.
Qed.

End isolation.

Lemma omap_hook_events {A} (f : event → option A) (hooks : list event) :
  (∀ ev, is_hook_event ev = true → f ev = None) →
  Forall (λ ev, is_hook_event ev = true) hooks →
  omap f hooks = [].
Proof.
  intros Hf. induction 1 as [|ev hooks Hev _ IH]; simpl; [reflexivity|].
  rewrite (Hf ev Hev). exact IH.
Qed.

(** A success hook runs in the process and is handed the live step
    context: the metadata it adds to an output are part of the save
    request of that output. *)
Lemma success_hook_metadata_reaches_store :
  let env := Examples.env_of false Examples.two_values_step
               (λ _, Returned Examples.annotating_hook) in
  let self := Examples.step_of Examples.two_outputs_hooked_config in
  let store :=
    StepRunner.store_and_link env self Examples.pipeline_run_1
      (Examples.step_run_of Examples.two_outputs_hooked_config)
      Examples.two_outputs_uris
      (Examples.step_run_info_of Examples.two_outputs_hooked_config)
      Examples.two_outputs_materializers Examples.two_outputs_annotations
      (VTuple [VInt 9; VStr "report"]) in
  sa_user_metadata
  <$> saved ((StepRunner.run_success_hook env self;; store)
               Examples.two_outputs_world).2
  = [[("checked", "yes")]; []]
  ∧ sa_user_metadata <$> saved (store Examples.two_outputs_world).2
    = [[]; []].
Proof. split; vm_compute; reflexivity. Qed.

(** X6: the failure of a success hook is isolated from the outputs. A
    success hook may change the step context it is handed, and with it
    what is stored; but when the hooks leave the step context and the
    materializer registry as they find them, and the hook loader and the
    hooks raise nothing but [Exception]s, then validating, storing and
    linking the outputs after the success hook ends the same way, with
    the same artifact ids, the same save requests, the same links and
    the same step context and registry as without running the hook
    first, also when the hook cannot be loaded, when its arguments
    cannot be bound, and when it raises. *)
Theorem success_hook_isolated (env : Env) (self : Step)
    (pipeline_run : PipelineRunResponse) (step_run : StepRunResponse)
    (output_artifact_uris : gmap string string)
    (step_run_info : StepRunInfo)
    (output_materializers : odict (list Materializer))
    (output_annotations : odict OutputSignature) (return_values : value)
    (w : world) :
  Spec.hooks_raise_Exception env →
  Spec.hooks_keep_state env →
  let store :=
    StepRunner.store_and_link env self pipeline_run step_run
      output_artifact_uris step_run_info output_materializers
      output_annotations return_values in
  let hooked := (StepRunner.run_success_hook env self;; store) w in
  hooked.1 = (store w).1
  ∧ saved hooked.2 = saved (store w).2
  ∧ run_links hooked.2 = run_links (store w).2
  ∧ alike hooked.2 (store w).2.
Proof.
  intros Hhooks Hkeep store hooked. subst hooked. rewrite bind_run.
  assert (∃ wh hooks,
            StepRunner.run_success_hook env self w = (Returned tt, wh)
            ∧ alike wh w
            ∧ events wh = events w ++ hooks
            ∧ Forall (λ ev, is_hook_event ev = true) hooks) as Hhook.
  { unfold StepRunner.run_success_hook.
    destruct (success_hook_source (StepRunner.configuration self)) as [src|].
    - destruct (load_and_run_hook_returns env self src None w Hhooks)
        as (wh & Hrun & _).
      pose proof (load_and_run_hook_alike env self src None Hkeep w)
        as Halike.
      destruct (load_and_run_hook_only env self src None w)
        as (hooks & Hev & Hall).
      rewrite Hrun in Halike, Hev. simpl in Halike, Hev.
      exists wh, hooks. split; [exact Hrun|].
      split; [destruct Halike; split; congruence|].
      split; assumption.
    - exists w, []. split; [reflexivity|]. split; [reflexivity|].
      split; [symmetry; apply app_nil_r | constructor]. }
  destruct Hhook as (wh & hooks & -> & Halike & Hwh & Hall).
  destruct (store_and_link_oblivious env self pipeline_run step_run
              output_artifact_uris step_run_info output_materializers
              output_annotations return_values wh w Halike)
    as (evs & Ho & Halike' & Hev & Hev').
  fold store in Ho, Halike', Hev, Hev'.
  split; [exact Ho|]. split; [|split; [|exact Halike']].
  - unfold saved. rewrite Hev, Hev', Hwh, !omap_app.
    rewrite (omap_hook_events _ hooks); [rewrite app_nil_r; reflexivity|
                                         |exact Hall].
    intros []; try discriminate; reflexivity.
  - unfold run_links. rewrite Hev, Hev', Hwh, !omap_app.
    rewrite (omap_hook_events _ hooks); [rewrite app_nil_r; reflexivity|
                                         |exact Hall].
    intros []; try discriminate; reflexivity.
Qed.

Lemma success_hook_isolated_witness :
  ((StepRunner.run_success_hook
      (Examples.env_of false Examples.two_values_step
         (λ _, Returned Examples.broken_hook))
      (Examples.step_of Examples.two_outputs_hooked_config);;
    StepRunner.store_and_link
      (Examples.env_of false Examples.two_values_step
         (λ _, Returned Examples.broken_hook))
      (Examples.step_of Examples.two_outputs_hooked_config)
      Examples.pipeline_run_1
      (Examples.step_run_of Examples.two_outputs_hooked_config)
      Examples.two_outputs_uris
      (Examples.step_run_info_of Examples.two_outputs_hooked_config)
      Examples.two_outputs_materializers Examples.two_outputs_annotations
      (VTuple [VInt 9; VStr "report"])) Examples.two_outputs_world).1
  = Returned [("accuracy", 8%N); ("output_1", 27%N)].
Proof.
  destruct (success_hook_isolated
              (Examples.env_of false Examples.two_values_step
                 (λ _, Returned Examples.broken_hook))
              (Examples.step_of Examples.two_outputs_hooked_config)
              Examples.pipeline_run_1
              (Examples.step_run_of Examples.two_outputs_hooked_config)
              Examples.two_outputs_uris
              (Examples.step_run_info_of Examples.two_outputs_hooked_config)
              Examples.two_outputs_materializers
              Examples.two_outputs_annotations
              (VTuple [VInt 9; VStr "report"]) Examples.two_outputs_world)
    as (Hout & _).
  - split.
    + intros src e. discriminate.
    + intros src hook args ctx registry e [= <-] Hcall. simpl in Hcall.
      injection Hcall as <-. reflexivity.
  - intros src hook args ctx registry [= <-]. split; reflexivity.
  - rewrite Hout. vm_compute. reflexivity.
Defined.

(** ** Models of the outputs and links of the run *)

Section linking.
Context (env : Env).

Lemma model_versions_loop ctx names : ∀ models w,
  step_context w = Some ctx →
  Forall (Spec.well_bound env ctx) names →
  ∃ found w',
    for_each_break names models (StepRunner.model_version_of_artifact env) w
    = (Returned found, w')
    ∧ step_context w' = Some ctx
    ∧ run_links w' = run_links w
    ∧ saved w' = saved w
    ∧ ∀ p, p ∈ found ↔
           p ∈ models ∨ ∃ name, name ∈ names ∧ Spec.bound_to env ctx name p.
Proof.
  induction names as [|name names IH]; intros models w Hctx Hall;
    cbn [for_each_break].
  - exists models, w. repeat split; try assumption.
    + intros H. left. exact H.
    + intros [H|(name & Hin & _)]; [exact H | inversion Hin].
  - inversion Hall as [|? ? (o & Hout & Hbound) Hrest]; subst.
    rewrite bind_run. unfold StepRunner.model_version_of_artifact at 1,
      context_get_output.
    run_monad. rewrite Hctx. simpl. rewrite Hout. simpl.
    destruct Hbound as [Hnone|(p & o' & c & m & Hout' & Hc & Hm & Hp)].
    + rewrite Hnone.
      destruct (IH models w Hctx Hrest)
        as (found & w' & Hloop & Hctx' & Hlinks & Hsaved & Hfound).
      exists found, w'. split; [exact Hloop|]. repeat split; try assumption.
      * intros H. apply Hfound in H as [H|(n & Hin & Hb)]; [left; exact H|].
        right. exists n. split; [right; exact Hin | exact Hb].
      * intros [H|(n & Hin & Hb)]; apply Hfound; [left; exact H|].
        apply elem_of_cons in Hin as [->|Hin].
        -- destruct Hb as (o2 & c2 & _ & Hout2 & Hc2 & _).
           rewrite Hout in Hout2. injection Hout2 as <-. congruence.
        -- right. exists n. split; assumption.
    + rewrite Hout in Hout'. injection Hout' as <-. rewrite Hc, Hm, Hp.
      set (w1 := World (step_context w) (materializer_registry w)
                       (events w ++ [EvGetOrCreateModelVersion m])).
      destruct (IH ({[ p ]} ∪ models) w1 Hctx Hrest)
        as (found & w' & Hloop & Hctx' & Hlinks & Hsaved & Hfound).
      exists found, w'. split; [exact Hloop|]. split; [exact Hctx'|].
      split; [rewrite Hlinks; unfold run_links, w1; simpl;
              rewrite omap_app; apply app_nil_r|].
      split; [rewrite Hsaved; unfold saved, w1; simpl;
              rewrite omap_app; apply app_nil_r|].
      intros q. rewrite Hfound. split.
      * intros [H|(n & Hin & Hb)].
        -- apply elem_of_union in H as [H|H]; [|left; exact H].
           apply elem_of_singleton in H as ->. right. exists name.
           split; [left|]. exists o, c, m. repeat split; assumption.
        -- right. exists n. split; [right; exact Hin | exact Hb].
      * intros [H|(n & Hin & Hb)].
        -- left. apply elem_of_union. right. exact H.
        -- apply elem_of_cons in Hin as [->|Hin].
           ++ left. apply elem_of_union. left. apply elem_of_singleton.
              destruct Hb as (o2 & c2 & m2 & Hout2 & Hc2 & Hm2 & Hp2).
              rewrite Hout in Hout2. injection Hout2 as <-.
              congruence.
           ++ right. exists n. split; assumption.
Qed.

Lemma create_links_loop pipeline_run (pairs : list (UUID * UUID)) : ∀ w w',
  for_each pairs tt
    (λ _ model,
       call (EvCreateRunLink (pr_id pipeline_run) model.1 model.2)
            (create_model_version_pipeline_run_link env
               (pr_id pipeline_run) model.1 model.2)) w
  = (Returned tt, w') →
  events w'
  = events w
    ++ ((λ p : UUID * UUID,
             EvCreateRunLink (pr_id pipeline_run) p.1 p.2) <$> pairs)
  ∧ step_context w' = step_context w.
Proof.
  induction pairs as [|p pairs IH]; intros w w'; cbn [for_each].
  - intros [= <-]. rewrite app_nil_r. split; reflexivity.
  - intros H. apply bind_returned in H as ([] & w1 & Hcall & Hrest).
    rewrite call_run in Hcall. injection Hcall as _ <-.
    apply IH in Hrest as [-> ->]. simpl. rewrite <- app_assoc.
    split; reflexivity.
Qed.

Lemma add_external_models_spec eas : ∀ (models : gset (UUID * UUID)) p,
  p ∈ StepRunner.add_external_models eas models
  ↔ p ∈ models ∨ ∃ ea, ea ∈ eas ∧ ea_model ea = Some p.
Proof.
  unfold StepRunner.add_external_models.
  induction eas as [|ea eas IH]; intros models p; simpl.
  - split; [intros H; left; exact H|].
    intros [H|(ea & Hin & _)]; [exact H | inversion Hin].
  - rewrite IH. destruct (ea_model ea) as [q|] eqn:Hq.
    + rewrite elem_of_union, elem_of_singleton. split.
      * intros [[->|H]|(ea' & Hin & Hea)].
        -- right. exists ea. split; [left | exact Hq].
        -- left. exact H.
        -- right. exists ea'. split; [right; exact Hin | exact Hea].
      * intros [H|(ea' & Hin & Hea)]; [left; right; exact H|].
        apply elem_of_cons in Hin as [->|Hin].
        -- left. left. congruence.
        -- right. exists ea'. split; assumption.
    + split.
      * intros [H|(ea' & Hin & Hea)]; [left; exact H|].
        right. exists ea'. split; [right; exact Hin | exact Hea].
      * intros [H|(ea' & Hin & Hea)]; [left; exact H|].
        apply elem_of_cons in Hin as [->|Hin]; [congruence|].
        right. exists ea'. split; assumption.
Qed.

Lemma run_links_app w evs :
  run_links (World (step_context w) (materializer_registry w)
                   (events w ++ evs))
  = run_links w
    ++ omap (λ ev, match ev with
                   | EvCreateRunLink r m v => Some (r, m, v)
                   | _ => None
                   end) evs.
Proof. unfold run_links. simpl. apply omap_app. Qed.

End linking.

(** X7: when every published output exists in the step context and
    either has no artifact configuration or declares a model that
    resolves, [_get_model_versions_from_artifacts] returns, and the set
    it returns holds exactly the resolved (model, model version) pairs of
    the outputs that declare a model: none is left out. It requests no
    link and stores nothing. *)
Theorem model_versions_collected (env : Env) (ctx : StepContext)
    (artifact_names : list string) (w : world) :
  step_context w = Some ctx →
  Forall (Spec.well_bound env ctx) artifact_names →
  ∃ models w',
    StepRunner._get_model_versions_from_artifacts env artifact_names w
    = (Returned models, w')
    ∧ run_links w' = run_links w
    ∧ saved w' = saved w
    ∧ ∀ p, p ∈ models ↔
           ∃ name, name ∈ artifact_names ∧ Spec.bound_to env ctx name p.
Proof.
  intros Hctx Hall.
  destruct (model_versions_loop env ctx artifact_names ∅ w Hctx Hall)
    as (models & w' & Hloop & _ & Hlinks & Hsaved & Hmodels).
  exists models, w'. split; [exact Hloop|]. split; [exact Hlinks|].
  split; [exact Hsaved|]. intros p. rewrite Hmodels. split.
  - intros [H|H]; [set_solver | exact H].
  - intros H. right. exact H.
Qed.

Lemma model_versions_collected_witness :
  ∃ models w',
    StepRunner._get_model_versions_from_artifacts
      (Examples.env_of false Examples.silent_step Examples.no_hooks)
      ["plot"; "classifier"] Examples.linked_outputs_world
    = (Returned models, w')
    ∧ (5%N, 100%N) ∈ models.
Proof.
  destruct (model_versions_collected
              (Examples.env_of false Examples.silent_step Examples.no_hooks)
              Examples.linked_outputs_context ["plot"; "classifier"]
              Examples.linked_outputs_world eq_refl)
    as (models & w' & Hrun & _ & _ & Hmodels).
  - constructor; [|constructor; [|constructor]].
    + eexists. split; [reflexivity|]. left. reflexivity.
    + eexists. split; [reflexivity|]. right. exists (5%N, 100%N).
      do 3 eexists. repeat split; reflexivity.
  - exists models, w'. split; [exact Hrun|]. apply Hmodels.
    exists "classifier". split; [right; left|].
    do 3 eexists. repeat split; reflexivity.
Defined.

(** X8: when [_link_pipeline_run_to_model_from_artifacts] returns, it has
    requested exactly one link of the pipeline run for each distinct
    (model, model version) pair among those collected from the outputs
    and those of the external input artifacts: a pair shared by several
    artifacts is linked once, and the model of every external artifact
    that has one is linked. *)
Theorem run_linked_once_per_model (env : Env)
    (pipeline_run : PipelineRunResponse) (artifact_names : list string)
    (external_artifacts : list ExternalArtifactConfiguration) (w w' : world) :
  StepRunner._link_pipeline_run_to_model_from_artifacts env pipeline_run
    artifact_names external_artifacts w = (Returned tt, w') →
  ∃ collected w1 links,
    StepRunner._get_model_versions_from_artifacts env artifact_names w
    = (Returned collected, w1)
    ∧ events w'
      = events w1
        ++ ((λ p : UUID * UUID,
             EvCreateRunLink (pr_id pipeline_run) p.1 p.2) <$> links)
    ∧ NoDup links
    ∧ ∀ p, p ∈ links ↔
           p ∈ collected
           ∨ ∃ ea, ea ∈ external_artifacts ∧ ea_model ea = Some p.
Proof.
  unfold StepRunner._link_pipeline_run_to_model_from_artifacts. intros H.
  apply bind_returned in H as (collected & w1 & Hget & Hlinks).
  unfold StepRunner.create_links in Hlinks.
  apply create_links_loop in Hlinks as [Hev _].
  exists collected, w1,
    (elements (StepRunner.add_external_models external_artifacts collected)).
  split; [exact Hget|]. split; [exact Hev|]. split; [apply NoDup_elements|].
  intros p. rewrite elem_of_elements. apply add_external_models_spec.
Qed.

Lemma run_linked_once_per_model_witness :
  ∃ w',
    StepRunner._link_pipeline_run_to_model_from_artifacts
      (Examples.env_of false Examples.silent_step Examples.no_hooks)
      Examples.pipeline_run_1 ["classifier"; "classifier"]
      [{| ea_model := Some (5%N, 100%N) |}; {| ea_model := None |}]
      Examples.linked_outputs_world = (Returned tt, w')
    ∧ run_links w' = [(1%N, 5%N, 100%N)].
Proof.
  eexists. split; [vm_compute; reflexivity|].
  edestruct (run_linked_once_per_model
               (Examples.env_of false Examples.silent_step Examples.no_hooks)
               Examples.pipeline_run_1 ["classifier"; "classifier"]
               [{| ea_model := Some (5%N, 100%N) |}; {| ea_model := None |}]
               Examples.linked_outputs_world) as (c & w1 & links & _).
  - vm_compute. reflexivity.
  - vm_compute. reflexivity.
Defined.

(** X9: in a step context without a model, neither
    [_prepare_model_context_for_step] nor
    [_link_pipeline_run_to_model_from_context] does anything: the
    [StepContextError] of the missing model is swallowed and no
    collaborator is called. With a model that resolves, exactly one link
    of the pipeline run is requested, to that model version, and the call
    ends as the link request does. *)
Theorem context_model_linked (env : Env)
    (pipeline_run : PipelineRunResponse) (ctx : StepContext) (w : world) :
  step_context w = Some ctx →
  (ctx_model ctx = None →
   StepRunner._prepare_model_context_for_step env w = (Returned tt, w)
   ∧ StepRunner._link_pipeline_run_to_model_from_context env pipeline_run w
     = (Returned tt, w))
  ∧ (∀ m p,
       ctx_model ctx = Some m →
       get_or_create_model_version env m = Returned p →
       let r :=
         StepRunner._link_pipeline_run_to_model_from_context env
           pipeline_run w in
       r.1 = create_model_version_pipeline_run_link env (pr_id pipeline_run)
               p.1 p.2
       ∧ run_links r.2 = run_links w ++ [(pr_id pipeline_run, p.1, p.2)]).
Proof.
  intros Hctx. split.
  - intros Hnone.
    unfold StepRunner._prepare_model_context_for_step,
      StepRunner._link_pipeline_run_to_model_from_context,
      StepRunner._get_model_versions_from_config,
      StepRunner.create_links, try_except_StepContextError, context_model.
    run_monad. rewrite Hctx. simpl. rewrite Hnone. simpl.
    rewrite elements_empty. split; reflexivity.
  - intros m p Hm Hp.
    unfold StepRunner._link_pipeline_run_to_model_from_context,
      StepRunner._get_model_versions_from_config,
      StepRunner.create_links, try_except_StepContextError, context_model.
    run_monad. rewrite Hctx. simpl. rewrite Hm. simpl. rewrite Hp. simpl.
    rewrite elements_singleton. simpl.
    destruct (create_model_version_pipeline_run_link env
                (pr_id pipeline_run) p.1 p.2) as [[]|e]; simpl;
      (split; [reflexivity|]); unfold run_links; simpl;
      rewrite <- app_assoc, omap_app; reflexivity.
Qed.

Lemma context_model_linked_witness :
  run_links
    (StepRunner._link_pipeline_run_to_model_from_context
       (Examples.env_of false Examples.silent_step Examples.no_hooks)
       Examples.pipeline_run_1 Examples.model_world).2
  = [(1%N, 5%N, 100%N)].
Proof.
  destruct (context_model_linked
              (Examples.env_of false Examples.silent_step Examples.no_hooks)
              Examples.pipeline_run_1 Examples.model_context
              Examples.model_world eq_refl) as [_ H].
  destruct (H Examples.churn_model (5%N, 100%N) eq_refl eq_refl) as [_ ->].
  reflexivity.
Defined.

(** ** The arguments of a hook *)

Section hook_inputs.
Context (env : Env) (self : Step).
Context (annotations : gmap string hook_annotation).
Context (step_exception : option exn).

Lemma parse_hook_inputs_loop (l : list string) : ∀ acc w,
  let r :=
    for_each l acc
      (λ function_params arg,
         match default HA_missing (annotations !! arg) with
         | HA_missing =>
             raise TypeError (MsgText "issubclass() arg 1 must be a class")
         | HA_BaseParameters parse_obj =>
             v ← subscript
                   (parameters (StepRunner.configuration self) !! arg) arg;
             step_params ←
               match parse_obj v with
               | Some step_params => mret step_params
               | None =>
                   raise (OtherException "ValidationError")
                         (MsgText "validation error for the hook parameters")
               end;
             mret (dict_set function_params arg (HParameters step_params))
         | HA_StepContext =>
             _ ← get_step_context;
             mret (dict_set function_params arg HStepContext)
         | HA_BaseException =>
             mret (dict_set function_params arg (HException step_exception))
         | HA_other => raise TypeError MsgBadHookArgument
         end) w in
  r.2 = w
  ∧ (∀ e, r.1 = Raised e → is_Exception (exn_type e) = true)
  ∧ (∀ params,
       r.1 = Returned params →
       (∀ arg, arg ∈ l →
          ∃ v, dict_get params arg = Some v
               ∧ Spec.hook_argument self annotations step_exception w arg v)
       ∧ (∀ arg, arg ∉ l → dict_get params arg = dict_get acc arg))
  ∧ ((∀ arg, arg ∈ l →
        ∃ v, Spec.hook_argument self annotations step_exception w arg v) →
     is_raised r.1 = false).
Proof.
  induction l as [|a l IH]; intros acc w; cbn [for_each].
  - simpl. split; [reflexivity|]. split; [discriminate|]. split.
    + intros params [= <-]. split; [intros arg H; inversion H | reflexivity].
    + reflexivity.
  - assert (Hnext : ∀ v,
      Spec.hook_argument self annotations step_exception w a v →
      let r := for_each l (dict_set acc a v)
        (λ function_params arg,
         match default HA_missing (annotations !! arg) with
         | HA_missing =>
             raise TypeError (MsgText "issubclass() arg 1 must be a class")
         | HA_BaseParameters parse_obj =>
             v ← subscript
                   (parameters (StepRunner.configuration self) !! arg) arg;
             step_params ←
               match parse_obj v with
               | Some step_params => mret step_params
               | None =>
                   raise (OtherException "ValidationError")
                         (MsgText "validation error for the hook parameters")
               end;
             mret (dict_set function_params arg (HParameters step_params))
         | HA_StepContext =>
             _ ← get_step_context;
             mret (dict_set function_params arg HStepContext)
         | HA_BaseException =>
             mret (dict_set function_params arg (HException step_exception))
         | HA_other => raise TypeError MsgBadHookArgument
         end) w in
      r.2 = w
      ∧ (∀ e, r.1 = Raised e → is_Exception (exn_type e) = true)
      ∧ (∀ params,
           r.1 = Returned params →
           (∀ arg, arg ∈ a :: l →
              ∃ v, dict_get params arg = Some v
                   ∧ Spec.hook_argument self annotations step_exception w
                       arg v)
           ∧ (∀ arg, arg ∉ a :: l → dict_get params arg = dict_get acc arg))
      ∧ ((∀ arg, arg ∈ a :: l →
            ∃ v, Spec.hook_argument self annotations step_exception w arg v) →
         is_raised r.1 = false)).
    { intros v Hv. destruct (IH (dict_set acc a v) w)
        as (Hw & Hexn & Hret & Hall).
      split; [exact Hw|]. split; [exact Hexn|]. split.
      - intros params Hparams. destruct (Hret params Hparams) as [Hin Hout].
        split.
        + intros arg Harg. destruct (decide (arg ∈ l)) as [Hl|Hl].
          * apply Hin, Hl.
          * apply elem_of_cons in Harg as [->|Harg]; [|contradiction].
            exists v. split; [|exact Hv].
            rewrite (Hout a Hl), dict_get_set.
            destruct (decide (a = a)); [reflexivity | contradiction].
        + intros arg Harg. apply not_elem_of_cons in Harg as [Hne Hl].
          rewrite (Hout arg Hl), dict_get_set.
          destruct (decide (a = arg)); [congruence | reflexivity].
      - intros Hargs. apply Hall. intros arg Harg. apply Hargs.
        right. exact Harg. }
    assert (Hstop : ∀ e,
      is_Exception (exn_type e) = true →
      (∀ v, ¬ Spec.hook_argument self annotations step_exception w a v) →
      let r : outcome (odict hook_value) * world := (Raised e, w) in
      r.2 = w
      ∧ (∀ e, r.1 = Raised e → is_Exception (exn_type e) = true)
      ∧ (∀ params,
           r.1 = Returned params →
           (∀ arg, arg ∈ a :: l →
              ∃ v, dict_get params arg = Some v
                   ∧ Spec.hook_argument self annotations step_exception w
                       arg v)
           ∧ (∀ arg, arg ∉ a :: l → dict_get params arg = dict_get acc arg))
      ∧ ((∀ arg, arg ∈ a :: l →
            ∃ v, Spec.hook_argument self annotations step_exception w arg v) →
         is_raised r.1 = false)).
    { intros e He Hno. simpl. split; [reflexivity|].
      split; [intros ? [= <-]; exact He|]. split; [discriminate|].
      intros Hargs. destruct (Hargs a) as [v Hv]; [left|].
      exfalso. exact (Hno v Hv). }
    rewrite bind_run.
    destruct (annotations !! a) as [[|parse_obj| | |]|] eqn:Ha; simpl.
    + apply (Hstop (Exn TypeError
                      (MsgText "issubclass() arg 1 must be a class")));
        [reflexivity|].
      intros v. unfold Spec.hook_argument. rewrite Ha. intros [].
    + destruct (parameters (StepRunner.configuration self) !! a)
        as [p|] eqn:Hp; run_monad.
      * destruct (parse_obj p) as [step_params|] eqn:Hparse; simpl.
        -- apply (Hnext (HParameters step_params)).
           unfold Spec.hook_argument. rewrite Ha.
           exists p, step_params. repeat split; assumption.
        -- apply (Hstop (Exn (OtherException "ValidationError")
                           (MsgText
                              "validation error for the hook parameters")));
             [reflexivity|].
           intros v. unfold Spec.hook_argument. rewrite Ha, Hp.
           intros (p' & q & [= <-] & Hq & _). congruence.
      * apply (Hstop (Exn KeyError (MsgKey a))); [reflexivity|].
        intros v. unfold Spec.hook_argument. rewrite Ha, Hp.
        intros (p & q & Hp' & _). discriminate.
    + run_monad. destruct (step_context w) as [c|] eqn:Hc; simpl.
      * apply (Hnext HStepContext). unfold Spec.hook_argument.
        rewrite Ha, Hc. split; [eexists; reflexivity | reflexivity].
      * apply (Hstop (Exn RuntimeError MsgNoStepContext)); [reflexivity|].
        intros v. unfold Spec.hook_argument. rewrite Ha, Hc.
        intros [[c Hc'] _]. discriminate.
    + run_monad. apply (Hnext (HException step_exception)).
      unfold Spec.hook_argument. rewrite Ha. reflexivity.
    + apply (Hstop (Exn TypeError MsgBadHookArgument)); [reflexivity|].
      intros v. unfold Spec.hook_argument. rewrite Ha. intros [].
    + apply (Hstop (Exn TypeError
                      (MsgText "issubclass() arg 1 must be a class")));
        [reflexivity|].
      intros v. unfold Spec.hook_argument. rewrite Ha. intros [].
Qed.

End hook_inputs.

(** X10: [_parse_hook_inputs] returns exactly when every argument of the
    hook, a leading [self] apart, can be bound: an argument annotated
    with a subclass of [BaseParameters] to the step parameter of its
    name as parsed by [parse_obj] of that class, one annotated as
    [StepContext] to the live step context, one annotated as an
    exception to the exception of the step. The dictionary it returns
    then binds each of these arguments that way and nothing else. An
    argument without an annotation or with another one, a missing step
    parameter, a parameter that [parse_obj] rejects and a missing step
    context make it raise; whatever it raises is an [Exception], and the
    process state is unchanged. *)
Theorem hook_inputs_bound (self : Step) (args : list string)
    (annotations : gmap string hook_annotation)
    (step_exception : option exn) (w : world) :
  let r := StepRunner._parse_hook_inputs self args annotations
             step_exception w in
  r.2 = w
  ∧ (∀ e, r.1 = Raised e → is_Exception (exn_type e) = true)
  ∧ (is_raised r.1 = false ↔
     ∀ arg, arg ∈ Spec.to_bind args →
       ∃ v, Spec.hook_argument self annotations step_exception w arg v)
  ∧ (∀ params,
       r.1 = Returned params →
       ∀ arg,
         match dict_get params arg with
         | Some v =>
             arg ∈ Spec.to_bind args
             ∧ Spec.hook_argument self annotations step_exception w arg v
         | None => arg ∉ Spec.to_bind args
         end).
Proof.
  unfold StepRunner._parse_hook_inputs. rewrite drop_self_to_bind.
  destruct (parse_hook_inputs_loop self annotations step_exception
              (Spec.to_bind args) [] w) as (Hw & Hexn & Hret & Hall).
  split; [exact Hw|]. split; [exact Hexn|]. split.
  - split; [|exact Hall]. intros Hok arg Harg.
    match type of Hok with is_raised ?o = false =>
      assert (∃ params, o = Returned params) as [params Hparams]
        by (revert Hok; generalize o; intros [p|e];
            [eexists; reflexivity | discriminate]) end.
    destruct (Hret params Hparams) as [Hin _].
    destruct (Hin arg Harg) as (v & _ & Hv). exists v. exact Hv.
  - intros params Hparams arg. destruct (Hret params Hparams) as [Hin Hout].
    destruct (decide (arg ∈ Spec.to_bind args)) as [Harg|Harg].
    + destruct (Hin arg Harg) as (v & -> & Hv). split; assumption.
    + rewrite (Hout arg Harg). simpl. exact Harg.
Qed.

(** ** The materializers of the outputs *)

Section output_materializers.
Context (env : Env).

Lemma load_classes_loop (sources : list Source) : ∀ acc w,
  let r :=
    for_each sources acc
      (λ acc src,
         materializer_class ← lift (load_and_validate_class env src);
         mret (acc ++ [materializer_class])) w in
  r.2 = w
  ∧ (∀ classes,
       r.1 = Returned classes →
       ∃ loaded, classes = acc ++ loaded
                 ∧ Forall2 (λ src c,
                              load_and_validate_class env src = Returned c)
                           sources loaded)
  ∧ (∀ e, r.1 = Raised e →
          ∃ src, src ∈ sources ∧ load_and_validate_class env src = Raised e)
  ∧ (is_raised r.1 = true ↔
     ∃ src, src ∈ sources
            ∧ is_raised (load_and_validate_class env src) = true).
Proof.
  induction sources as [|src sources IH]; intros acc w; cbn [for_each].
  - simpl. split; [reflexivity|]. split.
    + intros classes [= <-]. exists []. rewrite app_nil_r.
      split; [reflexivity | constructor].
    + split; [discriminate|]. split; [discriminate|].
      intros (src & Hin & _). inversion Hin.
  - rewrite bind_run. run_monad.
    destruct (load_and_validate_class env src) as [c|e] eqn:Hsrc; simpl.
    + destruct (IH (acc ++ [c]) w) as (Hw & Hret & Hexn & Hraised).
      split; [exact Hw|]. split; [|split].
      * intros classes Hclasses.
        destruct (Hret classes Hclasses) as (loaded & -> & Hall).
        exists (c :: loaded). rewrite <- app_assoc.
        split; [reflexivity | constructor; assumption].
      * intros e He. destruct (Hexn e He) as (s & Hin & Hs).
        exists s. split; [right; exact Hin | exact Hs].
      * rewrite Hraised. split.
        -- intros (s & Hin & Hs). exists s. split; [right; exact Hin|exact Hs].
        -- intros (s & Hin & Hs). apply elem_of_cons in Hin as [->|Hin].
           ++ rewrite Hsrc in Hs. discriminate.
           ++ exists s. split; assumption.
    + split; [reflexivity|]. split; [discriminate|]. split.
      * intros e' [= <-]. exists src. split; [left | exact Hsrc].
      * split; [|reflexivity]. intros _. exists src.
        split; [left | rewrite Hsrc; reflexivity].
Qed.

Lemma load_output_materializers_loop
    (outputs : odict ArtifactOutputConfiguration) : ∀ acc w,
  NoDup (acc.*1 ++ outputs.*1) →
  let r :=
    for_each outputs acc
      (λ materializers '(name, output),
         output_materializers ← for_each (materializer_source output) []
           (λ acc src,
              materializer_class ← lift (load_and_validate_class env src);
              mret (acc ++ [materializer_class]));
         mret (dict_set materializers name output_materializers)) w in
  r.2 = w
  ∧ (∀ materializers,
       r.1 = Returned materializers →
       ∃ loaded,
         materializers = acc ++ loaded
         ∧ Forall2 (λ (o : string * ArtifactOutputConfiguration)
                      (m : string * list Materializer),
                      m.1 = o.1
                      ∧ Forall2 (λ src c,
                                   load_and_validate_class env src
                                   = Returned c)
                                (materializer_source o.2) m.2)
                   outputs loaded)
  ∧ (is_raised r.1 = true ↔
     ∃ o src, o ∈ outputs ∧ src ∈ materializer_source o.2
              ∧ is_raised (load_and_validate_class env src) = true).
Proof.
  induction outputs as [|[name output] outputs IH]; intros acc w Hnodup;
    cbn [for_each].
  - simpl. split; [reflexivity|]. split.
    + intros ms [= <-]. exists []. rewrite app_nil_r.
      split; [reflexivity | constructor].
    + split; [discriminate|]. intros (o & src & Hin & _). inversion Hin.
  - rewrite !bind_run.
    destruct (load_classes_loop (materializer_source output) [] w)
      as (Hw & Hret & _ & Hraised).
    destruct (for_each (materializer_source output) [] _ w)
      as [[classes|e] w1] eqn:Hload; simpl in Hw; subst w1.
    + destruct (Hret classes eq_refl) as (loaded & -> & Hall). simpl in *.
      run_monad.
      assert (Hfresh : name ∉ acc.*1).
      { intros Hin. apply NoDup_app in Hnodup as (_ & Hdisj & _).
        apply (Hdisj name Hin). left. }
      rewrite (dict_set_fresh _ _ _ Hfresh).
      destruct (IH (acc ++ [(name, loaded)]) w) as (Hw' & Hret' & Hraised').
      { rewrite fmap_app, <- app_assoc. exact Hnodup. }
      split; [exact Hw'|]. split.
      * intros ms Hms. destruct (Hret' ms Hms) as (rest & -> & Hrest).
        exists ((name, loaded) :: rest). rewrite <- app_assoc.
        split; [reflexivity|]. constructor; [|exact Hrest].
        split; [reflexivity | exact Hall].
      * rewrite Hraised'. split.
        -- intros (o & src & Hin & Hsrc & Hr). exists o, src.
           split; [right; exact Hin|]. split; assumption.
        -- intros (o & src & Hin & Hsrc & Hr).
           apply elem_of_cons in Hin as [->|Hin].
           ++ simpl in Hsrc. exfalso.
              assert (Hno : is_raised (Returned loaded
                                       : outcome (list Materializer)) = true).
              { apply Hraised. exists src. split; assumption. }
              discriminate.
           ++ exists o, src. split; [exact Hin|]. split; assumption.
    + simpl. split; [reflexivity|]. split; [discriminate|].
      split; [|reflexivity]. intros _.
      destruct (proj1 Hraised eq_refl) as (src & Hin & Hr).
      exists (name, output), src. split; [left|]. split; assumption.
Qed.

End output_materializers.

(** X11: [_load_output_materializers] raises exactly when a materializer
    source of some configured output fails to load. Otherwise it returns,
    for the outputs in their configured order, each output name with the
    classes loaded from its sources, in the order of the sources; the
    process state is unchanged. *)
Theorem output_materializers_loaded (env : Env) (self : Step) (w : world) :
  NoDup (outputs (StepRunner.configuration self)).*1 →
  let r := StepRunner._load_output_materializers env self w in
  r.2 = w
  ∧ (is_raised r.1 = true ↔
     ∃ o src, o ∈ outputs (StepRunner.configuration self)
              ∧ src ∈ materializer_source o.2
              ∧ is_raised (load_and_validate_class env src) = true)
  ∧ (∀ materializers,
       r.1 = Returned materializers →
       materializers.*1 = (outputs (StepRunner.configuration self)).*1
       ∧ ∀ name output,
           (name, output) ∈ outputs (StepRunner.configuration self) →
           ∃ classes,
             dict_get materializers name = Some classes
             ∧ Forall2 (λ src c,
                          load_and_validate_class env src = Returned c)
                       (materializer_source output) classes).
Proof.
  intros Hnodup. unfold StepRunner._load_output_materializers.
  destruct (load_output_materializers_loop env
              (outputs (StepRunner.configuration self)) [] w Hnodup)
    as (Hw & Hret & Hraised).
  split; [exact Hw|]. split; [exact Hraised|].
  intros ms Hms. destruct (Hret ms Hms) as (loaded & -> & Hall).
  simpl. clear Hms Hret Hraised Hw.
  revert Hnodup Hall.
  generalize (outputs (StepRunner.configuration self)). intros outs.
  revert loaded. induction outs as [|[n o] outs IH]; intros loaded Hnodup Hall.
  - inversion Hall; subst. split; [reflexivity|]. intros ? ? H. inversion H.
  - inversion Hall as [|? [n' cs] ? rest [Hn Hcs] Hrest]; subst.
    simpl in Hn, Hcs. subst n'. apply NoDup_cons in Hnodup as [Hfresh Hnodup].
    destruct (IH rest Hnodup Hrest) as [Hkeys Hget]. split.
    + rewrite !fmap_cons. simpl. f_equal. exact Hkeys.
    + intros name output Hin. cbn [dict_get].
      apply elem_of_cons in Hin as [[= -> ->]|Hin].
      * exists cs. destruct (decide (n = n)); [|contradiction].
        split; [reflexivity | exact Hcs].
      * destruct (decide (n = name)) as [->|Hne].
        -- exfalso. apply Hfresh. apply list_elem_of_fmap.
           exists (name, output). split; [reflexivity | exact Hin].
        -- apply Hget, Hin.
Qed.

Lemma output_materializers_loaded_witness :
  (StepRunner._load_output_materializers
     (Examples.env_of false Examples.two_values_step Examples.no_hooks)
     (Examples.step_of Examples.two_outputs_config)
     Examples.fresh_world).2 = Examples.fresh_world.
Proof.
  apply (output_materializers_loaded
           (Examples.env_of false Examples.two_values_step Examples.no_hooks)
           (Examples.step_of Examples.two_outputs_config)
           Examples.fresh_world).
  apply (bool_decide_unpack _). vm_compute. exact I.
Defined.

(** * Further properties of the user accounts *)

(** ** Secrets of an account *)

Section secrets.
Import UserModel UserModelTokens.
Context (pwd_context : CryptContext).

Lemma get_hashed_secret_plain (secret : string) :
  _is_hashed_secret secret = false →
  _get_hashed_secret pwd_context (Some secret)
  = (Some (crypt_hash pwd_context secret), [CallHash secret]).
Proof. intros H. unfold _get_hashed_secret. rewrite H. reflexivity. Qed.

Lemma verify_activation_token_no_lookup (token : string) (u : user) :
  activation_token u = None ∨ active (account u) = true →
  verify_activation_token pwd_context token (Some u)
  = (crypt_verify pwd_context token None, [CallVerify token None]).
Proof.
  unfold verify_activation_token.
  destruct (activation_token u) as [t|]; [|reflexivity].
  intros [?|Hactive]; [discriminate|]. rewrite Hactive. reflexivity.
Qed.

End secrets.

(** X12: the two secrets of an account are never both usable. For an
    active account, [verify_activation_token] looks up no hash and, for
    an inactive one, [verify_password] looks up none: each then makes
    the one verification against an absent hash that it makes for no
    user at all, which [passlib] rejects. The same holds for an account
    without activation token. *)
Theorem secrets_follow_activation (pwd_context : UserModel.CryptContext)
    (token secret : string) (u : UserModelTokens.user) :
  (∀ s, UserModel.crypt_verify pwd_context s None = false) →
  (UserModel.active (UserModelTokens.account u) = true
   ∨ UserModelTokens.activation_token u = None →
   UserModelTokens.verify_activation_token pwd_context token (Some u)
   = (false, [UserModel.CallVerify token None]))
  ∧ (UserModel.active (UserModelTokens.account u) = false →
     UserModel.verify_password pwd_context secret
       (Some (UserModelTokens.account u))
     = (false, [UserModel.CallVerify secret None]))
  ∧ UserModelTokens.verify_activation_token pwd_context token None
    = (false, [UserModel.CallVerify token None]).
Proof.
  intros Hnone. split; [|split].
  - intros H. rewrite verify_activation_token_no_lookup by tauto.
    rewrite Hnone. reflexivity.
  - intros Hinactive. unfold UserModel.verify_password.
    destruct (UserModel.password (UserModelTokens.account u));
      rewrite ?Hinactive; simpl; rewrite Hnone; reflexivity.
  - unfold UserModelTokens.verify_activation_token. simpl.
    rewrite Hnone. reflexivity.
Qed.

Lemma secrets_follow_activation_witness :
  UserModelTokens.verify_activation_token Examples.toy_crypt_context
    "welcome" (Some Examples.active_user)
  = (false, [UserModel.CallVerify "welcome" None]).
Proof.
  destruct (secrets_follow_activation Examples.toy_crypt_context "welcome"
              "hunter2" Examples.active_user) as [H _].
  - intros s. reflexivity.
  - apply H. left. reflexivity.
Defined.

(** X13: a stored secret verifies. With a [passlib] context that
    verifies a secret against its own hash, the password of an active
    account is accepted by [verify_password] and the activation token of
    an inactive account by [verify_activation_token], when the stored
    secret does not itself look like a bcrypt hash; the secret is hashed
    once and verified once. A stored secret that looks like a bcrypt hash
    is used as the hash, without hashing. *)
Theorem stored_secret_verifies (pwd_context : UserModel.CryptContext)
    (secret plain : string) (u : UserModelTokens.user) :
  (∀ s, UserModel.crypt_verify pwd_context s
          (Some (UserModel.crypt_hash pwd_context s)) = true) →
  (UserModel.active (UserModelTokens.account u) = true →
   UserModel.password (UserModelTokens.account u) = Some secret →
   if UserModel._is_hashed_secret secret
   then UserModel.verify_password pwd_context plain
          (Some (UserModelTokens.account u))
        = (UserModel.crypt_verify pwd_context plain (Some secret),
           [UserModel.CallVerify plain (Some secret)])
   else UserModel.verify_password pwd_context secret
          (Some (UserModelTokens.account u))
        = (true,
           [UserModel.CallHash secret;
            UserModel.CallVerify secret
              (Some (UserModel.crypt_hash pwd_context secret))]))
  ∧ (UserModel.active (UserModelTokens.account u) = false →
     UserModelTokens.activation_token u = Some secret →
     if UserModel._is_hashed_secret secret
     then UserModelTokens.verify_activation_token pwd_context plain (Some u)
          = (UserModel.crypt_verify pwd_context plain (Some secret),
             [UserModel.CallVerify plain (Some secret)])
     else UserModelTokens.verify_activation_token pwd_context secret
            (Some u)
          = (true,
             [UserModel.CallHash secret;
              UserModel.CallVerify secret
                (Some (UserModel.crypt_hash pwd_context secret))])).
Proof.
  intros Hverify. split.
  - intros Hactive Hpassword.
    unfold UserModel.verify_password, UserModel.get_hashed_password,
      UserModel._get_hashed_secret.
    rewrite Hpassword, Hactive.
    destruct (UserModel._is_hashed_secret secret); simpl;
      rewrite ?Hverify; reflexivity.
  - intros Hinactive Htoken.
    unfold UserModelTokens.verify_activation_token,
      UserModelTokens.get_hashed_activation_token,
      UserModel._get_hashed_secret.
    rewrite Htoken, Hinactive.
    destruct (UserModel._is_hashed_secret secret); simpl;
      rewrite ?Hverify; reflexivity.
Qed.

Lemma stored_secret_verifies_witness :
  UserModelTokens.verify_activation_token Examples.toy_crypt_context
    "welcome" (Some Examples.invited_user)
  = (true,
     [UserModel.CallHash "welcome";
      UserModel.CallVerify "welcome" (Some "$2b$welcome")]).
Proof.
  destruct (stored_secret_verifies Examples.toy_crypt_context "welcome"
              "welcome" Examples.invited_user) as [_ H].
  - intros s. simpl. apply bool_decide_eq_true. reflexivity.
  - apply (H eq_refl eq_refl).
Defined.

(** ** Access tokens *)

Section access_tokens.
Import UserModelTokens.
Context (jose : JWTToken.Jose) (get_user : UUID → outcome user).



End access_tokens.



(** X15: an access token round trip. With a [jose] whose [decode] gives
    back the claims of a token without expiry that its [encode] made
    under the same key and algorithm, and with [UUID(str(id)) == id]:
    decoding an encoded token without expiry gives back the token
    object, and verifying the access token generated for a user gives
    the user that the store holds under that id if that account is
    active, and [None] if it is not. *)
Theorem access_token_round_trip (jose : JWTToken.Jose)
    (get_user : UUID → outcome UserModelTokens.user) :
  (∀ claims key algorithm token,
     claims !! "exp" = None →
     JWTToken.jwt_encode jose claims key algorithm = Returned token →
     JWTToken.jwt_decode jose token key [algorithm] = Returned claims) →
  (∀ user_id,
     JWTToken.uuid_of_str jose (JWTToken.str_of_uuid jose user_id)
     = Some user_id) →
  (∀ (self : JWTToken.t) token,
     JWTToken.encode jose self None = Returned token
     ∨ JWTToken.encode jose self (Some 0%Z) = Returned token →
     JWTToken.decode jose (JWTToken.token_type self) token = Returned self)
  ∧ (∀ (self stored : UserModelTokens.user) token,
       UserModelTokens.generate_access_token jose self = Returned token →
       get_user (UserModelTokens.id self) = Returned stored →
       UserModelTokens.id stored = UserModelTokens.id self →
       UserModelTokens.verify_access_token jose get_user token
       = Returned (if UserModel.active (UserModelTokens.account stored)
                   then Some stored else None)).
Proof.
  intros Hjose Huuid.
  assert (Hdecode : ∀ (self : JWTToken.t) token,
    JWTToken.encode jose self None = Returned token →
    JWTToken.decode jose (JWTToken.token_type self) token = Returned self).
  { intros [token_type user_id] token Hencode.
    unfold JWTToken.encode in Hencode. simpl in Hencode.
    apply Hjose in Hencode; [|apply lookup_singleton_ne; discriminate].
    unfold JWTToken.decode. rewrite Hencode, lookup_singleton.
    simpl. rewrite Huuid. reflexivity. }
  split.
  - intros self token [Hencode|Hencode]; apply Hdecode; exact Hencode.
  - intros self stored token Htoken Hstored Hid.
    unfold UserModelTokens.generate_access_token in Htoken.
    apply Hdecode in Htoken. simpl in Htoken.
    unfold UserModelTokens.verify_access_token.
    rewrite Htoken. simpl. rewrite Hstored, Hid.
    rewrite bool_decide_eq_true_2 by reflexivity. simpl.
    destruct (UserModel.active (UserModelTokens.account stored)); reflexivity.
Qed.

Lemma access_token_round_trip_witness :
  UserModelTokens.verify_access_token Examples.toy_jose Examples.toy_get_user
    "jwt:xxx"
  = Returned (Some Examples.active_user).
Proof.
  destruct (access_token_round_trip Examples.toy_jose Examples.toy_get_user)
    as [_ H].
  - intros claims key algorithm token _. simpl.
    destruct (claims !! "sub") as [[s|]|]; try discriminate.
    destruct (decide _) as [->|]; [|discriminate].
    intros [= <-]. reflexivity.
  - intros user_id. simpl. f_equal.
    rewrite <- (N2Nat.id user_id) at 2. f_equal.
    induction (N.to_nat user_id) as [|n IH]; simpl; congruence.
  - apply (H Examples.active_user Examples.active_user "jwt:xxx");
      reflexivity.
Defined.
